(** * altair/api.py: the Vega-lite object model, embedded in Rocq

    The Python classes of [altair/api.py] are traitlets classes: every class
    attribute declared with [T.<TraitType>(...)] is a validated attribute with
    a default value, and a method named [_<attr>_changed] runs synchronously
    whenever an assignment changes the value of [<attr>].

    The embedding keeps that shape:
    - every class is a record holding the current value of each trait;
    - an assignment [obj.attr = v] is a function that validates [v], stores
      it and then runs the change handler of the class, if the class has one
      and the value changed;
    - an exception is a value of type [exn]; a call that raises returns
      [Raise e] and the operation is abandoned there;
    - Python floats are IEEE binary64 numbers, taken from [SpecFloat]. *)

From Stdlib Require Import ZArith List String Ascii Bool Lia.
From Stdlib Require Import Floats.SpecFloat.
Import ListNotations.

Set Warnings "-register-all".

Open Scope string_scope.
Open Scope Z_scope.

(** ** Exceptions and the result of a call *)

Inductive exn : Type :=
| TraitError        (* traitlets validation failure *)
| AttributeError    (* attribute lookup on an object that lacks it *)
| TypeError
| ValueError
| OverflowError
| ZeroDivisionError
| ImportError
| KeyError
| InvalidShorthand. (* raised by utils.parse_shorthand *)

Inductive result (A : Type) : Type :=
| Return (a : A)
| Raise (e : exn).

Arguments Return {A} a.
Arguments Raise {A} e.

Definition bind {A B : Type} (c : result A) (k : A -> result B) : result B :=
  match c with
  | Return a => k a
  | Raise e => Raise e
  end.

Notation "x <- c ;; k" := (bind c (fun x => k))
  (at level 61, c at next level, right associativity).

(** ** Python values

    [BaseObject.__contains__] and [BaseObject.to_dict] look at attribute
    values reflectively ([getattr], [isinstance], truth value), so the values
    a trait can hold are gathered in one type. *)

(** Binary64, the format of a Python float. *)
Definition prec64 : Z := 53.
Definition emax64 : Z := 1024.
Definition float := spec_float.

(** The minimal tabular interface the module uses of a [pandas.DataFrame]:
    named columns ([name in data], [data[name]]), a dtype per column and the
    rows ([to_dict('records')]). *)
Inductive dtype : Type :=
| Numeric
| Temporal
| CategoricalOrdered
| Text.             (* unordered categorical or text *)

Inductive scalar : Type :=
| SInt (z : Z)
| SFloat (f : float)
| SStr (s : string).

Record Series : Type := { dt : dtype; cells : list scalar }.

Definition DataFrame : Type := list (string * Series).

Inductive value : Type :=
| VNone
| VBool (b : bool)
| VInt (z : Z)
| VFloat (f : float)
| VStr (s : string)
| VList (l : list value)
| VDict (d : list (string * value))   (* a dict, or a traitlets Config *)
| VFrame (df : DataFrame)             (* a pandas DataFrame *)
| VObj (d : list (string * value)).   (* a BaseObject instance, given by its own to_dict() *)

(** Association lists with string keys, used for dicts. *)
Fixpoint lookup {A : Type} (k : string) (d : list (string * A)) : option A :=
  match d with
  | [] => None
  | (k', v) :: r => if String.eqb k k' then Some v else lookup k r
  end.

Fixpoint mem (k : string) (l : list string) : bool :=
  match l with
  | [] => false
  | k' :: r => String.eqb k k' || mem k r
  end.

Definition keys {A : Type} (d : list (string * A)) : list string := map fst d.

(** d[k] = v on a dict: replace the binding of [k], or add it at the end. *)
Fixpoint dict_set {A : Type} (k : string) (v : A) (d : list (string * A))
  : list (string * A) :=
  match d with
  | [] => [(k, v)]
  | (k', v') :: r => if String.eqb k k' then (k, v) :: r else (k', v') :: dict_set k v r
  end.

(** [name in data] and [data[name]] on a DataFrame. *)
Definition df_contains (df : DataFrame) (name : string) : bool :=
  match lookup name df with Some _ => true | None => false end.

Definition df_getitem (df : DataFrame) (name : string) : option Series :=
  lookup name df.

(** ** Float arithmetic used by the module

    [int * float] converts the integer to the nearest binary64 number and
    multiplies; [int / int] is the quotient of the two integers rounded once
    to binary64; [int(x)] truncates towards zero. *)

Definition f64_of_Z (z : Z) : float := binary_normalize prec64 emax64 z 0 false.

Definition f64_mul (a b : float) : float := SFmul prec64 emax64 a b.

Definition f64_div (a b : float) : float := SFdiv prec64 emax64 a b.

(** An integer as an exact (not yet rounded) mantissa with exponent 0. *)
Definition f64_exact (z : Z) : float :=
  match z with
  | Z0 => S754_zero false
  | Zpos p => S754_finite false p 0
  | Zneg p => S754_finite true p 0
  end.

(** The literal 0.75 = 3 * 2^-2. *)
Definition f64_0_75 : float := Eval vm_compute in f64_div (f64_exact 3) (f64_exact 4).

(** The literals 0.1, 0.08 and 1.0 (trait defaults). *)
Definition f64_0_1 : float := Eval vm_compute in f64_div (f64_exact 1) (f64_exact 10).
Definition f64_0_08 : float := Eval vm_compute in f64_div (f64_exact 8) (f64_exact 100).
Definition f64_1_0 : float := Eval vm_compute in f64_of_Z 1.

(** float(z), as done for the integer operand of [z * 0.75]. *)
Definition py_float (z : Z) : result float :=
  match f64_of_Z z with
  | S754_infinity _ => Raise OverflowError
  | f => Return f
  end.

(** z * f *)
Definition py_mul_int_float (z : Z) (f : float) : result float :=
  zf <- py_float z ;; Return (f64_mul zf f).

(** a / b on two ints: true division, rounded once to binary64.  (Under
    Python 2 the operator is floor division; [int] of either quotient is
    the same on non-negative operands.) *)
Definition py_truediv (a b : Z) : result float :=
  if b =? 0 then Raise ZeroDivisionError
  else match f64_div (f64_exact a) (f64_exact b) with
       | S754_infinity _ => Raise OverflowError
       | f => Return f
       end.

(** int(f) *)
Definition py_int (f : float) : result Z :=
  match f with
  | S754_zero _ => Return 0
  | S754_finite s m e =>
      let a := match e with
               | Zneg p => Z.pos m / 2 ^ Z.pos p
               | _ => Z.pos m * 2 ^ e
               end in
      Return (if s then - a else a)
  | S754_infinity _ => Raise OverflowError
  | S754_nan => Raise ValueError
  end.

(** Truth value of a float: zero is false. *)
Definition f64_truthy (f : float) : bool :=
  match f with S754_zero _ => false | _ => true end.

(** ** utils.py

    [parse_shorthand] and [infer_vegalite_type] are imported from
    [altair/utils.py]. *)

Module utils.

(** Split a string at the first occurrence of a character. *)
Fixpoint split_at (c : ascii) (s : string) : option (string * string) :=
  match s with
  | EmptyString => None
  | String a r =>
      if Ascii.eqb a c then Some (EmptyString, r)
      else match split_at c r with
           | Some (p, q) => Some (String a p, q)
           | None => None
           end
  end.

Definition aggregates : list string := ["avg"; "sum"; "median"; "min"; "max"; "count"].
Definition typecodes : list string := ["N"; "O"; "Q"; "T"].
Definition timeunits : list string :=
  ["year"; "month"; "day"; "date"; "hours"; "minutes"; "seconds"].

(** An absent component is left out of the result. *)
Definition name_entry (n : string) : list (string * value) :=
  if String.eqb n "" then [] else [("name", VStr n)].

(** A field reference: [columnName], [columnName:TYPECODE] or
    [columnName:timeunit]. *)
Definition parse_field_ref (r : string) : result (list (string * value)) :=
  match split_at ":" r with
  | None => Return (name_entry r)
  | Some (n, code) =>
      if mem code typecodes then Return (name_entry n ++ [("type", VStr code)])%list
      else if mem code timeunits then Return (name_entry n ++ [("timeUnit", VStr code)])%list
      else Raise InvalidShorthand
  end.

Definition starts_with_colon (s : string) : bool :=
  match s with
  | EmptyString => true
  | String a _ => Ascii.eqb a ":"
  end.

(** Modelled from the spec: [utils.parse_shorthand] is not part of the
    sources at hand.  Section 4.1 of the specification gives the grammar: an
    optional aggregate wrapper [FUNC(inner)] with FUNC one of avg, sum,
    median, min, max, count; [inner] is empty or a field reference; the field
    reference is a column name optionally followed by [:TYPECODE] (N, O, Q,
    T) or a time-unit keyword.  The type suffix is accepted inside the
    wrapper, as the grammar words it, and after it, as in the specification's
    example [avg(price):Q].  A bare column name gives only [name]; a
    component that is absent is left out; a malformed type code or an unknown
    aggregate function raises InvalidShorthand. *)
Definition parse_shorthand (sh : string) : result (list (string * value)) :=
  match split_at "(" sh with
  | None => parse_field_ref sh
  | Some (func, rest) =>
      match split_at ")" rest with
      | None => Raise InvalidShorthand
      | Some (inner, tail) =>
          if mem func aggregates && starts_with_colon tail then
            fields <- parse_field_ref (inner ++ tail) ;;
            Return (("aggregate", VStr func) :: fields)
          else Raise InvalidShorthand
      end
  end.

(** Modelled from the spec: [utils.infer_vegalite_type] is not part of the
    sources at hand.  Section 4.2 of the specification: numeric dtype gives
    Q, temporal dtype gives T, ordered categorical gives O, unordered
    categorical or text gives N. *)
Definition infer_vegalite_type (col : Series) : string :=
  match dt col with
  | Numeric => "Q"
  | Temporal => "T"
  | CategoricalOrdered => "O"
  | Text => "N"
  end.

End utils.

(** ** class BaseObject(Configurable)

    [BaseObject.__contains__] and [BaseObject.to_dict] only use
    [self.traits()], [getattr] and the class attribute [skip], so an instance
    is seen here through the list of its traits with their current values.
    Every class below gives this view as [traits]; the two traits inherited
    from [Configurable], [config] and [parent], are part of it. *)

Definition Config : Type := list (string * value).

Module BaseObject.

Record view : Type := { traits : list (string * value); skip : list string }.

Definition getattr (self : view) (key : string) : result value :=
  match lookup key (traits self) with
  | Some v => Return v
  | None => Raise AttributeError
  end.

Definition isinstance_DataFrame (v : value) : bool :=
  match v with VFrame _ => true | _ => false end.

Definition isinstance_bool (v : value) : bool :=
  match v with VBool _ => true | _ => false end.

Definition is_None (v : value) : bool :=
  match v with VNone => true | _ => false end.

(** Truth value, as [not value] tests it.  The argument is never a
    DataFrame: [__contains__] returns before reaching the test. *)
Definition truthy (v : value) : bool :=
  match v with
  | VNone => false
  | VBool b => b
  | VInt z => negb (z =? 0)
  | VFloat f => f64_truthy f
  | VStr s => negb (String.eqb s "")
  | VList l => match l with [] => false | _ => true end
  | VDict d => match d with [] => false | _ => true end
  | VFrame _ => true
  | VObj _ => true
  end.

(** The body of [__contains__] once [value = getattr(self, key)] is known. *)
Definition present (v : value) : bool :=
  if isinstance_DataFrame v then true
  else negb (is_None v) && negb (negb (isinstance_bool v) && negb (truthy v)).

Definition __contains__ (self : view) (key : string) : result bool :=
  v <- getattr self key ;; Return (present v).

(** [result[k] = v.to_dict()] for a BaseObject, [result[k] = v] otherwise. *)
Definition entry (v : value) : value :=
  match v with
  | VObj d => VDict d
  | _ => v
  end.

(** The loop of [to_dict] over [self.traits()]. *)
Definition to_dict (self : view) : list (string * value) :=
  fold_left
    (fun result kv =>
       if present (snd kv) && negb (mem (fst kv) (skip self))
       then dict_set (fst kv) (entry (snd kv)) result
       else result)
    (traits self) [].

(** The traits every class inherits from [Configurable]. *)
Definition Configurable_traits (config : Config) : list (string * value) :=
  [("config", VDict config); ("parent", VNone)].

End BaseObject.

Definition of_option {A : Type} (f : A -> value) (o : option A) : value :=
  match o with
  | Some a => f a
  | None => VNone
  end.

(** ** The option classes: Scale, Axis, Band, Legend, Bin, SortItems *)

Module Scale.
Inductive t : Type := new.
Definition view (self : t) : BaseObject.view :=
  {| BaseObject.traits := BaseObject.Configurable_traits [];
     BaseObject.skip := [] |}.
Definition to_dict (self : t) := BaseObject.to_dict (view self).
End Scale.

Module Axis.
Inductive t : Type := new.
Definition view (self : t) : BaseObject.view :=
  {| BaseObject.traits := BaseObject.Configurable_traits [];
     BaseObject.skip := [] |}.
Definition to_dict (self : t) := BaseObject.to_dict (view self).
End Axis.

Module Legend.
Inductive t : Type := new.
Definition view (self : t) : BaseObject.view :=
  {| BaseObject.traits := BaseObject.Configurable_traits [];
     BaseObject.skip := [] |}.
Definition to_dict (self : t) := BaseObject.to_dict (view self).
End Legend.

Module Band.
Record t : Type := { size : Z }.
(** Band(size=n); without the keyword the default is 600. *)
Definition new (n : Z) : t := {| size := n |}.
Definition default : t := {| size := 600 |}.
Definition view (self : t) : BaseObject.view :=
  {| BaseObject.traits :=
       ("size", VInt (size self)) :: BaseObject.Configurable_traits [];
     BaseObject.skip := [] |}.
Definition to_dict (self : t) := BaseObject.to_dict (view self).
End Band.

Module Bin.
Record t : Type := { maxbins : Z }.
(** Bin(maxbins=n); without the keyword the default is 0. *)
Definition new (n : Z) : t := {| maxbins := n |}.
Definition default : t := {| maxbins := 0 |}.
Definition view (self : t) : BaseObject.view :=
  {| BaseObject.traits :=
       ("maxbins", VInt (maxbins self)) :: BaseObject.Configurable_traits [];
     BaseObject.skip := [] |}.
Definition to_dict (self : t) := BaseObject.to_dict (view self).
End Bin.

Module SortItems.
(** [aggregate] is an Enum whose default value is [True]. *)
Record t : Type := { name : option string; aggregate : value; reverse : bool }.
Definition default : t :=
  {| name := None; aggregate := VBool true; reverse := false |}.
Definition view (self : t) : BaseObject.view :=
  {| BaseObject.traits :=
       ("name", of_option VStr (name self))
         :: ("aggregate", aggregate self)
         :: ("reverse", VBool (reverse self))
         :: BaseObject.Configurable_traits [];
     BaseObject.skip := [] |}.
Definition to_dict (self : t) := BaseObject.to_dict (view self).
End SortItems.

(** ** class Shelf(BaseObject) and the channel classes

    The traits a subclass adds to those of [Shelf] are gathered per family:
    [DataCoordinate] (X, Y), [FacetCoordinate] (Row, Col), [Size], [Color]
    and [Shape]. *)

Module DataCoordinate.
Record own : Type :=
  { scale : option Scale.t; axis : option Axis.t; band : option Band.t }.
Definition default : own := {| scale := None; axis := None; band := None |}.
Definition traits (o : own) : list (string * value) :=
  [("scale", of_option (fun s => VObj (Scale.to_dict s)) (scale o));
   ("axis", of_option (fun a => VObj (Axis.to_dict a)) (axis o));
   ("band", of_option (fun b => VObj (Band.to_dict b)) (band o))].
End DataCoordinate.

Module FacetCoordinate.
Record own : Type := { padding : float; axis : option Axis.t; height : Z }.
Definition default : own := {| padding := f64_0_1; axis := None; height := 150 |}.
Definition traits (o : own) : list (string * value) :=
  [("padding", VFloat (padding o));
   ("axis", of_option (fun a => VObj (Axis.to_dict a)) (axis o));
   ("height", VInt (height o))].
End FacetCoordinate.

Module Size.
Record own : Type :=
  { scale : option Scale.t; legend : option Legend.t; value : Z }.
Definition default : own := {| scale := None; legend := None; value := 30 |}.
Definition traits (o : own) :=
  [("scale", of_option (fun s => VObj (Scale.to_dict s)) (scale o));
   ("legend", of_option (fun l => VObj (Legend.to_dict l)) (legend o));
   ("value", VInt (value o))].
End Size.

Module Color.
Record own : Type :=
  { value : string; scale : option Scale.t; legend : option Legend.t;
    opacity : float }.
Definition default : own :=
  {| value := "#4682b4"; scale := None; legend := None; opacity := f64_1_0 |}.
Definition traits (o : own) :=
  [("value", VStr (value o));
   ("scale", of_option (fun s => VObj (Scale.to_dict s)) (scale o));
   ("legend", of_option (fun l => VObj (Legend.to_dict l)) (legend o));
   ("opacity", VFloat (opacity o))].
End Color.

Module Shape.
Record own : Type :=
  { value : string; legend : option Legend.t; filled : bool }.
Definition default : own :=
  {| value := "circle"; legend := None; filled := false |}.
Definition traits (o : own) :=
  [("value", VStr (value o));
   ("legend", of_option (fun l => VObj (Legend.to_dict l)) (legend o));
   ("filled", VBool (filled o))].
End Shape.

Module Shelf.

(** The class of an instance: Shelf itself or one of its subclasses. *)
Inductive cls : Type :=
| Shelf | DataCoordinate | X | Y | FacetCoordinate | Row | Col
| Size | Color | Shape.

(** The traits the class adds to those of Shelf. *)
Definition own (c : cls) : Type :=
  match c with
  | Shelf => unit
  | DataCoordinate | X | Y => DataCoordinate.own
  | FacetCoordinate | Row | Col => FacetCoordinate.own
  | Size => Size.own
  | Color => Color.own
  | Shape => Shape.own
  end.

Definition own_default (c : cls) : own c :=
  match c with
  | Shelf => tt
  | DataCoordinate | X | Y => DataCoordinate.default
  | FacetCoordinate | Row | Col => FacetCoordinate.default
  | Size => Size.default
  | Color => Color.default
  | Shape => Shape.default
  end.

Definition own_traits (c : cls) : own c -> list (string * value) :=
  match c with
  | Shelf => fun _ => []
  | DataCoordinate | X | Y => DataCoordinate.traits
  | FacetCoordinate | Row | Col => FacetCoordinate.traits
  | Size => Size.traits
  | Color => Color.traits
  | Shape => Shape.traits
  end.

(** bin = T.Union([T.Bool(), T.Instance(Bin)], default_value=False) *)
Inductive bin_value : Type :=
| BinBool (b : bool)
| BinObj (b : Bin.t).

Record t (c : cls) : Type :=
  { shorthand : string;
    name : string;
    type : option string;
    timeUnit : option string;
    bin : bin_value;
    sort : option (list SortItems.t);
    aggregate : option string;
    config : Config;
    sub : own c }.

Arguments shorthand {c} _.
Arguments name {c} _.
Arguments type {c} _.
Arguments timeUnit {c} _.
Arguments bin {c} _.
Arguments sort {c} _.
Arguments aggregate {c} _.
Arguments config {c} _.
Arguments sub {c} _.

(** The declared default values. *)
Definition default (c : cls) : t c :=
  {| shorthand := ""; name := ""; type := None; timeUnit := None;
     bin := BinBool false; sort := None; aggregate := None;
     config := []; sub := own_default c |}.

Definition with_shorthand {c} (self : t c) (v : string) : t c :=
  {| shorthand := v; name := name self; type := type self;
     timeUnit := timeUnit self; bin := bin self; sort := sort self;
     aggregate := aggregate self; config := config self; sub := sub self |}.

Definition with_name {c} (self : t c) (v : string) : t c :=
  {| shorthand := shorthand self; name := v; type := type self;
     timeUnit := timeUnit self; bin := bin self; sort := sort self;
     aggregate := aggregate self; config := config self; sub := sub self |}.

Definition with_type {c} (self : t c) (v : option string) : t c :=
  {| shorthand := shorthand self; name := name self; type := v;
     timeUnit := timeUnit self; bin := bin self; sort := sort self;
     aggregate := aggregate self; config := config self; sub := sub self |}.

Definition with_timeUnit {c} (self : t c) (v : option string) : t c :=
  {| shorthand := shorthand self; name := name self; type := type self;
     timeUnit := v; bin := bin self; sort := sort self;
     aggregate := aggregate self; config := config self; sub := sub self |}.

Definition with_bin {c} (self : t c) (v : bin_value) : t c :=
  {| shorthand := shorthand self; name := name self; type := type self;
     timeUnit := timeUnit self; bin := v; sort := sort self;
     aggregate := aggregate self; config := config self; sub := sub self |}.

Definition with_aggregate {c} (self : t c) (v : option string) : t c :=
  {| shorthand := shorthand self; name := name self; type := type self;
     timeUnit := timeUnit self; bin := bin self; sort := sort self;
     aggregate := v; config := config self; sub := sub self |}.

Definition with_config {c} (self : t c) (v : Config) : t c :=
  {| shorthand := shorthand self; name := name self; type := type self;
     timeUnit := timeUnit self; bin := bin self; sort := sort self;
     aggregate := aggregate self; config := v; sub := sub self |}.

Definition with_sub {c} (self : t c) (v : own c) : t c :=
  {| shorthand := shorthand self; name := name self; type := type self;
     timeUnit := timeUnit self; bin := bin self; sort := sort self;
     aggregate := aggregate self; config := config self; sub := v |}.

(** The values each Enum trait accepts. *)
Definition type_values : list string := ["N"; "O"; "Q"; "T"].

Definition timeUnit_values : list string :=
  ["year"; "month"; "day"; "date"; "hours"; "minutes"; "seconds"].

(** FacetCoordinate and Shape declare [aggregate] again, with one value and
    without [config=True]. *)
Definition aggregate_values (c : cls) : list string :=
  match c with
  | FacetCoordinate | Row | Col | Shape => ["count"]
  | _ => ["avg"; "sum"; "median"; "min"; "max"; "count"]
  end.

(** The traits declared with [config=True]. *)
Definition config_traits (c : cls) : list string :=
  match c with
  | FacetCoordinate | Row | Col | Shape => ["name"; "type"]
  | _ => ["name"; "type"; "aggregate"]
  end.

(** Validation of T.Enum(values, allow_none=True). *)
Definition validate_enum (values : list string) (v : value)
  : result (option string) :=
  match v with
  | VNone => Return None
  | VStr s => if mem s values then Return (Some s) else Raise TraitError
  | _ => Raise TraitError
  end.

(** Validation of T.Unicode(). *)
Definition validate_unicode (v : value) : result string :=
  match v with
  | VStr s => Return s
  | _ => Raise TraitError
  end.

(** [setattr(self, key, val)] for the keys [parse_shorthand] returns and the
    config loader applies.  None of these traits has a change handler.  Any
    other key the parser could return would not name a trait: the assignment
    would create a plain attribute, which [traits()] does not list. *)
Definition setattr {c} (self : t c) (key : string) (val : value)
  : result (t c) :=
  if String.eqb key "name" then
    s <- validate_unicode val ;; Return (with_name self s)
  else if String.eqb key "type" then
    v <- validate_enum type_values val ;; Return (with_type self v)
  else if String.eqb key "timeUnit" then
    v <- validate_enum timeUnit_values val ;; Return (with_timeUnit self v)
  else if String.eqb key "aggregate" then
    v <- validate_enum (aggregate_values c) val ;; Return (with_aggregate self v)
  else Return self.

(** for key, val in D.items(): setattr(self, key, val) *)
Fixpoint setattrs {c} (self : t c) (D : list (string * value))
  : result (t c) :=
  match D with
  | [] => Return self
  | (key, val) :: r => self' <- setattr self key val ;; setattrs self' r
  end.

Definition _shorthand_changed {c} (self : t c) : result (t c) :=
  D <- utils.parse_shorthand (shorthand self) ;;
  setattrs self D.

(** The assignment [self.shorthand = v]: the handler runs when the value
    changes. *)
Definition set_shorthand {c} (self : t c) (v : string) : result (t c) :=
  if String.eqb (shorthand self) v then Return self
  else _shorthand_changed (with_shorthand self v).

Definition _infer_type {c} (self : t c) (data : option DataFrame)
  : result (t c) :=
  match type self with
  | Some _ => Return self
  | None =>
      match data with
      | None => Raise TypeError        (* self.name in None *)
      | Some df =>
          if df_contains df (name self) then
            match df_getitem df (name self) with
            | Some col =>
                v <- validate_enum type_values
                       (VStr (utils.infer_vegalite_type col)) ;;
                Return (with_type self v)
            | None => Raise KeyError
            end
          else Return self
      end
  end.

(** *** Construction

    [Configurable.__init__], called with keyword arguments, pops [config], assigns the remaining
    keyword arguments, then assigns [self.config] (whose handler loads the
    configurable traits) and finally assigns the keyword arguments once
    more. *)

(** The names of the config sections that apply to an instance: the classes
    of its MRO, base first. *)
Definition section_names (c : cls) : list string :=
  (["Configurable"; "BaseObject"; "Shelf"] ++
   match c with
   | Shelf => []
   | DataCoordinate => ["DataCoordinate"]
   | X => ["DataCoordinate"; "X"]
   | Y => ["DataCoordinate"; "Y"]
   | FacetCoordinate => ["FacetCoordinate"]
   | Row => ["FacetCoordinate"; "Row"]
   | Col => ["FacetCoordinate"; "Col"]
   | Size => ["Size"]
   | Color => ["Color"]
   | Shape => ["Shape"]
   end)%list.

(** my_config.merge(section): the keys of the section override. *)
Definition merge (my_config section : Config) : Config :=
  fold_left (fun acc kv => dict_set (fst kv) (snd kv) acc) section my_config.

Definition _find_my_config (c : cls) (cfg : Config) : Config :=
  fold_left
    (fun my_config sname =>
       match lookup sname cfg with
       | Some (VDict section) => merge my_config section
       | _ => my_config
       end)
    (section_names c) [].

Fixpoint load_items {c} (self : t c) (items : Config) : result (t c) :=
  match items with
  | [] => Return self
  | (key, val) :: r =>
      if mem key (config_traits c)
      then self' <- setattr self key val ;; load_items self' r
      else load_items self r
  end.

Definition _load_config {c} (self : t c) (cfg : Config) : result (t c) :=
  load_items self (_find_my_config c cfg).

(** The assignment [self.config = cfg]. *)
Definition set_config {c} (self : t c) (cfg : Config) : result (t c) :=
  _load_config (with_config self cfg) cfg.

(** [C(shorthand, config=cfg)] for a class C; [C(shorthand)] is the case of
    the empty Config.  [Shelf.__init__] passes the shorthand on as a keyword
    argument. *)
Definition init (c : cls) (sh : string) (cfg : Config) : result (t c) :=
  self <- set_shorthand (default c) sh ;;
  self <- set_config self cfg ;;
  set_shorthand self sh.

(** *** Serialization *)

Definition bin_view (b : bin_value) : value :=
  match b with
  | BinBool b => VBool b
  | BinObj o => VObj (Bin.to_dict o)
  end.

Definition sort_view (s : option (list SortItems.t)) : value :=
  match s with
  | None => VNone
  | Some l => VList (map (fun i => VObj (SortItems.to_dict i)) l)
  end.

Definition view {c} (self : t c) : BaseObject.view :=
  {| BaseObject.traits :=
       ([("shorthand", VStr (shorthand self));
         ("name", VStr (name self));
         ("type", of_option VStr (type self));
         ("timeUnit", of_option VStr (timeUnit self));
         ("bin", bin_view (bin self));
         ("sort", sort_view (sort self));
         ("aggregate", of_option VStr (aggregate self))]
        ++ own_traits c (sub self)
        ++ [("config", VDict (config self)); ("parent", VNone)])%list;
     BaseObject.skip := ["shorthand"; "config"] |}.

Definition to_dict {c} (self : t c) : list (string * value) :=
  BaseObject.to_dict (view self).

End Shelf.

(** ** class Encoding(BaseObject)

    [parent] is a reference to another object, usually the Viz that owns the
    encoding.  The handlers only read [parent.data]; the heap gives, for
    every object identity, what that read yields at the time of the call. *)

Definition oid : Type := nat.

Inductive object : Type :=
| VizObject (data : option DataFrame)   (* a Viz, with the current value of its data trait *)
| OtherObject.                          (* a BaseObject without attribute data *)

Definition heap : Type := oid -> object.

Module Encoding.

(** A value assigned to a channel trait
    T.Union([T.Instance(C), T.Unicode()], allow_none=True). *)
Inductive arg (c : Shelf.cls) : Type :=
| ANone
| AStr (s : string)
| AInst (o : Shelf.t c)   (* an instance of C, distinct from the object held so far *)
| AOther.                 (* any other value *)

Arguments ANone {c}.
Arguments AStr {c} s.
Arguments AInst {c} o.
Arguments AOther {c}.

Record t : Type :=
  { x : option (Shelf.t Shelf.X);
    y : option (Shelf.t Shelf.Y);
    row : option (Shelf.t Shelf.Row);
    col : option (Shelf.t Shelf.Col);
    size : option (Shelf.t Shelf.Size);
    color : option (Shelf.t Shelf.Color);
    shape : option (Shelf.t Shelf.Shape);
    parent : option oid;
    config : Config }.

Definition default : t :=
  {| x := None; y := None; row := None; col := None; size := None;
     color := None; shape := None; parent := None; config := [] |}.

Definition with_x (self : t) v : t :=
  {| x := v; y := y self; row := row self; col := col self; size := size self;
     color := color self; shape := shape self; parent := parent self;
     config := config self |}.

Definition with_y (self : t) v : t :=
  {| x := x self; y := v; row := row self; col := col self; size := size self;
     color := color self; shape := shape self; parent := parent self;
     config := config self |}.

Definition with_row (self : t) v : t :=
  {| x := x self; y := y self; row := v; col := col self; size := size self;
     color := color self; shape := shape self; parent := parent self;
     config := config self |}.

Definition with_col (self : t) v : t :=
  {| x := x self; y := y self; row := row self; col := v; size := size self;
     color := color self; shape := shape self; parent := parent self;
     config := config self |}.

Definition with_size (self : t) v : t :=
  {| x := x self; y := y self; row := row self; col := col self; size := v;
     color := color self; shape := shape self; parent := parent self;
     config := config self |}.

Definition with_color (self : t) v : t :=
  {| x := x self; y := y self; row := row self; col := col self; size := size self;
     color := v; shape := shape self; parent := parent self;
     config := config self |}.

Definition with_shape (self : t) v : t :=
  {| x := x self; y := y self; row := row self; col := col self; size := size self;
     color := color self; shape := v; parent := parent self;
     config := config self |}.

Definition with_parent (self : t) v : t :=
  {| x := x self; y := y self; row := row self; col := col self; size := size self;
     color := color self; shape := shape self; parent := v;
     config := config self |}.

Definition with_config (self : t) v : t :=
  {| x := x self; y := y self; row := row self; col := col self; size := size self;
     color := color self; shape := shape self; parent := parent self;
     config := v |}.

(** val = getattr(self, attr); if val is not None: val._infer_type(data) *)
Definition infer_val {c} (val : option (Shelf.t c)) (data : option DataFrame)
  : result (option (Shelf.t c)) :=
  match val with
  | None => Return None
  | Some v => v' <- Shelf._infer_type v data ;; Return (Some v')
  end.

Definition _infer_types (self : t) (data : option DataFrame) : result t :=
  vx <- infer_val (x self) data ;;
  vy <- infer_val (y self) data ;;
  vrow <- infer_val (row self) data ;;
  vcol <- infer_val (col self) data ;;
  vsize <- infer_val (size self) data ;;
  vcolor <- infer_val (color self) data ;;
  vshape <- infer_val (shape self) data ;;
  Return {| x := vx; y := vy; row := vrow; col := vcol; size := vsize;
            color := vcolor; shape := vshape; parent := parent self;
            config := config self |}.

(** getattr(self.parent, 'data', None) *)
Definition parent_data_or_None (h : heap) (self : t) : option DataFrame :=
  match parent self with
  | None => None
  | Some p => match h p with
              | VizObject d => d
              | OtherObject => None
              end
  end.

(** self.parent.data *)
Definition parent_data (h : heap) (p : oid) : result (option DataFrame) :=
  match h p with
  | VizObject d => Return d
  | OtherObject => Raise AttributeError
  end.

(** [self.<attr>._infer_type(data)], on the value the slot holds. *)
Definition infer_slot {c} (val : option (Shelf.t c)) (data : option DataFrame)
  : result (option (Shelf.t c)) :=
  match val with
  | None => Raise AttributeError      (* None has no _infer_type *)
  | Some v => v' <- Shelf._infer_type v data ;; Return (Some v')
  end.

(** The second statement of the six handlers [_x_changed] ... [_color_changed]:
    if getattr(self.parent, 'data', None) is not None:
        self.<attr>._infer_type(self.parent.data) *)
Definition if_data_infer {c} (h : heap) (self : t)
  (get : t -> option (Shelf.t c)) (set : t -> option (Shelf.t c) -> t)
  : result t :=
  match parent_data_or_None h self with
  | Some d => v <- infer_slot (get self) (Some d) ;; Return (set self v)
  | None => Return self
  end.

(** The second statement of [_shape_changed]:
    if self.parent is not None:
        self.shape._infer_type(self.parent.data) *)
Definition if_parent_infer (h : heap) (self : t) : result t :=
  match parent self with
  | Some p =>
      match shape self with
      | None => Raise AttributeError
      | Some s =>
          d <- parent_data h p ;;
          s' <- Shelf._infer_type s d ;;
          Return (with_shape self (Some s'))
      end
  | None => Return self
  end.

(** The change handlers.  An assignment of a string runs the handler with
    the string as [new]; its first statement assigns the constructed
    instance to the same trait, which runs the handler once more, now with
    [new] an instance: that inner run is the first [if_data_infer] below. *)

Definition _x_changed (h : heap) (self : t) (new : arg Shelf.X) : result t :=
  self <- match new with
          | AStr s =>
              o <- Shelf.init Shelf.X s (config self) ;;
              if_data_infer h (with_x self (Some o)) x with_x
          | _ => Return self
          end ;;
  if_data_infer h self x with_x.

Definition _y_changed (h : heap) (self : t) (new : arg Shelf.Y) : result t :=
  self <- match new with
          | AStr s =>
              o <- Shelf.init Shelf.Y s (config self) ;;
              if_data_infer h (with_y self (Some o)) y with_y
          | _ => Return self
          end ;;
  if_data_infer h self y with_y.

Definition _row_changed (h : heap) (self : t) (new : arg Shelf.Row) : result t :=
  self <- match new with
          | AStr s =>
              o <- Shelf.init Shelf.Row s [] ;;
              if_data_infer h (with_row self (Some o)) row with_row
          | _ => Return self
          end ;;
  if_data_infer h self row with_row.

Definition _col_changed (h : heap) (self : t) (new : arg Shelf.Col) : result t :=
  self <- match new with
          | AStr s =>
              o <- Shelf.init Shelf.Col s [] ;;
              if_data_infer h (with_col self (Some o)) col with_col
          | _ => Return self
          end ;;
  if_data_infer h self col with_col.

Definition _size_changed (h : heap) (self : t) (new : arg Shelf.Size) : result t :=
  self <- match new with
          | AStr s =>
              o <- Shelf.init Shelf.Size s [] ;;
              if_data_infer h (with_size self (Some o)) size with_size
          | _ => Return self
          end ;;
  if_data_infer h self size with_size.

Definition _color_changed (h : heap) (self : t) (new : arg Shelf.Color) : result t :=
  self <- match new with
          | AStr s =>
              o <- Shelf.init Shelf.Color s [] ;;
              if_data_infer h (with_color self (Some o)) color with_color
          | _ => Return self
          end ;;
  if_data_infer h self color with_color.

Definition _shape_changed (h : heap) (self : t) (new : arg Shelf.Shape) : result t :=
  self <- match new with
          | AStr s =>
              o <- Shelf.init Shelf.Shape s [] ;;
              if_parent_infer h (with_shape self (Some o))
          | _ => Return self
          end ;;
  if_parent_infer h self.

(** The assignment [self.<attr> = v]: validation by the Union trait, then
    the handler if the value changed.  A slot never equals a string or a
    fresh instance; it equals None when it is empty. *)
Definition assign {c} (h : heap) (self : t)
  (get : t -> option (Shelf.t c)) (set : t -> option (Shelf.t c) -> t)
  (changed : heap -> t -> arg c -> result t) (v : arg c) : result t :=
  match v with
  | AOther => Raise TraitError
  | ANone =>
      match get self with
      | None => Return self
      | Some _ => changed h (set self None) v
      end
  | AInst o => changed h (set self (Some o)) v
  | AStr _ => changed h self v
  end.

Definition set_x h self v := assign h self x with_x _x_changed v.
Definition set_y h self v := assign h self y with_y _y_changed v.
Definition set_row h self v := assign h self row with_row _row_changed v.
Definition set_col h self v := assign h self col with_col _col_changed v.
Definition set_size h self v := assign h self size with_size _size_changed v.
Definition set_color h self v := assign h self color with_color _color_changed v.
Definition set_shape h self v := assign h self shape with_shape _shape_changed v.

(** The seven channel slots, to speak of them uniformly. *)
Inductive channel : Type :=
| ch_x | ch_y | ch_row | ch_col | ch_size | ch_color | ch_shape.

Definition class_of (ch : channel) : Shelf.cls :=
  match ch with
  | ch_x => Shelf.X
  | ch_y => Shelf.Y
  | ch_row => Shelf.Row
  | ch_col => Shelf.Col
  | ch_size => Shelf.Size
  | ch_color => Shelf.Color
  | ch_shape => Shelf.Shape
  end.

Definition get (ch : channel) : t -> option (Shelf.t (class_of ch)) :=
  match ch with
  | ch_x => x
  | ch_y => y
  | ch_row => row
  | ch_col => col
  | ch_size => size
  | ch_color => color
  | ch_shape => shape
  end.

Definition with_slot (ch : channel)
  : t -> option (Shelf.t (class_of ch)) -> t :=
  match ch with
  | ch_x => with_x
  | ch_y => with_y
  | ch_row => with_row
  | ch_col => with_col
  | ch_size => with_size
  | ch_color => with_color
  | ch_shape => with_shape
  end.

(** setattr(self, attr, v) for a channel attribute. *)
Definition set (ch : channel) : heap -> t -> arg (class_of ch) -> result t :=
  match ch with
  | ch_x => set_x
  | ch_y => set_y
  | ch_row => set_row
  | ch_col => set_col
  | ch_size => set_size
  | ch_color => set_color
  | ch_shape => set_shape
  end.

(** The config the handler of a channel passes to the constructor: only
    [_x_changed] and [_y_changed] pass [config=self.config]. *)
Definition config_for (ch : channel) (self : t) : Config :=
  match ch with
  | ch_x | ch_y => config self
  | _ => []
  end.

(** *** Construction: Encoding(config=cfg, x=..., y=..., ...)

    The keyword arguments that name channels; a field is None when the
    keyword is not given.  The record describes the calls that do not pass
    the keyword [parent]: given that keyword, the constructor would assign
    the parent before the channels, and the handlers would read its data
    during construction. *)
Record kwargs : Type :=
  { kw_x : option (arg Shelf.X);
    kw_y : option (arg Shelf.Y);
    kw_row : option (arg Shelf.Row);
    kw_col : option (arg Shelf.Col);
    kw_size : option (arg Shelf.Size);
    kw_color : option (arg Shelf.Color);
    kw_shape : option (arg Shelf.Shape) }.

Definition no_kwargs : kwargs :=
  {| kw_x := None; kw_y := None; kw_row := None; kw_col := None;
     kw_size := None; kw_color := None; kw_shape := None |}.

(** setattr(self, key, value) for one keyword, if given. *)
Definition apply_kw {c} (set : heap -> t -> arg c -> result t)
  (h : heap) (self : t) (kw : option (arg c)) : result t :=
  match kw with
  | Some v => set h self v
  | None => Return self
  end.

(** The same assignment made once more after the config is loaded: a string
    differs from the instance the slot now holds, so the handler runs again;
    an instance or None is the value the slot already holds. *)
Definition apply_kw_again {c} (set : heap -> t -> arg c -> result t)
  (h : heap) (self : t) (kw : option (arg c)) : result t :=
  match kw with
  | Some (AStr s) => set h self (AStr s)
  | _ => Return self
  end.

Definition init (h : heap) (cfg : Config) (kw : kwargs) : result t :=
  self <- apply_kw set_x h default (kw_x kw) ;;
  self <- apply_kw set_y h self (kw_y kw) ;;
  self <- apply_kw set_row h self (kw_row kw) ;;
  self <- apply_kw set_col h self (kw_col kw) ;;
  self <- apply_kw set_size h self (kw_size kw) ;;
  self <- apply_kw set_color h self (kw_color kw) ;;
  self <- apply_kw set_shape h self (kw_shape kw) ;;
  let self := with_config self cfg in
  self <- apply_kw_again set_x h self (kw_x kw) ;;
  self <- apply_kw_again set_y h self (kw_y kw) ;;
  self <- apply_kw_again set_row h self (kw_row kw) ;;
  self <- apply_kw_again set_col h self (kw_col kw) ;;
  self <- apply_kw_again set_size h self (kw_size kw) ;;
  self <- apply_kw_again set_color h self (kw_color kw) ;;
  apply_kw_again set_shape h self (kw_shape kw).

(** *** Serialization *)

Definition slot_view {c} (val : option (Shelf.t c)) : value :=
  of_option (fun s => VObj (Shelf.to_dict s)) val.

(** [parent] is in [skip]: the dict of the parent object is never asked
    for, and the view only records that the trait holds an object. *)
Definition view (self : t) : BaseObject.view :=
  {| BaseObject.traits :=
       [("x", slot_view (x self));
        ("y", slot_view (y self));
        ("row", slot_view (row self));
        ("col", slot_view (col self));
        ("size", slot_view (size self));
        ("color", slot_view (color self));
        ("shape", slot_view (shape self));
        ("parent", of_option (fun _ => VObj []) (parent self));
        ("config", VDict (config self))];
     BaseObject.skip := ["parent"; "config"] |}.

Definition to_dict (self : t) : list (string * value) :=
  BaseObject.to_dict (view self).

End Encoding.

(** ** class VLConfig(BaseObject) *)

Module VLConfig.

Record t : Type :=
  { width : Z;
    height : Z;
    singleWidth : option Z;
    singleHeight : option Z;
    gridColor : string;
    gridOpacity : float }.

(** VLConfig() *)
Definition default : t :=
  {| width := 600; height := 400; singleWidth := None; singleHeight := None;
     gridColor := "black"; gridOpacity := f64_0_08 |}.

Definition with_width (self : t) (v : Z) : t :=
  {| width := v; height := height self; singleWidth := singleWidth self;
     singleHeight := singleHeight self; gridColor := gridColor self;
     gridOpacity := gridOpacity self |}.

Definition with_height (self : t) (v : Z) : t :=
  {| width := width self; height := v; singleWidth := singleWidth self;
     singleHeight := singleHeight self; gridColor := gridColor self;
     gridOpacity := gridOpacity self |}.

Definition with_singleWidth (self : t) (v : option Z) : t :=
  {| width := width self; height := height self; singleWidth := v;
     singleHeight := singleHeight self; gridColor := gridColor self;
     gridOpacity := gridOpacity self |}.

Definition with_singleHeight (self : t) (v : option Z) : t :=
  {| width := width self; height := height self;
     singleWidth := singleWidth self; singleHeight := v;
     gridColor := gridColor self; gridOpacity := gridOpacity self |}.

Definition view (self : t) : BaseObject.view :=
  {| BaseObject.traits :=
       ("width", VInt (width self))
         :: ("height", VInt (height self))
         :: ("singleWidth", of_option VInt (singleWidth self))
         :: ("singleHeight", of_option VInt (singleHeight self))
         :: ("gridColor", VStr (gridColor self))
         :: ("gridOpacity", VFloat (gridOpacity self))
         :: BaseObject.Configurable_traits [];
     BaseObject.skip := [] |}.

Definition to_dict (self : t) : list (string * value) :=
  BaseObject.to_dict (view self).

End VLConfig.

(** ** class Data(BaseObject) *)

Module Data.

(** [Data(data=new)]: besides its traits the instance carries the DataFrame
    as the plain attribute [data]. *)
Record t : Type :=
  { formatType : string;
    url : option string;
    values : option (list value);
    data : DataFrame }.

Definition new (df : DataFrame) : t :=
  {| formatType := "json"; url := None; values := None; data := df |}.

Definition scalar_value (s : scalar) : value :=
  match s with
  | SInt z => VInt z
  | SFloat f => VFloat f
  | SStr s => VStr s
  end.

(** self.data.to_dict('records'): one dict per row. *)
Fixpoint record_at (df : DataFrame) (i : nat) : list (string * value) :=
  match df with
  | [] => []
  | (cname, col) :: r =>
      match nth_error (cells col) i with
      | Some s => (cname, scalar_value s) :: record_at r i
      | None => record_at r i
      end
  end.

Definition nrows (df : DataFrame) : nat :=
  match df with
  | [] => O
  | (_, col) :: _ => List.length (cells col)
  end.

Definition records (df : DataFrame) : list value :=
  map (fun i => VDict (record_at df i)) (seq 0 (nrows df)).

(** Data overrides to_dict. *)
Definition to_dict (self : t) : list (string * value) :=
  [("formatType", VStr (formatType self));
   ("values", VList (records (data self)))].

End Data.

(** ** class Viz(BaseObject) *)

Module Viz.

Record t : Type :=
  { self_id : oid;                      (* the identity of the object *)
    marktype : string;
    encoding : option Encoding.t;
    vlconfig : option VLConfig.t;
    _data : option Data.t;
    data : option DataFrame }.

Definition with_marktype (self : t) v : t :=
  {| self_id := self_id self; marktype := v; encoding := encoding self;
     vlconfig := vlconfig self; _data := _data self; data := data self |}.

Definition with_encoding (self : t) v : t :=
  {| self_id := self_id self; marktype := marktype self; encoding := v;
     vlconfig := vlconfig self; _data := _data self; data := data self |}.

Definition with_vlconfig (self : t) v : t :=
  {| self_id := self_id self; marktype := marktype self;
     encoding := encoding self; vlconfig := v; _data := _data self;
     data := data self |}.

Definition with__data (self : t) v : t :=
  {| self_id := self_id self; marktype := marktype self;
     encoding := encoding self; vlconfig := vlconfig self; _data := v;
     data := data self |}.

Definition with_data (self : t) v : t :=
  {| self_id := self_id self; marktype := marktype self;
     encoding := encoding self; vlconfig := vlconfig self;
     _data := _data self; data := v |}.

Definition marktype_values : list string :=
  ["point"; "tick"; "bar"; "line"; "area"; "circle"; "square"; "text"].

(** The traits of a chart.  The two inherited from [Configurable] are
    given as on a chart nobody has assigned them to: no method of the class
    does, and [parent], which [skip] does not list, would otherwise show up
    in the dict. *)
Definition view (self : t) : BaseObject.view :=
  {| BaseObject.traits :=
       ("marktype", VStr (marktype self))
         :: ("encoding", of_option (fun e => VObj (Encoding.to_dict e)) (encoding self))
         :: ("vlconfig", of_option (fun c => VObj (VLConfig.to_dict c)) (vlconfig self))
         :: ("_data", of_option (fun d => VObj (Data.to_dict d)) (_data self))
         :: ("data", of_option VFrame (data self))
         :: BaseObject.Configurable_traits [];
     BaseObject.skip := ["data"; "_data"; "vlconfig"] |}.

(** Viz overrides to_dict: the generic dict, then the keys data and config. *)
Definition to_dict (self : t) : result (list (string * value)) :=
  let D := BaseObject.to_dict (view self) in
  match _data self with
  | None => Raise AttributeError
  | Some d =>
      let D := dict_set "data" (VDict (Data.to_dict d)) D in
      match vlconfig self with
      | None => Raise AttributeError
      | Some c => Return (dict_set "config" (VDict (VLConfig.to_dict c)) D)
      end
  end.

(** [_encoding_changed], run once [self.encoding] holds the new value. *)
Definition _encoding_changed (self : t) : result t :=
  match encoding self with
  | Some e =>
      let e := Encoding.with_parent e (Some (self_id self)) in
      let self := with_encoding self (Some e) in
      has_data <- BaseObject.__contains__ (view self) "data" ;;
      if has_data : bool then
        e' <- Encoding._infer_types e (data self) ;;
        Return (with_encoding self (Some e'))
      else Return self
  | None => Return self
  end.

(** The assignment [self.encoding = v]; an Encoding is a fresh object. *)
Definition set_encoding (self : t) (v : option Encoding.t) : result t :=
  match v, encoding self with
  | None, None => Return self
  | _, _ => _encoding_changed (with_encoding self v)
  end.

(** A value assigned to the trait [data]: None or a DataFrame.  (The trait
    type, [DataFrameTrait], comes from utils.py.) *)
Inductive data_arg : Type :=
| DNone
| DFrame (df : DataFrame).

(** pd.DataFrame(None): the frame without columns. *)
Definition empty_frame : DataFrame := [].

(** [_data_changed] from its third statement on: [new] is a DataFrame and
    [self.data] holds it. *)
Definition _data_changed_frame (self : t) (new : DataFrame) : result t :=
  let self := with__data self (Some (Data.new new)) in
  match encoding self with
  | Some e =>
      e' <- Encoding._infer_types e (data self) ;;
      Return (with_encoding self (Some e'))
  | None => Return self
  end.

(** [_data_changed]: a value that is not a DataFrame is replaced by
    [pd.DataFrame(new)]; that assignment runs the handler once more. *)
Definition _data_changed (self : t) (new : data_arg) : result t :=
  match new with
  | DNone => _data_changed_frame (with_data self (Some empty_frame)) empty_frame
  | DFrame df => _data_changed_frame self df
  end.

(** The assignment [self.data = v].  Comparing a DataFrame for equality
    has no truth value, so traitlets notifies whenever the old or the new
    value is a DataFrame. *)
Definition set_data (self : t) (v : data_arg) : result t :=
  match v with
  | DNone =>
      match data self with
      | None => Return self
      | Some _ => _data_changed (with_data self None) DNone
      end
  | DFrame df => _data_changed (with_data self (Some df)) (DFrame df)
  end.

(** Viz(data), as the object with identity [id]: the keyword [data] is
    assigned, and assigned again at the end of Configurable.__init__.  This
    is the call with the positional argument only; the further keywords
    [__init__] would pass on (a vlconfig, an encoding, a marktype) are not
    part of it. *)
Definition init (id : oid) (v : data_arg) : result t :=
  let self := {| self_id := id; marktype := "point"; encoding := None;
                 vlconfig := Some VLConfig.default; _data := None;
                 data := None |} in
  self <- set_data self v ;;
  set_data self v.

Definition encode (h : heap) (self : t) (kw : Encoding.kwargs) : result t :=
  e <- Encoding.init h [] kw ;;
  set_encoding self (Some e).

(** The assignment [self.marktype = mt], validated by the Enum. *)
Definition mark (self : t) (mt : string) : result t :=
  if mem mt marktype_values then Return (with_marktype self mt)
  else Raise TraitError.

Definition point (self : t) := mark self "point".
Definition tick (self : t) := mark self "tick".
Definition bar (self : t) := mark self "bar".
Definition line (self : t) := mark self "line".
Definition area (self : t) := mark self "area".
Definition circle (self : t) := mark self "circle".
Definition square (self : t) := mark self "square".
Definition text (self : t) := mark self "text".

(** x.type in ('N', 'O') *)
Definition type_in_N_O {c} (s : Shelf.t c) : bool :=
  match Shelf.type s with
  | Some ty => mem ty ["N"; "O"]
  | None => false
  end.

(** s.band = Band(size=n) on an X or a Y. *)
Definition with_band (o : DataCoordinate.own) (b : Band.t) : DataCoordinate.own :=
  {| DataCoordinate.scale := DataCoordinate.scale o;
     DataCoordinate.axis := DataCoordinate.axis o;
     DataCoordinate.band := Some b |}.

Definition set_single_dims (self : t) (width height : Z) : result t :=
  match vlconfig self with
  | None => Raise AttributeError
  | Some c =>
      let c := VLConfig.with_width c width in
      let c := VLConfig.with_height c height in
      f <- py_mul_int_float width f64_0_75 ;;
      sw <- py_int f ;;
      let c := VLConfig.with_singleWidth c (Some sw) in
      f <- py_mul_int_float height f64_0_75 ;;
      sh <- py_int f ;;
      let c := VLConfig.with_singleHeight c (Some sh) in
      let self := with_vlconfig self (Some c) in
      match encoding self with
      | None => Raise AttributeError
      | Some e =>
          match Encoding.x e with
          | None => Raise AttributeError
          | Some sx =>
              sx <- (if type_in_N_O sx then
                       q <- py_truediv width 10 ;;
                       n <- py_int q ;;
                       Return (Shelf.with_sub (c := Shelf.X) sx
                                 (with_band (Shelf.sub sx) (Band.new n)))
                     else Return sx) ;;
              let e := Encoding.with_x e (Some sx) in
              match Encoding.y e with
              | None => Raise AttributeError
              | Some sy =>
                  sy <- (if type_in_N_O sy then
                           q <- py_truediv height 10 ;;
                           n <- py_int q ;;
                           Return (Shelf.with_sub (c := Shelf.Y) sy
                                     (with_band (Shelf.sub sy) (Band.new n)))
                         else Return sy) ;;
                  let e := Encoding.with_y e (Some sy) in
                  Return (with_encoding self (Some e))
              end
          end
      end
  end.

(** The Config built by [hist]:
    config.Y.type = "Q"; config.Y.aggregate = "count" *)
Definition hist_config : Config :=
  [("Y", VDict [("type", VStr "Q"); ("aggregate", VStr "count")])].

(** y='' next to the caller's keywords. *)
Definition with_kw_y (kw : Encoding.kwargs) v : Encoding.kwargs :=
  {| Encoding.kw_x := Encoding.kw_x kw; Encoding.kw_y := v;
     Encoding.kw_row := Encoding.kw_row kw; Encoding.kw_col := Encoding.kw_col kw;
     Encoding.kw_size := Encoding.kw_size kw;
     Encoding.kw_color := Encoding.kw_color kw;
     Encoding.kw_shape := Encoding.kw_shape kw |}.

(** isinstance(kwargs.get("x"), str) *)
Definition x_is_str (kw : Encoding.kwargs) : bool :=
  match Encoding.kw_x kw with
  | Some (Encoding.AStr _) => true
  | _ => false
  end.

Definition hist (h : heap) (self : t) (bins : Z) (kw : Encoding.kwargs)
  : result t :=
  self <- mark self "bar" ;;
  match Encoding.kw_y kw with
  | Some _ => Raise TypeError     (* keyword y given twice *)
  | None =>
      e <- Encoding.init h hist_config (with_kw_y kw (Some (Encoding.AStr ""))) ;;
      self <- set_encoding self (Some e) ;;
      match encoding self with
      | None => Raise AttributeError
      | Some e =>
          e <- (if x_is_str kw then
                  match Encoding.x e with
                  | None => Raise AttributeError
                  | Some sx =>
                      Return (Encoding.with_x e
                                (Some (Shelf.with_bin sx (Shelf.BinObj (Bin.new bins)))))
                  end
                else Return e) ;;
          match Encoding.x e, Encoding.y e with
          | Some sx, Some sy =>
              Return (with_encoding self
                        (Some (Encoding.with_y e
                                 (Some (Shelf.with_name sy (Shelf.name sx))))))
          | _, _ => Raise AttributeError
          end
      end
  end.

End Viz.

(** ** Renderer logic *)

Module Renderers.

(** A Renderer instance. *)
Definition Renderer : Type := nat.

(** A renderer factory, given by what calling it yields: an instance, or
    the exception of a failed import. *)
Definition factory : Type := result Renderer.

(** The module globals [_renderers] and [_renderer]. *)
Record globals : Type :=
  { _renderers : list (string * factory);
    _renderer : option Renderer }.

(** The registry as the module creates it; [mpl] and [lgn] are the outcomes
    of [_get_matplotlib_renderer] and [_get_lightning_renderer]. *)
Definition initial (mpl lgn : factory) : globals :=
  {| _renderers := [("matplotlib", mpl); ("lightning", lgn)];
     _renderer := None |}.

Definition register_renderer (g : globals) (name : string) (rfactory : factory)
  : globals :=
  {| _renderers := dict_set name rfactory (_renderers g);
     _renderer := _renderer g |}.

(** The argument of [use_renderer]: a Renderer instance or a name. *)
Inductive arg : Type :=
| Instance (r : Renderer)
| Name (s : string).

(** An exception instance, as built by [ValueError(msg)]. *)
Record exception : Type := { exc_class : exn; exc_args : list value }.

(** Attribute lookup on an exception instance: it has [args], and no
    attribute [format]. *)
Definition exception_getattr (e : exception) (attr : string) : result value :=
  if String.eqb attr "args" then Return (VList (exc_args e))
  else Raise AttributeError.

(** In the last branch the operand of [raise] is the whole expression
    [ValueError('renderer could not be found: {0}').format(r)]: the
    attribute [format] is looked up on the new ValueError instance before
    anything is raised.  Had the lookup succeeded, [raise] would have been
    given a value that is not an exception. *)
Definition use_renderer (g : globals) (r : arg) : result globals :=
  match r with
  | Instance i => Return {| _renderers := _renderers g; _renderer := Some i |}
  | Name n =>
      match lookup n (_renderers g) with
      | Some rfactory =>
          i <- rfactory ;;
          Return {| _renderers := _renderers g; _renderer := Some i |}
      | None =>
          let e := {| exc_class := ValueError;
                      exc_args := [VStr "renderer could not be found: {0}"] |} in
          _ <- exception_getattr e "format" ;;
          Raise TypeError
      end
  end.

Definition list_renderers (g : globals) : list string := keys (_renderers g).

End Renderers.

(** ** The classes serialized by BaseObject.to_dict

    Every class but Data and Viz, which override [to_dict]. *)

Inductive entity : Type :=
| EScale (o : Scale.t)
| EAxis (o : Axis.t)
| ELegend (o : Legend.t)
| EBand (o : Band.t)
| EBin (o : Bin.t)
| ESortItems (o : SortItems.t)
| EShelf (c : Shelf.cls) (o : Shelf.t c)
| EEncoding (o : Encoding.t)
| EVLConfig (o : VLConfig.t).

Definition entity_view (e : entity) : BaseObject.view :=
  match e with
  | EScale o => Scale.view o
  | EAxis o => Axis.view o
  | ELegend o => Legend.view o
  | EBand o => Band.view o
  | EBin o => Bin.view o
  | ESortItems o => SortItems.view o
  | EShelf c o => Shelf.view o
  | EEncoding o => Encoding.view o
  | EVLConfig o => VLConfig.view o
  end.

(** Pairwise distinct names, decided. *)
Fixpoint distinct (l : list string) : bool :=
  match l with
  | [] => true
  | a :: r => negb (mem a r) && distinct r
  end.

(** ** Notions used to state the properties *)

(** A slot is resolved when it is empty or its Shelf has a type. *)
Definition resolved {c} (val : option (Shelf.t c)) : bool :=
  match val with
  | Some s => match Shelf.type s with Some _ => true | None => false end
  | None => true
  end.

(** An Encoding all of whose occupied channels have a type. *)
Definition fully_resolved (e : Encoding.t) : bool :=
  resolved (Encoding.x e) && resolved (Encoding.y e)
  && resolved (Encoding.row e) && resolved (Encoding.col e)
  && resolved (Encoding.size e) && resolved (Encoding.color e)
  && resolved (Encoding.shape e).

(** The type of the Shelf in a channel of an Encoding: None when the slot
    is empty, [Some None] when the Shelf has no type yet. *)
Definition channel_type (ch : Encoding.channel) (e : Encoding.t)
  : option (option string) :=
  option_map Shelf.type (Encoding.get ch e).

(** The same through [viz.encoding]. *)
Definition viz_channel_type (ch : Encoding.channel) (v : Viz.t)
  : option (option string) :=
  match Viz.encoding v with
  | Some e => channel_type ch e
  | None => None
  end.

(** The keyword arguments x=sx and x=sx, y=sy. *)
Definition kw_x_only (sx : string) : Encoding.kwargs :=
  {| Encoding.kw_x := Some (Encoding.AStr sx); Encoding.kw_y := None;
     Encoding.kw_row := None; Encoding.kw_col := None;
     Encoding.kw_size := None; Encoding.kw_color := None;
     Encoding.kw_shape := None |}.

Definition kw_x_y (sx sy : string) : Encoding.kwargs :=
  Viz.with_kw_y (kw_x_only sx) (Some (Encoding.AStr sy)).

(** The Shelf after one inference step with a DataFrame: the type is set
    when it was None and the DataFrame has the column. *)
Definition inferred {c} (o : Shelf.t c) (df : DataFrame) : Shelf.t c :=
  match Shelf.type o, df_getitem df (Shelf.name o) with
  | None, Some col => Shelf.with_type o (Some (utils.infer_vegalite_type col))
  | _, _ => o
  end.

(** An Encoding after one inference step on every occupied channel. *)
Definition inferred_all (e : Encoding.t) (df : DataFrame) : Encoding.t :=
  {| Encoding.x := option_map (fun o => inferred o df) (Encoding.x e);
     Encoding.y := option_map (fun o => inferred o df) (Encoding.y e);
     Encoding.row := option_map (fun o => inferred o df) (Encoding.row e);
     Encoding.col := option_map (fun o => inferred o df) (Encoding.col e);
     Encoding.size := option_map (fun o => inferred o df) (Encoding.size e);
     Encoding.color := option_map (fun o => inferred o df) (Encoding.color e);
     Encoding.shape := option_map (fun o => inferred o df) (Encoding.shape e);
     Encoding.parent := Encoding.parent e;
     Encoding.config := Encoding.config e |}.

(** The Shelf in a channel of [viz.encoding], if any. *)
Definition viz_channel (ch : Encoding.channel) (v : Viz.t)
  : option (Shelf.t (Encoding.class_of ch)) :=
  match Viz.encoding v with
  | Some e => Encoding.get ch e
  | None => None
  end.

(** ** Sample data

    A DataFrame with a numeric column age and a text column city, and a
    heap in which every identity is a Viz bound to a given dataset. *)

Definition people : DataFrame :=
  [("age", {| dt := Numeric; cells := [SInt 31; SInt 47] |});
   ("city", {| dt := Text; cells := [SStr "Oslo"; SStr "Lima"] |})].

Definition heap_of (data : option DataFrame) : heap := fun _ => VizObject data.

(** An Encoding without channels whose parent is the object 0. *)
Definition attached : Encoding.t :=
  Encoding.with_parent Encoding.default (Some O).

(** Viz(None) with identity 0, and the same chart bound to [people]. *)
Definition blank_chart : Viz.t :=
  {| Viz.self_id := O; Viz.marktype := "point"; Viz.encoding := None;
     Viz.vlconfig := Some VLConfig.default; Viz._data := None;
     Viz.data := None |}.

Definition people_chart : Viz.t :=
  {| Viz.self_id := O; Viz.marktype := "point"; Viz.encoding := None;
     Viz.vlconfig := Some VLConfig.default; Viz._data := Some (Data.new people);
     Viz.data := Some people |}.

(** [people_chart] after encode(x="age", y="city"). *)
Definition people_xy_chart : Viz.t :=
  Eval vm_compute in
    match Viz.encode (heap_of None) people_chart (kw_x_y "age" "city") with
    | Return v => v
    | Raise _ => people_chart
    end.

(** ** Further notions *)

(** The attribute name of a channel. *)
Definition channel_name (ch : Encoding.channel) : string :=
  match ch with
  | Encoding.ch_x => "x"
  | Encoding.ch_y => "y"
  | Encoding.ch_row => "row"
  | Encoding.ch_col => "col"
  | Encoding.ch_size => "size"
  | Encoding.ch_color => "color"
  | Encoding.ch_shape => "shape"
  end.

(** The classes that declare [aggregate] as T.Enum(['count'], ...). *)
Definition count_only (c : Shelf.cls) : bool :=
  match c with
  | Shelf.FacetCoordinate | Shelf.Row | Shelf.Col | Shelf.Shape => true
  | _ => false
  end.

(** [attached] with an X in its slot x. *)
Definition attached_x : Encoding.t :=
  Encoding.with_x attached (Some (Shelf.default Shelf.X)).

(** [attached] after the assignment x = "age", with [people] as the data
    of the parent. *)
Definition attached_age : Encoding.t :=
  Eval vm_compute in
    match Encoding.set Encoding.ch_x (heap_of (Some people)) attached
            (Encoding.AStr "age") with
    | Return e => e
    | Raise _ => attached
    end.

(** [people_xy_chart] after set_single_dims(400, 200). *)
Definition people_xy_sized : Viz.t :=
  Eval vm_compute in
    match Viz.set_single_dims people_xy_chart 400 200 with
    | Return v => v
    | Raise _ => people_xy_chart
    end.

(** [people_chart] after hist(bins=5, x="age"). *)
Definition people_hist : Viz.t :=
  Eval vm_compute in
    match Viz.hist (heap_of None) people_chart 5 (kw_x_only "age") with
    | Return v => v
    | Raise _ => people_chart
    end.

(** The name of a class, as its config section is called. *)
Definition class_name (c : Shelf.cls) : string :=
  match c with
  | Shelf.Shelf => "Shelf"
  | Shelf.DataCoordinate => "DataCoordinate"
  | Shelf.X => "X"
  | Shelf.Y => "Y"
  | Shelf.FacetCoordinate => "FacetCoordinate"
  | Shelf.Row => "Row"
  | Shelf.Col => "Col"
  | Shelf.Size => "Size"
  | Shelf.Color => "Color"
  | Shelf.Shape => "Shape"
  end.

(** The state the methods of a chart keep: the Data wrapper wraps the
    current data, there is a vlconfig, and the parent of the encoding is the
    chart itself. *)
Definition consistent (v : Viz.t) : Prop :=
  Viz._data v = option_map Data.new (Viz.data v)
  /\ Viz.vlconfig v <> None
  /\ match Viz.encoding v with
     | Some e => Encoding.parent e = Some (Viz.self_id v)
     | None => True
     end.

(** One call that returns, of the assignment to [data] or of one of the
    methods encode, mark (and its shortcuts), set_single_dims and hist;
    encode and hist with channel keywords. *)
Inductive method : Viz.t -> Viz.t -> Prop :=
| m_set_data (v : Viz.t) (d : Viz.data_arg) (v' : Viz.t) :
    Viz.set_data v d = Return v' -> method v v'
| m_encode (h : heap) (v : Viz.t) (kw : Encoding.kwargs) (v' : Viz.t) :
    Viz.encode h v kw = Return v' -> method v v'
| m_mark (v : Viz.t) (mt : string) (v' : Viz.t) :
    Viz.mark v mt = Return v' -> method v v'
| m_set_single_dims (v : Viz.t) (width height : Z) (v' : Viz.t) :
    Viz.set_single_dims v width height = Return v' -> method v v'
| m_hist (h : heap) (v : Viz.t) (bins : Z) (kw : Encoding.kwargs) (v' : Viz.t) :
    Viz.hist h v bins kw = Return v' -> method v v'.

(** The charts obtained from Viz(data) by such calls. *)
Inductive reachable : Viz.t -> Prop :=
| r_init (id : oid) (d : Viz.data_arg) (v : Viz.t) :
    Viz.init id d = Return v -> reachable v
| r_method (v v' : Viz.t) : reachable v -> method v v' -> reachable v'.


(** The X of [people_xy_chart]. *)
Definition people_xy_x : Shelf.t Shelf.X :=
  Eval vm_compute in
    match viz_channel Encoding.ch_x people_xy_chart with
    | Some s => s
    | None => Shelf.default Shelf.X
    end.

(** * Properties *)

(** ** Association lists *)

Lemma lookup_dict_set_eq {A : Type} (k : string) (v : A) (d : list (string * A)) :
  lookup k (dict_set k v d) = Some v.
Proof.
  induction d as [|[k' v'] r IH]; simpl.
  - now rewrite String.eqb_refl.
  - destruct (String.eqb k k') eqn:E; simpl.
    + now rewrite String.eqb_refl.
    + now rewrite E.
Qed.

Lemma lookup_dict_set_neq {A : Type} (k k0 : string) (v : A) (d : list (string * A)) :
  k <> k0 -> lookup k (dict_set k0 v d) = lookup k d.
Proof.
  intros Hne. induction d as [|[k' v'] r IH]; simpl.
  - destruct (String.eqb k k0) eqn:E; [apply String.eqb_eq in E; contradiction|reflexivity].
  - destruct (String.eqb k0 k') eqn:E0; simpl.
    + apply String.eqb_eq in E0. subst k'.
      destruct (String.eqb k k0) eqn:E; [apply String.eqb_eq in E; contradiction|reflexivity].
    + destruct (String.eqb k k'); [reflexivity|exact IH].
Qed.

Lemma lookup_None_not_In {A : Type} (k : string) (d : list (string * A)) :
  ~ In k (keys d) -> lookup k d = None.
Proof.
  induction d as [|[k' v'] r IH]; simpl; intros H; [reflexivity|].
  destruct (String.eqb k k') eqn:E.
  - apply String.eqb_eq in E. subst. exfalso. apply H. now left.
  - apply IH. intros Hin. apply H. now right.
Qed.

Lemma lookup_Some_In {A : Type} (k : string) (d : list (string * A)) (v : A) :
  lookup k d = Some v -> In k (keys d).
Proof.
  induction d as [|[k' v'] r IH]; simpl; [discriminate|].
  destruct (String.eqb k k') eqn:E.
  - apply String.eqb_eq in E. subst. now left.
  - intros H. right. now apply IH.
Qed.

Lemma In_keys_lookup {A : Type} (k : string) (d : list (string * A)) :
  In k (keys d) -> exists v, lookup k d = Some v.
Proof.
  induction d as [|[k' v'] r IH]; simpl; [contradiction|].
  intros [->|Hin].
  - rewrite String.eqb_refl. eauto.
  - destruct (String.eqb k k'); eauto.
Qed.

(** ** to_dict *)

(** What the loop of [to_dict] leaves under a key, for trait names that
    are pairwise distinct. *)
Lemma to_dict_loop_lookup (sk : list string) (k : string) :
  forall (l acc : list (string * value)),
    NoDup (keys l) ->
    lookup k
      (fold_left
         (fun result kv =>
            if BaseObject.present (snd kv) && negb (mem (fst kv) sk)
            then dict_set (fst kv) (BaseObject.entry (snd kv)) result
            else result) l acc)
    = match lookup k l with
      | Some v =>
          if BaseObject.present v && negb (mem k sk)
          then Some (BaseObject.entry v) else lookup k acc
      | None => lookup k acc
      end.
Proof.
  induction l as [|[k' v'] r IH]; intros acc Hnd; simpl; [reflexivity|].
  inversion Hnd as [|? ? Hnot Hnd']; subst.
  rewrite IH by assumption.
  destruct (String.eqb k k') eqn:E.
  - apply String.eqb_eq in E. subst k'.
    rewrite (lookup_None_not_In k r Hnot).
    destruct (BaseObject.present v' && negb (mem k sk)); [|reflexivity].
    apply lookup_dict_set_eq.
  - assert (Hne : k <> k') by (intros ->; rewrite String.eqb_refl in E; discriminate).
    assert (Hacc : lookup k
              (if BaseObject.present v' && negb (mem k' sk)
               then dict_set k' (BaseObject.entry v') acc else acc) = lookup k acc).
    { destruct (BaseObject.present v' && negb (mem k' sk)); [|reflexivity].
      now apply lookup_dict_set_neq. }
    rewrite Hacc. reflexivity.
Qed.

Lemma to_dict_lookup (v : BaseObject.view) (k : string) :
  NoDup (keys (BaseObject.traits v)) ->
  lookup k (BaseObject.to_dict v)
  = match lookup k (BaseObject.traits v) with
    | Some val =>
        if BaseObject.present val && negb (mem k (BaseObject.skip v))
        then Some (BaseObject.entry val) else None
    | None => None
    end.
Proof.
  intros Hnd. unfold BaseObject.to_dict.
  rewrite to_dict_loop_lookup by assumption.
  destruct (lookup k (BaseObject.traits v)); reflexivity.
Qed.

Lemma mem_In (k : string) (l : list string) : mem k l = true <-> In k l.
Proof.
  induction l as [|a r IH]; simpl.
  - split; [discriminate|contradiction].
  - rewrite orb_true_iff, IH, String.eqb_eq. split; intros [H|H]; auto.
Qed.

Lemma distinct_NoDup (l : list string) : distinct l = true -> NoDup l.
Proof.
  induction l as [|a r IH]; simpl; intros H; constructor.
  - apply andb_true_iff in H. destruct H as [H _].
    intros Hin. apply mem_In in Hin. rewrite Hin in H. discriminate.
  - apply IH. apply andb_true_iff in H. tauto.
Qed.

(** The trait names of every class are pairwise distinct. *)
Lemma entity_traits_NoDup (e : entity) :
  NoDup (keys (BaseObject.traits (entity_view e))).
Proof.
  apply distinct_NoDup.
  destruct e as [o|o|o|o|o|o|c o|o|o]; try reflexivity.
  destruct c; reflexivity.
Qed.

(** C1 (as amended).  For every entity serialized by the generic to_dict,
    the dict has key k exactly when k names a trait whose value is present
    and k is not in the skip list of the class, and then it holds that value
    (the value's own dict for a nested object); a value is present when it
    is a DataFrame, or it is not None and is a boolean or truthy.  A Shelf
    whose aggregate is None has no key aggregate; a Shelf whose bin is False
    has the entry bin: False, since False is a boolean; a Shape whose filled
    is False has the entry filled: False. *)
Theorem C1_to_dict_presence_rule :
  (forall (e : entity) (k : string),
      lookup k (BaseObject.to_dict (entity_view e))
      = match lookup k (BaseObject.traits (entity_view e)) with
        | Some v =>
            if BaseObject.present v
               && negb (mem k (BaseObject.skip (entity_view e)))
            then Some (BaseObject.entry v) else None
        | None => None
        end)
  /\ (forall v : value,
        BaseObject.present v
        = (BaseObject.isinstance_DataFrame v
           || (negb (BaseObject.is_None v)
               && (BaseObject.isinstance_bool v || BaseObject.truthy v))))
  /\ (forall (c : Shelf.cls) (s : Shelf.t c),
        lookup "aggregate" (Shelf.to_dict (Shelf.with_aggregate s None)) = None)
  /\ (forall (c : Shelf.cls) (s : Shelf.t c),
        lookup "bin" (Shelf.to_dict (Shelf.with_bin s (Shelf.BinBool false)))
        = Some (VBool false))
  /\ (forall (s : Shelf.t Shelf.Shape) (v : string) (l : option Legend.t),
        lookup "filled"
          (Shelf.to_dict
             (Shelf.with_sub s
                {| Shape.value := v; Shape.legend := l; Shape.filled := false |}))
        = Some (VBool false)).
Proof.
  split; [|split; [|split; [|split]]].
  - intros e k. apply to_dict_lookup, entity_traits_NoDup.
  - intros v. destruct v as [ | b | z | f | s | l | d | df | d];
      unfold BaseObject.present; simpl; try reflexivity.
    + now destruct (z =? 0).
    + now destruct (f64_truthy f).
    + now destruct (String.eqb s "").
    + now destruct l.
    + now destruct d.
  - intros c s. unfold Shelf.to_dict.
    rewrite to_dict_lookup by exact (entity_traits_NoDup (EShelf c _)).
    reflexivity.
  - intros c s. unfold Shelf.to_dict.
    rewrite to_dict_lookup by exact (entity_traits_NoDup (EShelf c _)).
    reflexivity.
  - intros s v l. unfold Shelf.to_dict.
    rewrite to_dict_lookup by exact (entity_traits_NoDup (EShelf Shelf.Shape _)).
    reflexivity.
Qed.

(** C1, as stated, fails: a Shelf whose bin is False does not omit the key
    bin. *)
Lemma C1_bin_False_is_serialized :
  ~ (forall (c : Shelf.cls) (s : Shelf.t c),
        Shelf.bin s = Shelf.BinBool false ->
        lookup "bin" (Shelf.to_dict s) = None).
Proof.
  intros H. specialize (H Shelf.Shelf (Shelf.default Shelf.Shelf) eq_refl).
  vm_compute in H. discriminate.
Qed.

(** ** Shelf *)

(** C8.  A Shelf built from the shorthand avg(price):Q serializes with
    aggregate avg, name price and type Q, and without the shorthand
    itself. *)
Theorem C8_shorthand_round_trip :
  exists s : Shelf.t Shelf.Shelf,
    Shelf.init Shelf.Shelf "avg(price):Q" [] = Return s
    /\ Shelf.shorthand s = "avg(price):Q"
    /\ lookup "aggregate" (Shelf.to_dict s) = Some (VStr "avg")
    /\ lookup "name" (Shelf.to_dict s) = Some (VStr "price")
    /\ lookup "type" (Shelf.to_dict s) = Some (VStr "Q")
    /\ lookup "shorthand" (Shelf.to_dict s) = None.
Proof.
  eexists. split; [vm_compute; reflexivity|].
  repeat split; reflexivity.
Qed.

(** The inferred code is always one of the four the Enum accepts. *)
Lemma infer_vegalite_type_valid (col : Series) :
  Shelf.validate_enum Shelf.type_values (VStr (utils.infer_vegalite_type col))
  = Return (Some (utils.infer_vegalite_type col)).
Proof. unfold utils.infer_vegalite_type. destruct (dt col); reflexivity. Qed.

(** What [_infer_type] does with a DataFrame. *)
Lemma infer_type_frame {c} (s : Shelf.t c) (df : DataFrame) :
  Shelf._infer_type s (Some df) = Return (inferred s df).
Proof.
  unfold Shelf._infer_type, inferred, df_contains, df_getitem.
  destruct (Shelf.type s); [reflexivity|].
  destruct (lookup (Shelf.name s) df) as [col|]; [|reflexivity].
  rewrite infer_vegalite_type_valid. reflexivity.
Qed.

Lemma infer_type_resolved {c} (s : Shelf.t c) (data : option DataFrame) :
  Shelf.type s <> None -> Shelf._infer_type s data = Return s.
Proof.
  unfold Shelf._infer_type. destruct (Shelf.type s); [reflexivity|congruence].
Qed.

Lemma inferred_twice {c} (o : Shelf.t c) (df : DataFrame) :
  inferred (inferred o df) df = inferred o df.
Proof.
  unfold inferred. destruct (Shelf.type o) eqn:Ht.
  - rewrite Ht. reflexivity.
  - destruct (df_getitem df (Shelf.name o)) eqn:Hg; simpl.
    + reflexivity.
    + rewrite Ht, Hg. reflexivity.
Qed.

Lemma infer_type_twice {c} (s : Shelf.t c) (data : option DataFrame) :
  (s1 <- Shelf._infer_type s data ;; Shelf._infer_type s1 data)
  = Shelf._infer_type s data.
Proof.
  destruct data as [df|].
  - rewrite infer_type_frame. unfold bind.
    rewrite infer_type_frame, inferred_twice. reflexivity.
  - unfold Shelf._infer_type. destruct (Shelf.type s) eqn:Ht; simpl.
    + rewrite Ht. reflexivity.
    + reflexivity.
Qed.

Lemma infer_val_resolved {c} (val : option (Shelf.t c)) (data : option DataFrame) :
  resolved val = true -> Encoding.infer_val val data = Return val.
Proof.
  destruct val as [s|]; simpl; [|reflexivity].
  intros H. rewrite infer_type_resolved; [reflexivity|].
  destruct (Shelf.type s); [discriminate|discriminate].
Qed.

(** C5.  Calling [_infer_type] twice with the same data does what one call
    does; a Shelf whose type is set is left as it is, whatever the data; and
    [_infer_types] leaves an Encoding unchanged when all its occupied
    channels have a type. *)
Theorem C5_type_resolution_idempotent
  (c : Shelf.cls) (s : Shelf.t c) (data : option DataFrame)
  (e : Encoding.t) (data' : option DataFrame) :
  fully_resolved e = true ->
  (s1 <- Shelf._infer_type s data ;; Shelf._infer_type s1 data)
  = Shelf._infer_type s data
  /\ (forall t : string,
        Shelf._infer_type (Shelf.with_type s (Some t)) data
        = Return (Shelf.with_type s (Some t)))
  /\ Encoding._infer_types e data' = Return e.
Proof.
  intros He. split; [apply infer_type_twice|split].
  - intros t. apply infer_type_resolved. simpl. discriminate.
  - unfold fully_resolved in He.
    repeat (apply andb_true_iff in He; destruct He as [He ?]).
    unfold Encoding._infer_types.
    rewrite !infer_val_resolved by assumption. simpl.
    destruct e; reflexivity.
Qed.

Lemma C5_witness :
  let e := Encoding.with_x Encoding.default
             (Some (Shelf.with_type (Shelf.default Shelf.X) (Some "Q"))) in
  Encoding._infer_types e None = Return e.
Proof.
  intros e.
  exact (proj2 (proj2 (C5_type_resolution_idempotent
                         Shelf.X (Shelf.default Shelf.X) None e None eq_refl))).
Defined.

(** ** Encoding *)

Lemma setattr_shorthand {c} (s s' : Shelf.t c) (key : string) (val : value) :
  Shelf.setattr s key val = Return s' -> Shelf.shorthand s' = Shelf.shorthand s.
Proof.
  unfold Shelf.setattr.
  repeat match goal with
         | |- context [if ?b then _ else _] => destruct b
         end;
    try (destruct (Shelf.validate_unicode val); simpl; intros H; inversion H; reflexivity);
    try (match goal with
         | |- context [Shelf.validate_enum ?l ?v] => destruct (Shelf.validate_enum l v)
         end; simpl; intros H; inversion H; reflexivity).
Qed.

Lemma setattrs_shorthand {c} (D : list (string * value)) :
  forall s s' : Shelf.t c,
    Shelf.setattrs s D = Return s' -> Shelf.shorthand s' = Shelf.shorthand s.
Proof.
  induction D as [|[key val] r IH]; simpl; intros s s' H.
  - inversion H; reflexivity.
  - destruct (Shelf.setattr s key val) as [s1|] eqn:E; simpl in H; [|discriminate].
    rewrite (IH _ _ H). eapply setattr_shorthand; eassumption.
Qed.

Lemma load_items_shorthand {c} (items : Config) :
  forall s s' : Shelf.t c,
    Shelf.load_items s items = Return s' -> Shelf.shorthand s' = Shelf.shorthand s.
Proof.
  induction items as [|[key val] r IH]; simpl; intros s s' H.
  - inversion H; reflexivity.
  - destruct (mem key (Shelf.config_traits c)); [|eauto].
    destruct (Shelf.setattr s key val) as [s1|] eqn:E; simpl in H; [|discriminate].
    rewrite (IH _ _ H). eapply setattr_shorthand; eassumption.
Qed.

Lemma set_shorthand_shorthand {c} (s s' : Shelf.t c) (v : string) :
  Shelf.set_shorthand s v = Return s' -> Shelf.shorthand s' = v.
Proof.
  unfold Shelf.set_shorthand, Shelf._shorthand_changed.
  destruct (String.eqb (Shelf.shorthand s) v) eqn:E.
  - intros H; inversion H; subst. now apply String.eqb_eq.
  - destruct (utils.parse_shorthand _) as [D|]; simpl; [|discriminate].
    intros H. now rewrite (setattrs_shorthand _ _ _ H).
Qed.


Lemma parent_with_data (h : heap) (self : Encoding.t) (df : DataFrame) :
  Encoding.parent_data_or_None h self = Some df ->
  exists p, Encoding.parent self = Some p /\ h p = VizObject (Some df).
Proof.
  unfold Encoding.parent_data_or_None.
  destruct (Encoding.parent self) as [p|]; [|discriminate].
  destruct (h p) as [d|] eqn:E; [|discriminate].
  intros ->. eauto.
Qed.



Lemma if_data_infer_no_data {c} (h : heap) (self : Encoding.t)
  (get : Encoding.t -> option (Shelf.t c))
  (set : Encoding.t -> option (Shelf.t c) -> Encoding.t) :
  Encoding.parent_data_or_None h self = None ->
  Encoding.if_data_infer h self get set = Return self.
Proof. intros Hd. unfold Encoding.if_data_infer. now rewrite Hd. Qed.

Lemma set_config_shorthand {c} (s s' : Shelf.t c) (cfg : Config) :
  Shelf.set_config s cfg = Return s' -> Shelf.shorthand s' = Shelf.shorthand s.
Proof.
  unfold Shelf.set_config, Shelf._load_config. intros H.
  apply load_items_shorthand in H. exact H.
Qed.





(** C10 (as amended).  When the parent of an Encoding is a chart whose
    data is None, assigning a string to x, y, row, col, size or color does
    what the constructor of the channel class does and skips inference: the
    constructed Shelf goes into the slot when the constructor returns, and
    the exception of the constructor is raised otherwise.  Assigning a
    string to shape calls the constructor too, and then [_infer_type] with
    None: that call raises TypeError when the constructed Shape has no
    type, and changes nothing when the shorthand has set the type. *)
Theorem C10_shape_guards_on_parent_only
  (h : heap) (self : Encoding.t) (p : oid) (s : string) :
  Encoding.parent self = Some p ->
  h p = VizObject None ->
  (forall ch : Encoding.channel,
      ch <> Encoding.ch_shape ->
      Encoding.set ch h self (Encoding.AStr s)
      = (o <- Shelf.init (Encoding.class_of ch) s (Encoding.config_for ch self) ;;
         Return (Encoding.with_slot ch self (Some o))))
  /\ Encoding.set Encoding.ch_shape h self (Encoding.AStr s)
     = (o <- Shelf.init Shelf.Shape s [] ;;
        match Shelf.type o with
        | None => Raise TypeError
        | Some _ => Return (Encoding.with_shape self (Some o))
        end).
Proof.
  intros Hp Hh.
  assert (Hnone : forall e, Encoding.parent e = Encoding.parent self ->
                            Encoding.parent_data_or_None h e = None).
  { intros e He. unfold Encoding.parent_data_or_None. now rewrite He, Hp, Hh. }
  split.
  - intros ch Hch.
    destruct ch; try congruence; simpl;
      unfold Encoding.set_x, Encoding.set_y, Encoding.set_row, Encoding.set_col,
        Encoding.set_size, Encoding.set_color, Encoding.assign,
        Encoding._x_changed, Encoding._y_changed, Encoding._row_changed,
        Encoding._col_changed, Encoding._size_changed, Encoding._color_changed;
      match goal with
      | |- context [Shelf.init ?c ?s ?cfg] => destruct (Shelf.init c s cfg) as [o|e]
      end; unfold bind; try reflexivity;
      rewrite if_data_infer_no_data by (apply Hnone; reflexivity);
      rewrite if_data_infer_no_data by (apply Hnone; reflexivity);
      reflexivity.
  - simpl. unfold Encoding.set_shape, Encoding.assign, Encoding._shape_changed.
    destruct (Shelf.init Shelf.Shape s []) as [o|e]; unfold bind; [|reflexivity].
    unfold Encoding.if_parent_infer, Encoding.parent_data.
    cbn [Encoding.parent Encoding.with_shape Encoding.shape].
    rewrite Hp, Hh. unfold bind, Shelf._infer_type.
    destruct (Shelf.type o) eqn:Ht; [|reflexivity].
    cbn [Encoding.parent Encoding.with_shape Encoding.shape].
    rewrite Hp, Hh, Ht. reflexivity.
Qed.

Lemma C10_witness :
  Encoding.set Encoding.ch_shape (heap_of None) attached (Encoding.AStr "kind")
  = Raise TypeError.
Proof.
  exact (proj2 (C10_shape_guards_on_parent_only
                  (heap_of None) attached O "kind" eq_refl eq_refl)).
Defined.

(** C10, as stated, fails: with a parent whose data is None, a shorthand
    that carries its type is assigned to shape without an exception. *)
Lemma C10_typed_shorthand_does_not_raise :
  ~ (forall s : string,
        exists e : exn,
          Encoding.set Encoding.ch_shape (heap_of None) attached (Encoding.AStr s)
          = Raise e).
Proof.
  intros H. destruct (H "kind:N") as [e He].
  vm_compute in He. discriminate.
Qed.

(** ** Viz *)

Lemma infer_val_frame {c} (val : option (Shelf.t c)) (df : DataFrame) :
  Encoding.infer_val val (Some df)
  = Return (option_map (fun o => inferred o df) val).
Proof.
  destruct val as [o|]; simpl; [|reflexivity].
  now rewrite infer_type_frame.
Qed.

(** With a DataFrame, [_infer_types] never raises. *)
Lemma infer_types_frame (e : Encoding.t) (df : DataFrame) :
  Encoding._infer_types e (Some df) = Return (inferred_all e df).
Proof.
  unfold Encoding._infer_types. rewrite !infer_val_frame. reflexivity.
Qed.

Lemma inferred_resolved {c} (o : Shelf.t c) (df : DataFrame) :
  Shelf.type o <> None -> inferred o df = o.
Proof.
  unfold inferred. destruct (Shelf.type o); [reflexivity|congruence].
Qed.

Lemma inferred_absent {c} (o : Shelf.t c) (df : DataFrame) :
  df_getitem df (Shelf.name o) = None -> inferred o df = o.
Proof.
  unfold inferred. intros ->. destruct (Shelf.type o); reflexivity.
Qed.

Lemma get_inferred_all (ch : Encoding.channel) (e : Encoding.t) (df : DataFrame) :
  Encoding.get ch (inferred_all e df)
  = option_map (fun o => inferred o df) (Encoding.get ch e).
Proof. destruct ch; reflexivity. Qed.

(** Assigning a DataFrame to [data] always succeeds: it stores the frame,
    wraps it in a Data and runs inference on the encoding, if any. *)
Lemma set_data_frame (v : Viz.t) (df : DataFrame) :
  Viz.set_data v (Viz.DFrame df)
  = Return
      {| Viz.self_id := Viz.self_id v;
         Viz.marktype := Viz.marktype v;
         Viz.encoding := option_map (fun e => inferred_all e df) (Viz.encoding v);
         Viz.vlconfig := Viz.vlconfig v;
         Viz._data := Some (Data.new df);
         Viz.data := Some df |}.
Proof.
  unfold Viz.set_data, Viz._data_changed, Viz._data_changed_frame.
  destruct v as [id mt [e|] c d0 d]; cbn; [|reflexivity].
  rewrite infer_types_frame. reflexivity.
Qed.

(** The Shelf that X("age") builds. *)
Lemma X_age :
  Shelf.init Shelf.X "age" []
  = Return (Shelf.with_name (Shelf.with_shorthand (Shelf.default Shelf.X) "age") "age").
Proof. reflexivity. Qed.

(** Encoding(x="age"), whatever the heap: the parent is None while the
    constructor runs. *)
Lemma Encoding_x_age (h : heap) :
  Encoding.init h [] (kw_x_only "age")
  = Return (Encoding.with_x Encoding.default
              (Some (Shelf.with_name
                       (Shelf.with_shorthand (Shelf.default Shelf.X) "age") "age"))).
Proof. reflexivity. Qed.

(** Assigning an Encoding to [encoding] sets its parent and, when the chart
    has a DataFrame, runs inference with it. *)
Lemma set_encoding_Some (v : Viz.t) (e : Encoding.t) :
  Viz.set_encoding v (Some e)
  = Return
      (Viz.with_encoding v
         (Some (let e' := Encoding.with_parent e (Some (Viz.self_id v)) in
                match Viz.data v with
                | Some df => inferred_all e' df
                | None => e'
                end))).
Proof.
  destruct v as [id mt e0 c d0 [df|]]; destruct e0; cbn;
    rewrite ?infer_types_frame; reflexivity.
Qed.

Lemma df_contains_getitem (df : DataFrame) (name : string) :
  df_contains df name = false -> df_getitem df name = None.
Proof.
  unfold df_contains, df_getitem. destruct (lookup name df); [discriminate|reflexivity].
Qed.

(** C3.  On a chart whose data is None or lacks the column age,
    encode(x="age") leaves the type of x unset; assigning a DataFrame to
    [data] afterwards runs inference for x against the new DataFrame: the
    type becomes the code inferred from its column age, and stays unset when
    the new DataFrame has no such column.  Whatever the chart, the assignment
    succeeds and every channel whose Shelf already had a type keeps that
    Shelf as it was. *)
Theorem C3_rebinding_data_reinfers_unresolved_channels
  (h : heap) (v0 : Viz.t) (df : DataFrame) :
  match Viz.data v0 with
  | Some d0 => df_contains d0 "age" = false
  | None => True
  end ->
  (exists v1 v2 : Viz.t,
      Viz.encode h v0 (kw_x_only "age") = Return v1
      /\ viz_channel_type Encoding.ch_x v1 = Some None
      /\ Viz.set_data v1 (Viz.DFrame df) = Return v2
      /\ viz_channel_type Encoding.ch_x v2
         = Some (option_map utils.infer_vegalite_type (df_getitem df "age")))
  /\ (forall (v : Viz.t) (ch : Encoding.channel)
             (o : Shelf.t (Encoding.class_of ch)),
         viz_channel ch v = Some o ->
         Shelf.type o <> None ->
         exists v' : Viz.t,
           Viz.set_data v (Viz.DFrame df) = Return v'
           /\ viz_channel ch v' = Some o).
Proof.
  intros Hold. split.
  - unfold Viz.encode. rewrite Encoding_x_age. unfold bind.
    rewrite set_encoding_Some.
    destruct (Viz.data v0) as [d0|].
    + pose proof (df_contains_getitem _ _ Hold) as Hg.
      eexists. eexists. split; [reflexivity|].
      rewrite set_data_frame.
      unfold viz_channel_type, channel_type. cbn. unfold inferred. cbn.
      rewrite Hg. cbn.
      split; [reflexivity|]. split; [reflexivity|].
      cbn. unfold inferred. cbn. rewrite Hg. cbn.
      destruct (df_getitem df "age"); reflexivity.
    + eexists. eexists. split; [reflexivity|].
      rewrite set_data_frame.
      unfold viz_channel_type, channel_type. cbn.
      split; [reflexivity|]. split; [reflexivity|].
      cbn. unfold inferred. cbn.
      destruct (df_getitem df "age"); reflexivity.
  - intros v ch o Hch Hty. rewrite set_data_frame.
    eexists. split; [reflexivity|].
    unfold viz_channel in *. cbn.
    destruct (Viz.encoding v) as [e|]; [|discriminate]. cbn.
    rewrite get_inferred_all, Hch. cbn.
    now rewrite inferred_resolved.
Qed.

Lemma C3_witness :
  exists v1 v2 : Viz.t,
    Viz.encode (heap_of None) blank_chart (kw_x_only "age") = Return v1
    /\ Viz.set_data v1 (Viz.DFrame people) = Return v2
    /\ viz_channel_type Encoding.ch_x v2 = Some (Some "Q").
Proof.
  destruct (proj1 (C3_rebinding_data_reinfers_unresolved_channels
                     (heap_of None) blank_chart people I))
    as [v1 [v2 [H1 [H2 [H3 H4]]]]].
  exists v1, v2. split; [exact H1|]. split; [exact H3|exact H4].
Defined.

(** Viz(df) for a DataFrame. *)
Lemma Viz_init_frame (id : oid) (df : DataFrame) :
  Viz.init id (Viz.DFrame df)
  = Return {| Viz.self_id := id; Viz.marktype := "point"; Viz.encoding := None;
              Viz.vlconfig := Some VLConfig.default;
              Viz._data := Some (Data.new df); Viz.data := Some df |}.
Proof. reflexivity. Qed.

(** Encoding(x="age", y="city"), whatever the heap. *)
Lemma Encoding_x_age_y_city (h : heap) :
  Encoding.init h [] (kw_x_y "age" "city")
  = Return
      (Encoding.with_y
         (Encoding.with_x Encoding.default
            (Some (Shelf.with_name
                     (Shelf.with_shorthand (Shelf.default Shelf.X) "age") "age")))
         (Some (Shelf.with_name
                  (Shelf.with_shorthand (Shelf.default Shelf.Y) "city") "city"))).
Proof. reflexivity. Qed.

(** C9.  On a chart built from a DataFrame whose column age is numeric and
    whose column city is text, encode(x="age", y="city") resolves the type
    of x to Q and the type of y to N.  The code inferred for a column depends
    on its dtype alone: numeric gives Q, temporal T, ordered categorical O,
    text or unordered categorical N. *)
Theorem C9_types_inferred_from_dtype
  (h : heap) (id : oid) (df : DataFrame) (age city : Series) :
  df_getitem df "age" = Some age ->
  dt age = Numeric ->
  df_getitem df "city" = Some city ->
  dt city = Text ->
  (exists v0 v1 : Viz.t,
      Viz.init id (Viz.DFrame df) = Return v0
      /\ Viz.encode h v0 (kw_x_y "age" "city") = Return v1
      /\ viz_channel_type Encoding.ch_x v1 = Some (Some "Q")
      /\ viz_channel_type Encoding.ch_y v1 = Some (Some "N"))
  /\ (forall col : Series,
        utils.infer_vegalite_type col
        = match dt col with
          | Numeric => "Q"
          | Temporal => "T"
          | CategoricalOrdered => "O"
          | Text => "N"
          end).
Proof.
  intros Hage Hnum Hcity Htext. split; [|reflexivity].
  rewrite Viz_init_frame. eexists. eexists. split; [reflexivity|].
  unfold Viz.encode. rewrite Encoding_x_age_y_city. unfold bind.
  rewrite set_encoding_Some. split; [reflexivity|].
  unfold viz_channel_type, channel_type. cbn. unfold inferred. cbn.
  rewrite Hage, Hcity. cbn. unfold utils.infer_vegalite_type.
  rewrite Hnum, Htext. split; reflexivity.
Qed.

Lemma C9_witness :
  exists v0 v1 : Viz.t,
    Viz.init O (Viz.DFrame people) = Return v0
    /\ Viz.encode (heap_of None) v0 (kw_x_y "age" "city") = Return v1
    /\ viz_channel_type Encoding.ch_x v1 = Some (Some "Q")
    /\ viz_channel_type Encoding.ch_y v1 = Some (Some "N").
Proof.
  exact (proj1 (C9_types_inferred_from_dtype
                  (heap_of None) O people
                  {| dt := Numeric; cells := [SInt 31; SInt 47] |}
                  {| dt := Text; cells := [SStr "Oslo"; SStr "Lima"] |}
                  eq_refl eq_refl eq_refl eq_refl)).
Defined.

(** Encoding(config=config, y='', x="age") as [hist] builds it. *)
Lemma Encoding_hist_age (h : heap) :
  Encoding.init h Viz.hist_config
    (Viz.with_kw_y (kw_x_only "age") (Some (Encoding.AStr "")))
  = Return
      (Encoding.with_config
         (Encoding.with_y
            (Encoding.with_x Encoding.default
               (Some (Shelf.with_config
                        (Shelf.with_name
                           (Shelf.with_shorthand (Shelf.default Shelf.X) "age") "age")
                        Viz.hist_config)))
            (Some (Shelf.with_aggregate
                     (Shelf.with_type
                        (Shelf.with_config (Shelf.default Shelf.Y) Viz.hist_config)
                        (Some "Q"))
                     (Some "count"))))
         Viz.hist_config).
Proof. reflexivity. Qed.

(** C2.  On a chart bound to a DataFrame that has a column age,
    hist(bins, x="age") sets marktype to bar and builds an Encoding whose x
    holds a Bin with maxbins = bins and whose y has aggregate count, type Q
    and the name of x, which is age. *)
Theorem C2_hist_builds_binned_count_encoding
  (h : heap) (v : Viz.t) (df : DataFrame) (bins : Z) :
  Viz.data v = Some df ->
  df_contains df "age" = true ->
  exists (v' : Viz.t) (e : Encoding.t)
         (sx : Shelf.t Shelf.X) (sy : Shelf.t Shelf.Y),
    Viz.hist h v bins (kw_x_only "age") = Return v'
    /\ Viz.marktype v' = "bar"
    /\ Viz.encoding v' = Some e
    /\ Encoding.x e = Some sx
    /\ Encoding.y e = Some sy
    /\ Shelf.bin sx = Shelf.BinObj (Bin.new bins)
    /\ Bin.maxbins (Bin.new bins) = bins
    /\ Shelf.aggregate sy = Some "count"
    /\ Shelf.type sy = Some "Q"
    /\ Shelf.name sy = Shelf.name sx
    /\ Shelf.name sx = "age".
Proof.
  intros Hdata Hage.
  unfold Viz.hist. cbn [Viz.mark mem String.eqb Viz.marktype_values].
  change (Viz.mark v "bar") with (Return (Viz.with_marktype v "bar")).
  unfold bind at 1. cbn [kw_x_only Encoding.kw_y].
  rewrite Encoding_hist_age. unfold bind at 1.
  rewrite set_encoding_Some. unfold bind at 1.
  cbn [Viz.data Viz.with_marktype]. rewrite Hdata.
  cbn. unfold inferred. cbn.
  unfold df_contains, df_getitem in *.
  destruct (lookup "age" df) as [col|]; [|discriminate].
  cbn. do 4 eexists. repeat split; reflexivity.
Qed.

Lemma C2_witness :
  exists (v' : Viz.t) (e : Encoding.t)
         (sx : Shelf.t Shelf.X) (sy : Shelf.t Shelf.Y),
    Viz.hist (heap_of None) people_chart 5 (kw_x_only "age") = Return v'
    /\ Viz.marktype v' = "bar"
    /\ Viz.encoding v' = Some e
    /\ Encoding.x e = Some sx
    /\ Encoding.y e = Some sy
    /\ Shelf.bin sx = Shelf.BinObj (Bin.new 5)
    /\ Bin.maxbins (Bin.new 5) = 5
    /\ Shelf.aggregate sy = Some "count"
    /\ Shelf.type sy = Some "Q"
    /\ Shelf.name sy = Shelf.name sx
    /\ Shelf.name sx = "age".
Proof.
  exact (C2_hist_builds_binned_count_encoding
           (heap_of None) people_chart people 5 eq_refl eq_refl).
Defined.

(** ** Renderers *)

(** C7.  [use_renderer] with a name fails at once when the name is not
    registered, but the exception is AttributeError, raised by the lookup of
    [format] on the ValueError instance, not the ValueError the statement
    was written to raise; a registered name selects what its factory
    yields. *)
Theorem C7_unknown_renderer_raises_AttributeError
  (g : Renderers.globals) (n : string) :
  Renderers.use_renderer g (Renderers.Name n)
  = match lookup n (Renderers._renderers g) with
    | Some rfactory =>
        i <- rfactory ;;
        Return {| Renderers._renderers := Renderers._renderers g;
                  Renderers._renderer := Some i |}
    | None => Raise AttributeError
    end.
Proof.
  unfold Renderers.use_renderer.
  destruct (lookup n (Renderers._renderers g)); reflexivity.
Qed.

(** The registry of a fresh module has no renderer named nonexistent. *)
Lemma use_renderer_nonexistent (mpl lgn : Renderers.factory) :
  Renderers.use_renderer (Renderers.initial mpl lgn) (Renderers.Name "nonexistent")
  = Raise AttributeError.
Proof. reflexivity. Qed.

(** ** Binary64 arithmetic on small integers *)

Lemma digits2_pos_size (p : positive) : digits2_pos p = Pos.size p.
Proof. induction p; simpl; congruence. Qed.

Lemma Zdigits2_log2 (p : positive) : Zdigits2 (Z.pos p) = Z.log2 (Z.pos p) + 1.
Proof.
  unfold Zdigits2. rewrite digits2_pos_size.
  destruct p; simpl; try rewrite Pos.add_1_r; reflexivity.
Qed.

(** The number of binary digits of a positive integer. *)
Lemma Zdigits2_bounds (m d : Z) :
  0 < m -> 2 ^ (d - 1) <= m < 2 ^ d -> Zdigits2 m = d.
Proof.
  intros Hm Hb. destruct m as [|p|p]; try lia.
  rewrite Zdigits2_log2.
  assert (0 <= d - 1).
  { destruct (Z.le_gt_cases 0 (d - 1)) as [H|H]; [exact H|].
    assert (d <= 0) by lia. 
    assert (2 ^ d <= 2 ^ 0) by (destruct (Z.eq_dec d 0); [subst; lia|rewrite Z.pow_neg_r by lia; simpl; lia]).
    simpl in *. lia. }
  rewrite (Z.log2_unique (Z.pos p) (d - 1)); [lia|lia|].
  replace (Z.succ (d - 1)) with d by lia. exact Hb.
Qed.

Lemma Zdigits2_spec (m : Z) :
  0 < m -> 2 ^ (Zdigits2 m - 1) <= m < 2 ^ Zdigits2 m.
Proof.
  intros Hm. destruct m as [|p|p]; try lia.
  rewrite Zdigits2_log2.
  replace (Z.log2 (Z.pos p) + 1 - 1) with (Z.log2 (Z.pos p)) by lia.
  replace (Z.log2 (Z.pos p) + 1) with (Z.succ (Z.log2 (Z.pos p))) by lia.
  apply Z.log2_spec. lia.
Qed.

Lemma Zdigits2_pos (m : Z) : 0 < m -> 1 <= Zdigits2 m.
Proof.
  intros Hm. destruct m as [|p|p]; try lia.
  rewrite Zdigits2_log2. pose proof (Z.log2_nonneg (Z.pos p)). lia.
Qed.

Lemma iter_pos_iter {A : Type} (f : A -> A) (k : positive) :
  forall x, iter_pos f k x = Pos.iter f x k.
Proof.
  induction k as [k IH|k IH|]; intros x; simpl.
  - rewrite !IH. rewrite !Pos.iter_swap. reflexivity.
  - rewrite !IH. reflexivity.
  - reflexivity.
Qed.

Lemma Pos_iter_xO (p k : positive) :
  Z.pos (Pos.iter xO p k) = Z.pos p * 2 ^ Z.pos k.
Proof.
  induction k as [|k IH] using Pos.peano_ind.
  - simpl. lia.
  - rewrite Pos.iter_succ, Pos2Z.inj_succ, Z.pow_succ_r by lia.
    rewrite Pos2Z.inj_xO, IH. lia.
Qed.

(** Shifting out zero bits leaves an exact record. *)
Lemma shr_1_even (a : Z) :
  0 <= a ->
  shr_1 {| shr_m := 2 * a; shr_r := false; shr_s := false |}
  = {| shr_m := a; shr_r := false; shr_s := false |}.
Proof. intros Ha. destruct a as [|p|p]; try lia; reflexivity. Qed.

Lemma iter_shr_1_exact (k : positive) :
  forall a : Z,
    0 <= a ->
    iter_pos shr_1 k
      {| shr_m := a * 2 ^ Z.pos k; shr_r := false; shr_s := false |}
    = {| shr_m := a; shr_r := false; shr_s := false |}.
Proof.
  intros a Ha. rewrite iter_pos_iter. revert a Ha.
  induction k as [|k IH] using Pos.peano_ind; intros a Ha.
  - replace (a * 2 ^ 1) with (2 * a) by lia. cbv [Pos.iter]. now apply shr_1_even.
  - rewrite Pos.iter_succ, Pos2Z.inj_succ, Z.pow_succ_r by lia.
    replace (a * (2 * 2 ^ Z.pos k)) with ((2 * a) * 2 ^ Z.pos k) by lia.
    rewrite IH by lia. now apply shr_1_even.
Qed.

Lemma fexp64 (e : Z) : -1021 <= e -> fexp prec64 emax64 e = e - 53.
Proof. intros H. unfold fexp, emin, prec64, emax64. lia. Qed.

Lemma Zdigits2_shift (m n : Z) :
  0 < m -> 0 <= n -> Zdigits2 (m * 2 ^ n) = Zdigits2 m + n.
Proof.
  intros Hm Hn. pose proof (Zdigits2_spec m Hm) as [Hlo Hhi].
  pose proof (Zdigits2_pos m Hm) as Hd.
  assert (0 < 2 ^ n) by (apply Z.pow_pos_nonneg; lia).
  apply Zdigits2_bounds; [nia|].
  replace (Zdigits2 m + n - 1) with (Zdigits2 m - 1 + n) by lia.
  rewrite !Z.pow_add_r by lia. nia.
Qed.

(** A mantissa whose low [n] bits are zero is shifted without loss. *)
Lemma shr_fexp_exact (m e n : Z) :
  0 < m -> 0 <= n -> Zdigits2 m = 53 -> -1021 <= 53 + n + e ->
  shr_fexp prec64 emax64 (m * 2 ^ n) e loc_Exact
  = ({| shr_m := m; shr_r := false; shr_s := false |}, e + n).
Proof.
  intros Hm Hn Hd He. unfold shr_fexp.
  rewrite Zdigits2_shift, Hd, fexp64 by lia.
  replace (53 + n + e - 53 - e) with n by lia.
  unfold shr, shr_record_of_loc. destruct n as [|k|k]; try lia.
  - rewrite Z.mul_1_r, Z.add_0_r. reflexivity.
  - rewrite iter_shr_1_exact by lia. reflexivity.
Qed.

Lemma binary_round_aux_exact (s : bool) (m e n : Z) :
  0 < m -> 0 <= n -> Zdigits2 m = 53 ->
  -1021 <= 53 + n + e -> e + n <= 971 ->
  binary_round_aux prec64 emax64 s (m * 2 ^ n) e loc_Exact
  = S754_finite s (Z.to_pos m) (e + n).
Proof.
  intros Hm Hn Hd Hlo Hhi. unfold binary_round_aux.
  rewrite shr_fexp_exact by assumption.
  cbn [shr_m loc_of_shr_record round_nearest_even].
  replace m with (m * 2 ^ 0) at 1 by (simpl; lia).
  rewrite shr_fexp_exact by lia.
  cbn [shr_m]. destruct m as [|p|p]; try lia.
  replace (e + n + 0 <=? emax64 - prec64) with true
    by (symmetry; apply Z.leb_le; unfold emax64, prec64; lia).
  rewrite Z.add_0_r. reflexivity.
Qed.

(** float(w) for a positive integer of at most 53 bits is exact. *)
Lemma f64_of_Z_exact (w : Z) :
  0 < w -> w < 2 ^ 53 ->
  f64_of_Z w
  = S754_finite false (Z.to_pos (w * 2 ^ (53 - Zdigits2 w))) (Zdigits2 w - 53).
Proof.
  intros Hw Hlt. pose proof (Zdigits2_spec w Hw) as [Hlo Hhi].
  pose proof (Zdigits2_pos w Hw) as Hd1.
  assert (Hd : Zdigits2 w <= 53).
  { destruct (Z.le_gt_cases (Zdigits2 w) 53) as [H|H]; [exact H|].
    assert (2 ^ 53 <= 2 ^ (Zdigits2 w - 1)) by (apply Z.pow_le_mono_r; lia). lia. }
  destruct w as [|p|p]; try lia.
  unfold f64_of_Z, binary_normalize, binary_round.
  change (Z.pos (digits2_pos p)) with (Zdigits2 (Z.pos p)).
  rewrite Z.add_0_r, fexp64 by lia.
  unfold shl_align. rewrite Z.sub_0_r.
  set (d := Zdigits2 (Z.pos p)) in *.
  destruct (d - 53) as [|k|k] eqn:Ek; try lia.
  - replace (53 - d) with 0 by lia. rewrite Z.mul_1_r.
    replace (Z.pos p) with (Z.pos p * 2 ^ 0) at 1 by (simpl; lia).
    rewrite binary_round_aux_exact by (fold d; lia).
    rewrite Z.add_0_r. reflexivity.
  - replace (53 - d) with (Z.pos k) by lia.
    replace (Z.pos (Pos.iter xO p k)) with (Z.pos p * 2 ^ Z.pos k * 2 ^ 0)
      by (rewrite Pos_iter_xO; simpl; lia).
    rewrite binary_round_aux_exact.
    + rewrite Z.add_0_r. reflexivity.
    + lia.
    + lia.
    + rewrite Zdigits2_shift by lia. fold d. lia.
    + lia.
    + lia.
Qed.

Lemma Zdigits2_le (m d : Z) : 0 < m -> m < 2 ^ d -> 0 <= d -> Zdigits2 m <= d.
Proof.
  intros Hm Hlt Hd. pose proof (Zdigits2_spec m Hm) as [Hlo _].
  destruct (Z.le_gt_cases (Zdigits2 m) d) as [H|H]; [exact H|].
  assert (2 ^ d <= 2 ^ (Zdigits2 m - 1)) by (apply Z.pow_le_mono_r; lia). lia.
Qed.

(** int(w * 0.75) on a non-negative integer below 2^51. *)
Lemma int_mul_0_75 (w : Z) :
  0 <= w < 2 ^ 51 ->
  (f <- py_mul_int_float w f64_0_75 ;; py_int f) = Return (3 * w / 4).
Proof.
  intros [Hw Hlt].
  destruct (Z.eq_dec w 0) as [->|Hnz]; [reflexivity|].
  assert (Hpos : 0 < w) by lia.
  pose proof (Zdigits2_pos w Hpos) as Hd1.
  pose proof (Zdigits2_le w 51 Hpos Hlt ltac:(lia)) as Hd.
  assert (H3 : 0 < 3 * w) by lia.
  pose proof (Zdigits2_pos (3 * w) H3) as HD1.
  assert (HD : Zdigits2 (3 * w) <= 53).
  { apply Zdigits2_le; [lia| |lia].
    change (2 ^ 53) with (4 * 2 ^ 51). lia. }
  unfold py_mul_int_float, py_float.
  rewrite f64_of_Z_exact by (try assumption; change (2 ^ 53) with (4 * 2 ^ 51); lia).
  cbn [bind]. unfold f64_mul, f64_0_75, SFmul. cbn [xorb].
  set (d := Zdigits2 w) in *. set (D := Zdigits2 (3 * w)) in *.
  assert (Hm1 : 0 < w * 2 ^ (53 - d)).
  { apply Z.mul_pos_pos; [lia|apply Z.pow_pos_nonneg; lia]. }
  rewrite Pos2Z.inj_mul, Z2Pos.id by assumption.
  replace (w * 2 ^ (53 - d) * 6755399441055744)
    with (3 * w * 2 ^ (53 - D) * 2 ^ (51 - d + D)).
  2:{ change 6755399441055744 with (3 * 2 ^ 51).
      rewrite <- Z.mul_assoc, <- Z.pow_add_r by lia.
      replace (53 - D + (51 - d + D)) with (53 - d + 51) by lia.
      rewrite Z.pow_add_r by lia. lia. }
  assert (Hm : 0 < 3 * w * 2 ^ (53 - D)).
  { apply Z.mul_pos_pos; [lia|apply Z.pow_pos_nonneg; lia]. }
  rewrite binary_round_aux_exact.
  - unfold py_int.
    replace (d - 53 + -53 + (51 - d + D)) with (D - 55) by lia.
    destruct (D - 55) as [|k|k] eqn:Ek; try lia.
    rewrite Z2Pos.id by assumption.
    replace (2 ^ Z.pos k) with (4 * 2 ^ (53 - D)).
    2:{ change 4 with (2 ^ 2). rewrite <- Z.pow_add_r by lia. f_equal. lia. }
    rewrite Z.div_mul_cancel_r; [reflexivity|lia|].
    apply Z.pow_nonzero; lia.
  - exact Hm.
  - lia.
  - rewrite Zdigits2_shift by lia. fold D. lia.
  - lia.
  - lia.
Qed.

(** *** Rounding a quotient *)

Lemma shr_fexp_53 (m e : Z) (l : location) :
  Zdigits2 m = 53 -> -1021 <= 53 + e ->
  shr_fexp prec64 emax64 m e l = (shr_record_of_loc m l, e).
Proof.
  intros Hd He. unfold shr_fexp. rewrite Hd, fexp64 by lia.
  replace (53 + e - 53 - e) with 0 by lia. reflexivity.
Qed.

Lemma shr_fexp_54 (m e : Z) (l : location) :
  Zdigits2 m = 54 -> -1021 <= 54 + e ->
  shr_fexp prec64 emax64 m e l = (shr_1 (shr_record_of_loc m l), e + 1).
Proof.
  intros Hd He. unfold shr_fexp. rewrite Hd, fexp64 by lia.
  replace (54 + e - 53 - e) with 1 by lia. reflexivity.
Qed.

Lemma shr_m_of_loc (m : Z) (l : location) : shr_m (shr_record_of_loc m l) = m.
Proof. destruct l as [|[]]; reflexivity. Qed.

Lemma round_nearest_even_bounds (m : Z) (l : location) :
  m <= round_nearest_even m l <= m + 1.
Proof.
  destruct l as [|[]]; simpl; try lia. destruct (Z.even m); lia.
Qed.

Lemma shr_m_shr_1 (mrs : shr_record) :
  0 <= shr_m mrs -> 2 * shr_m (shr_1 mrs) <= shr_m mrs <= 2 * shr_m (shr_1 mrs) + 1.
Proof.
  destruct mrs as [m r s]. simpl. intros Hm.
  destruct m as [|[p|p|]|p]; simpl; lia.
Qed.

(** Rounding a positive mantissa of 53 or 54 bits keeps it, up to the
    last place. *)
Lemma binary_round_aux_near (q e : Z) (l : location) :
  2 ^ 52 <= q < 2 ^ 54 - 2 -> -1021 <= 53 + e -> e <= 900 ->
  exists M E : Z,
    binary_round_aux prec64 emax64 false q e l = S754_finite false (Z.to_pos M) E
    /\ 0 < M
    /\ ((E = e /\ q <= M <= q + 1)
        \/ (E = e + 1 /\ q <= 2 * M + 1 /\ 2 * M <= q + 2)).
Proof.
  intros [Hlo Hhi] He1 He2.
  assert (Hq : 0 < q) by (change (2 ^ 52) with 4503599627370496 in Hlo; lia).
  destruct (Z.lt_ge_cases q (2 ^ 53)) as [H53|H54].
  - (* 53 bits *)
    assert (Hd : Zdigits2 q = 53) by (apply Zdigits2_bounds; [lia|exact (conj Hlo H53)]).
    unfold binary_round_aux. rewrite shr_fexp_53 by assumption.
    rewrite shr_m_of_loc.
    pose proof (round_nearest_even_bounds q
                  (loc_of_shr_record (shr_record_of_loc q l))) as HM.
    set (M := round_nearest_even q _) in *.
    destruct (Z.lt_ge_cases M (2 ^ 53)) as [HM53|HM54].
    + assert (HdM : Zdigits2 M = 53) by (apply Zdigits2_bounds; [lia|split; [lia|exact HM53]]).
      rewrite shr_fexp_53 by assumption. cbn [shr_m shr_record_of_loc].
      exists M, e. destruct M as [|p|p]; try lia.
      replace (e <=? emax64 - prec64) with true
        by (symmetry; apply Z.leb_le; unfold emax64, prec64; lia).
      split; [reflexivity|]. split; [lia|]. left. lia.
    + assert (EM : M = 2 ^ 53) by lia. rewrite EM.
      exists (2 ^ 52), (e + 1).
      replace (shr_fexp prec64 emax64 (2 ^ 53) e loc_Exact)
        with ({| shr_m := 2 ^ 52; shr_r := false; shr_s := false |}, e + 1).
      2:{ symmetry. apply (shr_fexp_54 (2 ^ 53) e loc_Exact); [reflexivity|lia]. }
      cbn [shr_m]. change (2 ^ 52) with 4503599627370496.
      replace (e + 1 <=? emax64 - prec64) with true
        by (symmetry; apply Z.leb_le; unfold emax64, prec64; lia).
      split; [reflexivity|]. split; [lia|]. right.
      change (2 ^ 53) with 9007199254740992 in *. lia.
  - (* 54 bits *)
    assert (Hd : Zdigits2 q = 54).
    { apply Zdigits2_bounds; [lia|]. split; [exact H54|lia]. }
    unfold binary_round_aux. rewrite shr_fexp_54 by (try assumption; lia).
    pose proof (shr_m_shr_1 (shr_record_of_loc q l)) as Hs.
    rewrite shr_m_of_loc in Hs. specialize (Hs ltac:(lia)).
    set (mrs := shr_1 (shr_record_of_loc q l)) in *.
    pose proof (round_nearest_even_bounds (shr_m mrs) (loc_of_shr_record mrs)) as HM.
    set (M := round_nearest_even (shr_m mrs) (loc_of_shr_record mrs)) in *.
    change (2 ^ 53) with 9007199254740992 in *.
    change (2 ^ 54) with 18014398509481984 in *.
    assert (HdM : Zdigits2 M = 53).
    { apply Zdigits2_bounds; [lia|].
      change (2 ^ (53 - 1)) with 4503599627370496.
      change (2 ^ 53) with 9007199254740992. lia. }
    rewrite shr_fexp_53 by (try assumption; lia). cbn [shr_m shr_record_of_loc].
    exists M, (e + 1). destruct M as [|p|p]; try lia.
    replace (e + 1 <=? emax64 - prec64) with true
      by (symmetry; apply Z.leb_le; unfold emax64, prec64; lia).
    split; [reflexivity|]. split; [lia|]. right. lia.
Qed.

Lemma div_sandwich (a b n : Z) : 0 < b -> n * b <= a < (n + 1) * b -> a / b = n.
Proof.
  intros Hb [Hlo Hhi]. symmetry.
  apply (Z.div_unique a b n (a - b * n)); lia.
Qed.

(** The scaled quotient [SFdiv] starts from, for w / 10. *)
Lemma SFdiv_core_binary_10 (w : Z) :
  0 < w -> Zdigits2 w <= 53 ->
  SFdiv_core_binary prec64 emax64 w 0 10 0
  = (w * 2 ^ (57 - Zdigits2 w) / 10, Zdigits2 w - 57,
     new_location 10 (w * 2 ^ (57 - Zdigits2 w) mod 10)).
Proof.
  intros Hw Hd. pose proof (Zdigits2_pos w Hw) as Hd1.
  unfold SFdiv_core_binary.
  change (Zdigits2 10) with 4.
  rewrite !Z.add_0_r, Z.sub_0_r, fexp64 by lia.
  replace (Z.min (Zdigits2 w - 4 - 53) 0) with (Zdigits2 w - 57) by lia.
  replace (0 - (Zdigits2 w - 57)) with (57 - Zdigits2 w) by lia.
  destruct (57 - Zdigits2 w) as [|k|k] eqn:Ek; try lia.
  rewrite Z.shiftl_mul_pow2 by lia.
  unfold Z.div, Z.modulo.
  destruct (Z.div_eucl (w * 2 ^ Z.pos k) 10) as [q r]. reflexivity.
Qed.

(** int(w / 10) on a non-negative integer below 2^51. *)
Lemma int_truediv_10 (w : Z) :
  0 <= w < 2 ^ 51 ->
  (q <- py_truediv w 10 ;; py_int q) = Return (w / 10).
Proof.
  intros [Hw Hlt].
  destruct (Z.eq_dec w 0) as [->|Hnz]; [reflexivity|].
  assert (Hpos : 0 < w) by lia.
  pose proof (Zdigits2_pos w Hpos) as Hd1.
  pose proof (Zdigits2_le w 51 Hpos Hlt ltac:(lia)) as Hd.
  pose proof (Zdigits2_spec w Hpos) as [Hwlo Hwhi].
  set (d := Zdigits2 w) in *.
  set (P := 2 ^ (57 - d)).
  assert (HP : 64 <= P).
  { change 64 with (2 ^ 6). apply Z.pow_le_mono_r; lia. }
  assert (HA : 2 ^ 56 <= w * P < 2 ^ 57).
  { unfold P.
    replace (2 ^ 56) with (2 ^ (d - 1) * 2 ^ (57 - d))
      by (rewrite <- Z.pow_add_r by lia; f_equal; lia).
    replace (2 ^ 57) with (2 ^ d * 2 ^ (57 - d))
      by (rewrite <- Z.pow_add_r by lia; f_equal; lia).
    assert (0 < 2 ^ (57 - d)) by (apply Z.pow_pos_nonneg; lia). nia. }
  change (2 ^ 56) with 72057594037927936 in HA.
  change (2 ^ 57) with 144115188075855872 in HA.
  pose proof (Z.div_mod (w * P) 10 ltac:(lia)) as HqA.
  pose proof (Z.mod_pos_bound (w * P) 10 ltac:(lia)) as HrA.
  pose proof (Z.div_mod w 10 ltac:(lia)) as Hqw.
  pose proof (Z.mod_pos_bound w 10 ltac:(lia)) as Hrw.
  set (q := w * P / 10) in *. set (n := w / 10) in *.
  assert (Hn : n * P <= q /\ q + 2 < (n + 1) * P).
  { assert (E1 : w * P = 10 * (n * P) + (w mod 10) * P) by (rewrite Hqw at 1; ring).
    assert (0 <= (w mod 10) * P <= 9 * P) by nia.
    lia. }
  destruct (binary_round_aux_near q (d - 57) (new_location 10 (w * P mod 10)))
    as [M [E [HR [HM HE]]]].
  { change (2 ^ 52) with 4503599627370496.
    change (2 ^ 54) with 18014398509481984. lia. }
  { lia. }
  { lia. }
  unfold py_truediv. change (10 =? 0) with false. cbv iota.
  destruct w as [|p|p]; try lia.
  unfold f64_div, f64_exact, SFdiv.
  rewrite SFdiv_core_binary_10 by (fold d; lia).
  fold d. fold P. fold q. cbn [xorb]. rewrite HR. cbn [bind]. unfold py_int.
  destruct HE as [[-> HMb]|[-> HMb]].
  - destruct (d - 57) as [|k|k] eqn:Ek; try lia.
    rewrite Z2Pos.id by assumption.
    replace (2 ^ Z.pos k) with P by (unfold P; f_equal; lia).
    rewrite (div_sandwich M P n); [reflexivity|lia|lia].
  - destruct (d - 57 + 1) as [|k|k] eqn:Ek; try lia.
    rewrite Z2Pos.id by assumption.
    assert (EP : P = 2 * 2 ^ Z.pos k).
    { unfold P. replace (57 - d) with (Z.succ (Z.pos k)) by lia.
      rewrite Z.pow_succ_r by lia. reflexivity. }
    assert (0 < 2 ^ Z.pos k) by (apply Z.pow_pos_nonneg; lia).
    rewrite (div_sandwich M (2 ^ Z.pos k) n); [reflexivity|lia|].
    rewrite EP in Hn. nia.
Qed.

(** ** set_single_dims *)





(** * Further properties *)

(** ** Serialization *)

(** X1.  A key the generic to_dict emits names a trait outside the skip
    list, and its value is never None, the integer 0, a zero float, the
    empty string or the empty list: a trait holding such a value is left out
    (a Bin with maxbins 0 and a Band with size 0 serialize without that
    key). *)
Theorem X1_to_dict_omits_empty_values
  (e : entity) (k : string) (v : value) :
  lookup k (BaseObject.to_dict (entity_view e)) = Some v ->
  mem k (BaseObject.skip (entity_view e)) = false
  /\ In k (keys (BaseObject.traits (entity_view e)))
  /\ v <> VNone /\ v <> VInt 0 /\ v <> VStr "" /\ v <> VList []
  /\ (forall s : bool, v <> VFloat (S754_zero s))
  /\ (forall n : Z,
        lookup "maxbins" (Bin.to_dict (Bin.new n))
        = if n =? 0 then None else Some (VInt n))
  /\ (forall n : Z,
        lookup "size" (Band.to_dict (Band.new n))
        = if n =? 0 then None else Some (VInt n)).
Proof.
  intros H. rewrite to_dict_lookup in H by apply entity_traits_NoDup.
  destruct (lookup k (BaseObject.traits (entity_view e))) as [v0|] eqn:El;
    [|discriminate].
  destruct (BaseObject.present v0) eqn:Ep; simpl in H; [|discriminate].
  destruct (mem k (BaseObject.skip (entity_view e))) eqn:Es; simpl in H;
    [discriminate|].
  inversion H; subst v; clear H.
  split; [reflexivity|]. split; [eapply lookup_Some_In; eassumption|].
  assert (Hv : BaseObject.entry v0 <> VNone /\ BaseObject.entry v0 <> VInt 0
               /\ BaseObject.entry v0 <> VStr "" /\ BaseObject.entry v0 <> VList []
               /\ (forall s : bool, BaseObject.entry v0 <> VFloat (S754_zero s))).
  { destruct v0 as [ | b | z | f | s | l | d | df | d]; simpl;
      unfold BaseObject.present in Ep; simpl in Ep;
      repeat split; try discriminate; try (intros s'; discriminate).
    - intros E; inversion E; subst; discriminate.
    - intros s' E; inversion E; subst; discriminate.
    - intros E; inversion E; subst; discriminate.
    - intros E; inversion E; subst; discriminate. }
  destruct Hv as [H1 [H2 [H3 [H4 H5]]]].
  repeat (split; [assumption|]).
  split; intros n.
  - unfold Bin.to_dict.
    rewrite to_dict_lookup by exact (entity_traits_NoDup (EBin _)).
    cbn. unfold BaseObject.present. cbn. destruct (n =? 0); reflexivity.
  - unfold Band.to_dict.
    rewrite to_dict_lookup by exact (entity_traits_NoDup (EBand _)).
    cbn. unfold BaseObject.present. cbn. destruct (n =? 0); reflexivity.
Qed.

Lemma X1_witness :
  lookup "maxbins" (BaseObject.to_dict (entity_view (EBin (Bin.new 5))))
  = Some (VInt 5)
  /\ VInt 5 <> VInt 0.
Proof.
  split; [reflexivity|].
  exact (proj1 (proj2 (proj2 (proj2
           (X1_to_dict_omits_empty_values (EBin (Bin.new 5)) "maxbins" (VInt 5)
              eq_refl))))).
Defined.

(** X2.  The dict of an Encoding has a key for a channel exactly when the
    channel is occupied, and the value is the dict of the Shelf in it; the
    parent and the config never appear. *)
Theorem X2_Encoding_to_dict_channels (e : Encoding.t) (ch : Encoding.channel) :
  lookup (channel_name ch) (Encoding.to_dict e)
  = option_map (fun s => VDict (Shelf.to_dict s)) (Encoding.get ch e)
  /\ lookup "parent" (Encoding.to_dict e) = None
  /\ lookup "config" (Encoding.to_dict e) = None.
Proof.
  unfold Encoding.to_dict.
  rewrite !to_dict_lookup by exact (entity_traits_NoDup (EEncoding _)).
  split; [|split].
  - destruct ch; cbn;
      match goal with
      | |- context [Encoding.slot_view ?o] => destruct o
      end; reflexivity.
  - cbn. destruct (Encoding.parent e); reflexivity.
  - cbn. destruct (Encoding.config e); reflexivity.
Qed.

Lemma Viz_traits_NoDup (v : Viz.t) :
  NoDup (keys (BaseObject.traits (Viz.view v))).
Proof. apply distinct_NoDup. reflexivity. Qed.

(** X3.  Viz.to_dict raises AttributeError when the chart has no Data
    wrapper (as after Viz(None)) or no vlconfig.  Otherwise it returns a dict
    whose key data holds the dict of the Data wrapper and whose key config
    holds the dict of the vlconfig, with encoding present exactly when an
    encoding is set; the keys vlconfig and _data never appear. *)
Theorem X3_Viz_to_dict (v : Viz.t) :
  match Viz._data v, Viz.vlconfig v with
  | Some d, Some c =>
      exists D : list (string * value),
        Viz.to_dict v = Return D
        /\ lookup "data" D = Some (VDict (Data.to_dict d))
        /\ lookup "config" D = Some (VDict (VLConfig.to_dict c))
        /\ lookup "encoding" D
           = option_map (fun e => VDict (Encoding.to_dict e)) (Viz.encoding v)
        /\ lookup "vlconfig" D = None
        /\ lookup "_data" D = None
  | _, _ => Viz.to_dict v = Raise AttributeError
  end.
Proof.
  unfold Viz.to_dict.
  destruct (Viz._data v) as [d|] eqn:Ed; [|reflexivity].
  destruct (Viz.vlconfig v) as [c|] eqn:Ec; [|reflexivity].
  eexists. split; [reflexivity|].
  split.
  { rewrite lookup_dict_set_neq by discriminate. apply lookup_dict_set_eq. }
  split; [apply lookup_dict_set_eq|].
  rewrite !lookup_dict_set_neq by discriminate.
  rewrite !to_dict_lookup by apply Viz_traits_NoDup.
  cbn. rewrite Ed, Ec. cbn.
  destruct (Viz.encoding v); repeat split; reflexivity.
Qed.

(** ** Type inference *)

(** X4.  A call of [_infer_type] that returns leaves the Shelf as it was,
    or finds its type unset and sets it to one of N, O, Q, T; no other trait
    of the Shelf changes, and a type that is set is never replaced. *)
Theorem X4_infer_type_only_sets_an_unset_type
  (c : Shelf.cls) (s s' : Shelf.t c) (data : option DataFrame) :
  Shelf._infer_type s data = Return s' ->
  s' = s
  \/ (Shelf.type s = None
      /\ exists t : string,
           In t ["N"; "O"; "Q"; "T"] /\ s' = Shelf.with_type s (Some t)).
Proof.
  unfold Shelf._infer_type.
  destruct (Shelf.type s) eqn:Ht; [intros H; inversion H; now left|].
  destruct data as [df|]; [|discriminate].
  destruct (df_contains df (Shelf.name s)); [|intros H; inversion H; now left].
  destruct (df_getitem df (Shelf.name s)) as [col|]; [|discriminate].
  rewrite infer_vegalite_type_valid. cbn. intros H; inversion H.
  right. split; [reflexivity|].
  exists (utils.infer_vegalite_type col). split; [|reflexivity].
  unfold utils.infer_vegalite_type. destruct (dt col); simpl; auto.
Qed.

Lemma X4_witness :
  let s := Shelf.with_name (Shelf.default Shelf.X) "age" in
  Shelf._infer_type s (Some people) = Return (Shelf.with_type s (Some "Q"))
  /\ (Shelf.with_type s (Some "Q") = s
      \/ (Shelf.type s = None
          /\ exists t : string,
               In t ["N"; "O"; "Q"; "T"]
               /\ Shelf.with_type s (Some "Q") = Shelf.with_type s (Some t))).
Proof.
  intros s. split; [reflexivity|].
  apply (X4_infer_type_only_sets_an_unset_type
           Shelf.X s (Shelf.with_type s (Some "Q")) (Some people)).
  reflexivity.
Defined.

Lemma infer_val_None {c} (val : option (Shelf.t c)) :
  Encoding.infer_val val None
  = if resolved val then Return val else Raise TypeError.
Proof.
  destruct val as [s|]; simpl; [|reflexivity].
  unfold Shelf._infer_type. destruct (Shelf.type s); reflexivity.
Qed.

(** X5.  Called with None instead of a DataFrame, [_infer_types] leaves
    the Encoding unchanged when every occupied channel has a type, and
    raises TypeError as soon as one has not. *)
Theorem X5_infer_types_without_data (e : Encoding.t) :
  Encoding._infer_types e None
  = if fully_resolved e then Return e else Raise TypeError.
Proof.
  unfold Encoding._infer_types, fully_resolved.
  rewrite !infer_val_None.
  destruct (resolved (Encoding.x e)); [|reflexivity].
  destruct (resolved (Encoding.y e)); [|reflexivity].
  destruct (resolved (Encoding.row e)); [|reflexivity].
  destruct (resolved (Encoding.col e)); [|reflexivity].
  destruct (resolved (Encoding.size e)); [|reflexivity].
  destruct (resolved (Encoding.color e)); [|reflexivity].
  destruct (resolved (Encoding.shape e)); [|reflexivity].
  destruct e; reflexivity.
Qed.

(** ** Construction of a Shelf *)

Lemma validate_unicode_raises (v : value) (e : exn) :
  Shelf.validate_unicode v = Raise e -> e = TraitError.
Proof. destruct v; simpl; congruence. Qed.

Lemma validate_enum_raises (values : list string) (v : value) (e : exn) :
  Shelf.validate_enum values v = Raise e -> e = TraitError.
Proof.
  destruct v; simpl; try congruence.
  destruct (mem s values); congruence.
Qed.

Lemma setattr_raises_TraitError {c} (s : Shelf.t c) (key : string) (val : value)
  (e : exn) :
  Shelf.setattr s key val = Raise e -> e = TraitError.
Proof.
  unfold Shelf.setattr.
  destruct (String.eqb key "name").
  { destruct (Shelf.validate_unicode val) eqn:E; simpl; [discriminate|].
    intros H; inversion H; subst. eapply validate_unicode_raises; eassumption. }
  destruct (String.eqb key "type").
  { destruct (Shelf.validate_enum Shelf.type_values val) eqn:E; simpl; [discriminate|].
    intros H; inversion H; subst. eapply validate_enum_raises; eassumption. }
  destruct (String.eqb key "timeUnit").
  { destruct (Shelf.validate_enum Shelf.timeUnit_values val) eqn:E; simpl; [discriminate|].
    intros H; inversion H; subst. eapply validate_enum_raises; eassumption. }
  destruct (String.eqb key "aggregate").
  { destruct (Shelf.validate_enum (Shelf.aggregate_values c) val) eqn:E; simpl; [discriminate|].
    intros H; inversion H; subst. eapply validate_enum_raises; eassumption. }
  discriminate.
Qed.

Lemma setattrs_rejects_aggregate {c} (D : list (string * value)) (a : string) :
  count_only c = true ->
  lookup "aggregate" D = Some (VStr a) ->
  a <> "count" ->
  forall s : Shelf.t c, Shelf.setattrs s D = Raise TraitError.
Proof.
  intros Hc. induction D as [|[key val] r IH];
    cbn [lookup Shelf.setattrs]; intros Hl Ha s; [discriminate|].
  destruct (String.eqb "aggregate" key) eqn:Ek.
  - apply String.eqb_eq in Ek. subst key. inversion Hl; subst val.
    unfold Shelf.setattr. cbn.
    assert (Hm : mem a (Shelf.aggregate_values c) = false).
    { destruct c; try discriminate; simpl;
        destruct (String.eqb a "count") eqn:E; try reflexivity;
        apply String.eqb_eq in E; contradiction. }
    rewrite Hm. reflexivity.
  - destruct (Shelf.setattr s key val) as [s1|e] eqn:Es; cbn [bind].
    + now apply IH.
    + now rewrite (setattr_raises_TraitError _ _ _ _ Es).
Qed.

(** X6.  Row, Col, FacetCoordinate and Shape accept no aggregate but
    count: constructing one of them from a shorthand whose parsed aggregate
    is anything else raises TraitError, whatever the config. *)
Theorem X6_count_only_classes_reject_other_aggregates
  (c : Shelf.cls) (sh : string) (cfg : Config)
  (D : list (string * value)) (a : string) :
  count_only c = true ->
  utils.parse_shorthand sh = Return D ->
  lookup "aggregate" D = Some (VStr a) ->
  a <> "count" ->
  Shelf.init c sh cfg = Raise TraitError.
Proof.
  intros Hc Hp Hl Ha. unfold Shelf.init, Shelf.set_shorthand.
  cbn [Shelf.shorthand Shelf.default].
  destruct (String.eqb "" sh) eqn:Esh.
  - apply String.eqb_eq in Esh. subst sh.
    cbv in Hp. inversion Hp; subst D. discriminate.
  - unfold Shelf._shorthand_changed. cbn [Shelf.shorthand Shelf.with_shorthand].
    rewrite Hp. cbn [bind].
    rewrite (setattrs_rejects_aggregate D a Hc Hl Ha). reflexivity.
Qed.

Lemma X6_witness : Shelf.init Shelf.Row "avg(price)" [] = Raise TraitError.
Proof.
  apply (X6_count_only_classes_reject_other_aggregates
           Shelf.Row "avg(price)" []
           [("aggregate", VStr "avg"); ("name", VStr "price")] "avg");
    [reflexivity|reflexivity|reflexivity|discriminate].
Defined.

(** ** Assignments to the channels of an Encoding *)

Lemma with_slot_with_slot (ch : Encoding.channel) (self : Encoding.t)
  (a b : option (Shelf.t (Encoding.class_of ch))) :
  Encoding.with_slot ch (Encoding.with_slot ch self a) b
  = Encoding.with_slot ch self b.
Proof. destruct ch; reflexivity. Qed.

Lemma with_slot_get (ch : Encoding.channel) (self : Encoding.t) :
  Encoding.with_slot ch self (Encoding.get ch self) = self.
Proof. destruct ch; destruct self; reflexivity. Qed.

Lemma if_data_infer_result {c} (h : heap) (self self' : Encoding.t)
  (get : Encoding.t -> option (Shelf.t c))
  (set : Encoding.t -> option (Shelf.t c) -> Encoding.t) :
  Encoding.if_data_infer h self get set = Return self' ->
  self' = self \/ exists v, self' = set self v.
Proof.
  unfold Encoding.if_data_infer.
  destruct (Encoding.parent_data_or_None h self);
    [|intros H; inversion H; now left].
  destruct (Encoding.infer_slot (get self) (Some d)) as [v|]; cbn [bind];
    [|discriminate].
  intros H; inversion H. right. now exists v.
Qed.

Lemma if_parent_infer_result (h : heap) (self self' : Encoding.t) :
  Encoding.if_parent_infer h self = Return self' ->
  self' = self \/ exists v, self' = Encoding.with_shape self v.
Proof.
  unfold Encoding.if_parent_infer.
  destruct (Encoding.parent self); [|intros H; inversion H; now left].
  destruct (Encoding.shape self); [|discriminate].
  destruct (Encoding.parent_data h o); cbn [bind]; [|discriminate].
  destruct (Shelf._infer_type t a); cbn [bind]; [|discriminate].
  intros H; inversion H. right. eauto.
Qed.

(** A channel assignment that returns has only replaced the value of its
    own slot. *)
Lemma set_replaces_own_slot (ch : Encoding.channel) (h : heap)
  (self self' : Encoding.t) (v : Encoding.arg (Encoding.class_of ch)) :
  Encoding.set ch h self v = Return self' ->
  exists val, self' = Encoding.with_slot ch self val.
Proof.
  assert (Hself : forall ch0, exists val, self = Encoding.with_slot ch0 self val)
    by (intros ch0; eexists; symmetry; apply with_slot_get).
  destruct ch; cbn [Encoding.set Encoding.class_of Encoding.with_slot] in *;
    unfold Encoding.set_x, Encoding.set_y, Encoding.set_row, Encoding.set_col,
      Encoding.set_size, Encoding.set_color, Encoding.set_shape, Encoding.assign,
      Encoding._x_changed, Encoding._y_changed, Encoding._row_changed,
      Encoding._col_changed, Encoding._size_changed, Encoding._color_changed,
      Encoding._shape_changed;
    intros H;
    destruct v as [ |s|o| ]; cbn [bind] in H;
    repeat match goal with
           | H : Raise _ = Return _ |- _ => discriminate H
           | H : Return _ = Return _ |- _ => inversion H; subst; clear H
           | H : match ?o with Some _ => _ | None => _ end = Return _ |- _ =>
               destruct o eqn:?
           | H : bind ?c _ = Return _ |- _ =>
               destruct c eqn:?; cbn [bind] in H; [|discriminate H]
           | H : Encoding.if_data_infer _ _ _ _ = Return _ |- _ =>
               apply if_data_infer_result in H; destruct H as [H|[? H]]; subst
           | H : Encoding.if_parent_infer _ _ = Return _ |- _ =>
               apply if_parent_infer_result in H; destruct H as [H|[? H]]; subst
           end;
    first [ eexists; reflexivity
          | exact (Hself Encoding.ch_x) | exact (Hself Encoding.ch_y)
          | exact (Hself Encoding.ch_row) | exact (Hself Encoding.ch_col)
          | exact (Hself Encoding.ch_size) | exact (Hself Encoding.ch_color)
          | exact (Hself Encoding.ch_shape) ].
Qed.

(** X7.  A channel assignment that returns changes nothing but its own
    slot: the parent, the config and the six other channels of the Encoding
    are as before. *)
Theorem X7_channel_assignment_touches_one_slot
  (ch : Encoding.channel) (h : heap) (self self' : Encoding.t)
  (v : Encoding.arg (Encoding.class_of ch)) :
  Encoding.set ch h self v = Return self' ->
  Encoding.parent self' = Encoding.parent self
  /\ Encoding.config self' = Encoding.config self
  /\ forall ch' : Encoding.channel,
       ch' <> ch -> Encoding.get ch' self' = Encoding.get ch' self.
Proof.
  intros H. destruct (set_replaces_own_slot _ _ _ _ _ H) as [val ->].
  split; [destruct ch; reflexivity|].
  split; [destruct ch; reflexivity|].
  intros ch' Hne. destruct ch, ch'; try congruence; reflexivity.
Qed.

Lemma X7_witness :
  Encoding.set Encoding.ch_x (heap_of (Some people)) attached (Encoding.AStr "age")
  = Return attached_age
  /\ Encoding.parent attached_age = Encoding.parent attached.
Proof.
  split; [reflexivity|].
  exact (proj1 (X7_channel_assignment_touches_one_slot
                  Encoding.ch_x (heap_of (Some people)) attached attached_age
                  (Encoding.AStr "age") eq_refl)).
Defined.

(** X8.  When the constructor of the channel class raises on the string
    (a malformed shorthand, a value the class rejects), the assignment of
    that string to the channel raises the same exception. *)
Theorem X8_string_assignment_propagates_constructor_error
  (ch : Encoding.channel) (h : heap) (self : Encoding.t) (s : string) (e : exn) :
  Shelf.init (Encoding.class_of ch) s (Encoding.config_for ch self) = Raise e ->
  Encoding.set ch h self (Encoding.AStr s) = Raise e.
Proof.
  intros Hinit.
  destruct ch; cbn [Encoding.set Encoding.class_of Encoding.config_for] in *;
    unfold Encoding.set_x, Encoding.set_y, Encoding.set_row, Encoding.set_col,
      Encoding.set_size, Encoding.set_color, Encoding.set_shape, Encoding.assign,
      Encoding._x_changed, Encoding._y_changed, Encoding._row_changed,
      Encoding._col_changed, Encoding._size_changed, Encoding._color_changed,
      Encoding._shape_changed;
    rewrite Hinit; reflexivity.
Qed.

Lemma X8_witness :
  Encoding.set Encoding.ch_row (heap_of None) attached (Encoding.AStr "a:b")
  = Raise InvalidShorthand.
Proof.
  apply (X8_string_assignment_propagates_constructor_error
           Encoding.ch_row (heap_of None) attached "a:b" InvalidShorthand).
  reflexivity.
Defined.

(** X9.  Assigning None to an occupied channel of an Encoding whose parent
    chart has a DataFrame raises AttributeError: the handler calls
    [_infer_type] on the slot it has just emptied.  Without a parent the
    same assignment empties the slot. *)
Theorem X9_clearing_a_channel_of_a_bound_chart_raises
  (ch : Encoding.channel) (h : heap) (self : Encoding.t) (df : DataFrame) :
  Encoding.parent_data_or_None h self = Some df ->
  Encoding.get ch self <> None ->
  Encoding.set ch h self Encoding.ANone = Raise AttributeError
  /\ forall self0 : Encoding.t,
       Encoding.parent self0 = None ->
       Encoding.set ch h self0 Encoding.ANone
       = Return (Encoding.with_slot ch self0 None).
Proof.
  intros Hd Hocc.
  destruct (parent_with_data _ _ _ Hd) as [p [Hp Hh]].
  split.
  - destruct ch; cbn [Encoding.set Encoding.class_of Encoding.get] in *;
      unfold Encoding.set_x, Encoding.set_y, Encoding.set_row, Encoding.set_col,
        Encoding.set_size, Encoding.set_color, Encoding.set_shape, Encoding.assign,
        Encoding._x_changed, Encoding._y_changed, Encoding._row_changed,
        Encoding._col_changed, Encoding._size_changed, Encoding._color_changed,
        Encoding._shape_changed;
      match goal with
      | |- context [match ?o with Some _ => _ | None => _ end] =>
          destruct o; [|congruence]
      end;
      cbn [bind];
      unfold Encoding.if_data_infer, Encoding.if_parent_infer,
        Encoding.parent_data_or_None;
      cbn [Encoding.parent Encoding.with_x Encoding.with_y Encoding.with_row
           Encoding.with_col Encoding.with_size Encoding.with_color
           Encoding.with_shape Encoding.x Encoding.y Encoding.row Encoding.col
           Encoding.size Encoding.color Encoding.shape];
      rewrite Hp; try rewrite Hh; reflexivity.
  - intros self0 Hp0.
    destruct ch; cbn [Encoding.set Encoding.class_of Encoding.with_slot];
      unfold Encoding.set_x, Encoding.set_y, Encoding.set_row, Encoding.set_col,
        Encoding.set_size, Encoding.set_color, Encoding.set_shape, Encoding.assign,
        Encoding._x_changed, Encoding._y_changed, Encoding._row_changed,
        Encoding._col_changed, Encoding._size_changed, Encoding._color_changed,
        Encoding._shape_changed;
      match goal with
      | |- context [match ?o with Some _ => _ | None => _ end] =>
          destruct o eqn:Eo
      end;
      cbn [bind];
      unfold Encoding.if_data_infer, Encoding.if_parent_infer,
        Encoding.parent_data_or_None;
      cbn [Encoding.parent Encoding.with_x Encoding.with_y Encoding.with_row
           Encoding.with_col Encoding.with_size Encoding.with_color
           Encoding.with_shape];
      rewrite ?Hp0; try reflexivity;
      destruct self0; cbn in *; subst; reflexivity.
Qed.

Lemma X9_witness :
  Encoding.set Encoding.ch_x (heap_of (Some people)) attached_x Encoding.ANone
  = Raise AttributeError.
Proof.
  apply (proj1 (X9_clearing_a_channel_of_a_bound_chart_raises
                  Encoding.ch_x (heap_of (Some people)) attached_x people
                  eq_refl ltac:(discriminate))).
Defined.

(** ** set_single_dims: missing parts, frame and repetition *)

(** set_single_dims for widths in range, on a chart with a vlconfig. *)
Lemma set_single_dims_in_range (v : Viz.t) (width height : Z) (c : VLConfig.t) :
  0 <= width < 2 ^ 51 ->
  0 <= height < 2 ^ 51 ->
  Viz.vlconfig v = Some c ->
  Viz.set_single_dims v width height
  = match Viz.encoding v with
    | None => Raise AttributeError
    | Some e =>
        match Encoding.x e with
        | None => Raise AttributeError
        | Some sx =>
            match Encoding.y e with
            | None => Raise AttributeError
            | Some sy =>
                Return
                  (Viz.with_encoding
                     (Viz.with_vlconfig v
                        (Some {| VLConfig.width := width;
                                 VLConfig.height := height;
                                 VLConfig.singleWidth := Some (3 * width / 4);
                                 VLConfig.singleHeight := Some (3 * height / 4);
                                 VLConfig.gridColor := VLConfig.gridColor c;
                                 VLConfig.gridOpacity := VLConfig.gridOpacity c |}))
                     (Some (Encoding.with_y
                              (Encoding.with_x e
                                 (Some (if Viz.type_in_N_O sx
                                        then Shelf.with_sub (c := Shelf.X) sx
                                               (Viz.with_band (Shelf.sub sx)
                                                  (Band.new (width / 10)))
                                        else sx)))
                              (Some (if Viz.type_in_N_O sy
                                     then Shelf.with_sub (c := Shelf.Y) sy
                                            (Viz.with_band (Shelf.sub sy)
                                               (Band.new (height / 10)))
                                     else sy)))))
            end
        end
    end.
Proof.
  intros Hw Hh Hc.
  pose proof (int_mul_0_75 width Hw) as Hmw.
  pose proof (int_mul_0_75 height Hh) as Hmh.
  pose proof (int_truediv_10 width Hw) as Hdw.
  pose proof (int_truediv_10 height Hh) as Hdh.
  unfold Viz.set_single_dims. rewrite Hc.
  destruct (py_mul_int_float width f64_0_75) as [fw|]; [|discriminate].
  cbn [bind] in Hmw |- *. rewrite Hmw. cbn [bind].
  destruct (py_mul_int_float height f64_0_75) as [fh|]; [|discriminate].
  cbn [bind] in Hmh |- *. rewrite Hmh. cbn [bind].
  cbn [Viz.encoding Viz.with_vlconfig].
  destruct (Viz.encoding v) as [e|]; [|reflexivity].
  destruct (Encoding.x e) as [sx|]; [|reflexivity].
  destruct (Viz.type_in_N_O sx).
  - destruct (py_truediv width 10) as [qw|]; [|discriminate].
    cbn [bind] in Hdw |- *. rewrite Hdw. cbn [bind].
    cbn [Encoding.y Encoding.with_x].
    destruct (Encoding.y e) as [sy|]; [|reflexivity].
    destruct (Viz.type_in_N_O sy).
    + destruct (py_truediv height 10) as [qh|]; [|discriminate].
      cbn [bind] in Hdh |- *. rewrite Hdh. reflexivity.
    + reflexivity.
  - cbn [bind]. cbn [Encoding.y Encoding.with_x].
    destruct (Encoding.y e) as [sy|]; [|reflexivity].
    destruct (Viz.type_in_N_O sy).
    + destruct (py_truediv height 10) as [qh|]; [|discriminate].
      cbn [bind] in Hdh |- *. rewrite Hdh. reflexivity.
    + reflexivity.
Qed.

(** X10.  For 0 <= width, height < 2^51, set_single_dims returns exactly
    when the chart has a vlconfig and an encoding with both x and y; when
    one of them is missing it raises AttributeError. *)
Theorem X10_set_single_dims_needs_config_encoding_x_y
  (v : Viz.t) (width height : Z) :
  0 <= width < 2 ^ 51 ->
  0 <= height < 2 ^ 51 ->
  ((exists v' : Viz.t, Viz.set_single_dims v width height = Return v')
   <-> Viz.vlconfig v <> None
       /\ viz_channel Encoding.ch_x v <> None
       /\ viz_channel Encoding.ch_y v <> None)
  /\ (Viz.set_single_dims v width height = Raise AttributeError
      <-> Viz.vlconfig v = None
          \/ viz_channel Encoding.ch_x v = None
          \/ viz_channel Encoding.ch_y v = None).
Proof.
  intros Hw Hh. unfold viz_channel. cbn [Encoding.get].
  destruct (Viz.vlconfig v) as [c|] eqn:Hc.
  - rewrite (set_single_dims_in_range v width height c Hw Hh Hc).
    destruct (Viz.encoding v) as [e|];
      [destruct (Encoding.x e), (Encoding.y e)|];
      (split; split;
       [ intros [v' H]; try discriminate; repeat split; discriminate
       | intros (H1 & H2 & H3);
         first [now elim H1 | now elim H2 | now elim H3 | eexists; reflexivity]
       | intros H; try discriminate; auto
       | intros [H|[H|H]]; try discriminate; reflexivity ]).
  - assert (E : Viz.set_single_dims v width height = Raise AttributeError)
      by (unfold Viz.set_single_dims; rewrite Hc; reflexivity).
    rewrite E. split; split.
    + intros [v' H]. discriminate.
    + intros [H _]. congruence.
    + auto.
    + reflexivity.
Qed.

Lemma X10_witness :
  Viz.set_single_dims blank_chart 400 200 = Raise AttributeError.
Proof.
  apply (proj2 (X10_set_single_dims_needs_config_encoding_x_y
                  blank_chart 400 200 ltac:(lia) ltac:(lia))).
  right. left. reflexivity.
Defined.


(** X11.  Whatever the arguments, a call of set_single_dims that returns
    has stored width and height and has kept the identity, the marktype, the
    data, and the name and the type of every channel; the channels other
    than x and y are untouched. *)
Theorem X11_set_single_dims_changes_only_config_and_bands
  (v v' : Viz.t) (width height : Z) :
  Viz.set_single_dims v width height = Return v' ->
  Viz.self_id v' = Viz.self_id v
  /\ Viz.marktype v' = Viz.marktype v
  /\ Viz.data v' = Viz.data v
  /\ Viz._data v' = Viz._data v
  /\ option_map VLConfig.width (Viz.vlconfig v') = Some width
  /\ option_map VLConfig.height (Viz.vlconfig v') = Some height
  /\ forall ch : Encoding.channel,
       option_map Shelf.name (viz_channel ch v')
       = option_map Shelf.name (viz_channel ch v)
       /\ option_map Shelf.type (viz_channel ch v')
          = option_map Shelf.type (viz_channel ch v)
       /\ (ch <> Encoding.ch_x -> ch <> Encoding.ch_y ->
           viz_channel ch v' = viz_channel ch v).
Proof.
  intros H. unfold Viz.set_single_dims in H.
  destruct (Viz.vlconfig v) as [c|]; [|discriminate].
  destruct (py_mul_int_float width f64_0_75) as [fw|]; [|discriminate].
  cbn [bind] in H.
  destruct (py_int fw) as [sw|]; [|discriminate]. cbn [bind] in H.
  destruct (py_mul_int_float height f64_0_75) as [fh|]; [|discriminate].
  cbn [bind] in H.
  destruct (py_int fh) as [sh|]; [|discriminate]. cbn [bind] in H.
  cbn [Viz.encoding Viz.with_vlconfig] in H.
  unfold viz_channel.
  destruct (Viz.encoding v) as [e|]; [|discriminate].
  destruct (Encoding.x e) as [sx|] eqn:Hx; [|discriminate].
  match type of H with
  | bind ?c _ = _ => destruct c as [sx'|] eqn:Hsx; [|discriminate]
  end.
  cbn [bind Encoding.y Encoding.with_x] in H.
  destruct (Encoding.y e) as [sy|] eqn:Hy; [|discriminate].
  match type of H with
  | bind ?c _ = _ => destruct c as [sy'|] eqn:Hsy; [|discriminate]
  end.
  cbn [bind] in H. inversion H; subst v'; clear H.
  assert (Ex : Shelf.name sx' = Shelf.name sx /\ Shelf.type sx' = Shelf.type sx).
  { destruct (Viz.type_in_N_O sx).
    - destruct (py_truediv width 10) as [q|]; [|discriminate].
      cbn [bind] in Hsx. destruct (py_int q); [|discriminate].
      inversion Hsx. split; reflexivity.
    - inversion Hsx. split; reflexivity. }
  assert (Ey : Shelf.name sy' = Shelf.name sy /\ Shelf.type sy' = Shelf.type sy).
  { destruct (Viz.type_in_N_O sy).
    - destruct (py_truediv height 10) as [q|]; [|discriminate].
      cbn [bind] in Hsy. destruct (py_int q); [|discriminate].
      inversion Hsy. split; reflexivity.
    - inversion Hsy. split; reflexivity. }
  destruct Ex as [Ex1 Ex2], Ey as [Ey1 Ey2].
  repeat (split; [reflexivity|]).
  intros ch.
  destruct ch;
    cbn [Viz.encoding Viz.with_encoding Encoding.get Encoding.class_of
         Encoding.with_x Encoding.with_y Encoding.x Encoding.y Encoding.row
         Encoding.col Encoding.size Encoding.color Encoding.shape option_map];
    rewrite ?Hx, ?Hy; cbn [option_map]; rewrite ?Ex1, ?Ex2, ?Ey1, ?Ey2;
    repeat split; try reflexivity; intros; congruence.
Qed.

Lemma X11_witness :
  Viz.set_single_dims people_xy_chart 400 200 = Return people_xy_sized
  /\ Viz.data people_xy_sized = Viz.data people_xy_chart.
Proof.
  assert (H : Viz.set_single_dims people_xy_chart 400 200 = Return people_xy_sized)
    by (vm_compute; reflexivity).
  split; [exact H|].
  exact (proj1 (proj2 (proj2
           (X11_set_single_dims_changes_only_config_and_bands
              people_xy_chart people_xy_sized 400 200 H)))).
Defined.

Lemma type_in_N_O_with_sub {c} (s : Shelf.t c) (o : Shelf.own c) :
  Viz.type_in_N_O (Shelf.with_sub s o) = Viz.type_in_N_O s.
Proof. reflexivity. Qed.

(** X12.  For 0 <= width, height < 2^51, calling set_single_dims a second
    time with the same arguments changes nothing. *)
Theorem X12_set_single_dims_idempotent
  (v v' : Viz.t) (width height : Z) :
  0 <= width < 2 ^ 51 ->
  0 <= height < 2 ^ 51 ->
  Viz.set_single_dims v width height = Return v' ->
  Viz.set_single_dims v' width height = Return v'.
Proof.
  intros Hw Hh H.
  destruct (Viz.vlconfig v) as [c|] eqn:Hc;
    [|unfold Viz.set_single_dims in H; rewrite Hc in H; discriminate].
  rewrite (set_single_dims_in_range v width height c Hw Hh Hc) in H.
  destruct (Viz.encoding v) as [e|]; [|discriminate].
  destruct (Encoding.x e) as [sx|]; [|discriminate].
  destruct (Encoding.y e) as [sy|]; [|discriminate].
  inversion H; subst v'; clear H.
  erewrite set_single_dims_in_range by (try eassumption; reflexivity).
  cbn [Viz.encoding Viz.with_encoding Viz.with_vlconfig Encoding.x Encoding.y
       Encoding.with_x Encoding.with_y VLConfig.gridColor VLConfig.gridOpacity].
  destruct (Viz.type_in_N_O sx) eqn:Tx, (Viz.type_in_N_O sy) eqn:Ty;
    rewrite ?type_in_N_O_with_sub, ?Tx, ?Ty; reflexivity.
Qed.

Lemma X12_witness :
  Viz.set_single_dims people_xy_sized 400 200 = Return people_xy_sized.
Proof.
  apply (X12_set_single_dims_idempotent people_xy_chart people_xy_sized 400 200);
    [lia | lia | vm_compute; reflexivity].
Defined.

(** ** Construction of an Encoding *)

Lemma bind_cong {A B : Type} (c c' : result A) (k k' : A -> result B) :
  c = c' -> (forall a, c = Return a -> k a = k' a) -> bind c k = bind c' k'.
Proof.
  intros <- Hk. destruct c as [a|e]; cbn [bind]; [apply Hk|]; reflexivity.
Qed.

Lemma apply_kw_slot (ch : Encoding.channel) (h : heap) (self self' : Encoding.t)
  (kw : option (Encoding.arg (Encoding.class_of ch))) :
  Encoding.apply_kw (Encoding.set ch) h self kw = Return self' ->
  exists val, self' = Encoding.with_slot ch self val.
Proof.
  destruct kw as [v|]; cbn [Encoding.apply_kw].
  - apply set_replaces_own_slot.
  - intros H; inversion H; subst. eexists. symmetry. apply with_slot_get.
Qed.

Lemma apply_kw_again_slot (ch : Encoding.channel) (h : heap)
  (self self' : Encoding.t) (kw : option (Encoding.arg (Encoding.class_of ch))) :
  Encoding.apply_kw_again (Encoding.set ch) h self kw = Return self' ->
  exists val, self' = Encoding.with_slot ch self val.
Proof.
  destruct kw as [[ |s|o| ]|]; cbn [Encoding.apply_kw_again];
    try (intros H; inversion H; subst; eexists; symmetry; apply with_slot_get).
  apply set_replaces_own_slot.
Qed.

(** Without a parent a channel assignment does not depend on the heap. *)
Lemma set_without_parent (ch : Encoding.channel) (h h' : heap) (self : Encoding.t)
  (v : Encoding.arg (Encoding.class_of ch)) :
  Encoding.parent self = None ->
  Encoding.set ch h self v = Encoding.set ch h' self v.
Proof.
  intros Hp.
  destruct ch; cbn [Encoding.set Encoding.class_of];
    unfold Encoding.set_x, Encoding.set_y, Encoding.set_row, Encoding.set_col,
      Encoding.set_size, Encoding.set_color, Encoding.set_shape, Encoding.assign,
      Encoding._x_changed, Encoding._y_changed, Encoding._row_changed,
      Encoding._col_changed, Encoding._size_changed, Encoding._color_changed,
      Encoding._shape_changed, Encoding.if_data_infer, Encoding.if_parent_infer,
      Encoding.parent_data_or_None;
    destruct v as [ |s|o| ];
    try match goal with
        | |- context [match ?o with Some _ => _ | None => _ end] =>
            match type of o with option (Shelf.t _) => destruct o end
        end;
    cbn [bind Encoding.parent Encoding.with_x Encoding.with_y Encoding.with_row
         Encoding.with_col Encoding.with_size Encoding.with_color
         Encoding.with_shape];
    rewrite ?Hp; try reflexivity;
    repeat match goal with
           | |- context [Shelf.init ?c ?s ?cfg] =>
               destruct (Shelf.init c s cfg); cbn [bind Encoding.parent
                 Encoding.with_x Encoding.with_y Encoding.with_row
                 Encoding.with_col Encoding.with_size Encoding.with_color
                 Encoding.with_shape]; rewrite ?Hp
           end; reflexivity.
Qed.

Lemma apply_kw_without_parent (ch : Encoding.channel) (h h' : heap)
  (self : Encoding.t) (kw : option (Encoding.arg (Encoding.class_of ch))) :
  Encoding.parent self = None ->
  Encoding.apply_kw (Encoding.set ch) h self kw
  = Encoding.apply_kw (Encoding.set ch) h' self kw.
Proof.
  intros Hp. destruct kw; cbn [Encoding.apply_kw];
    [apply set_without_parent; exact Hp|reflexivity].
Qed.

Lemma apply_kw_again_without_parent (ch : Encoding.channel) (h h' : heap)
  (self : Encoding.t) (kw : option (Encoding.arg (Encoding.class_of ch))) :
  Encoding.parent self = None ->
  Encoding.apply_kw_again (Encoding.set ch) h self kw
  = Encoding.apply_kw_again (Encoding.set ch) h' self kw.
Proof.
  intros Hp. destruct kw as [[ |s|o| ]|]; cbn [Encoding.apply_kw_again];
    try reflexivity. apply set_without_parent; exact Hp.
Qed.

Lemma with_slot_parent (ch : Encoding.channel) (self : Encoding.t)
  (val : option (Shelf.t (Encoding.class_of ch))) :
  Encoding.parent (Encoding.with_slot ch self val) = Encoding.parent self.
Proof. destruct ch; reflexivity. Qed.

Lemma with_slot_config (ch : Encoding.channel) (self : Encoding.t)
  (val : option (Shelf.t (Encoding.class_of ch))) :
  Encoding.config (Encoding.with_slot ch self val) = Encoding.config self.
Proof. destruct ch; reflexivity. Qed.

Lemma with_slot_other (ch ch' : Encoding.channel) (self : Encoding.t)
  (val : option (Shelf.t (Encoding.class_of ch))) :
  ch' <> ch ->
  Encoding.get ch' (Encoding.with_slot ch self val) = Encoding.get ch' self.
Proof. intros Hne. destruct ch, ch'; try congruence; reflexivity. Qed.

(** The fourteen assignments of the constructor, with the seven setters
    seen as [Encoding.set]. *)
Lemma init_unfold (h : heap) (cfg : Config) (kw : Encoding.kwargs) :
  Encoding.init h cfg kw
  = (self <- Encoding.apply_kw (Encoding.set Encoding.ch_x) h Encoding.default
               (Encoding.kw_x kw) ;;
     self <- Encoding.apply_kw (Encoding.set Encoding.ch_y) h self (Encoding.kw_y kw) ;;
     self <- Encoding.apply_kw (Encoding.set Encoding.ch_row) h self (Encoding.kw_row kw) ;;
     self <- Encoding.apply_kw (Encoding.set Encoding.ch_col) h self (Encoding.kw_col kw) ;;
     self <- Encoding.apply_kw (Encoding.set Encoding.ch_size) h self (Encoding.kw_size kw) ;;
     self <- Encoding.apply_kw (Encoding.set Encoding.ch_color) h self (Encoding.kw_color kw) ;;
     self <- Encoding.apply_kw (Encoding.set Encoding.ch_shape) h self (Encoding.kw_shape kw) ;;
     self <- Return (Encoding.with_config self cfg) ;;
     self <- Encoding.apply_kw_again (Encoding.set Encoding.ch_x) h self (Encoding.kw_x kw) ;;
     self <- Encoding.apply_kw_again (Encoding.set Encoding.ch_y) h self (Encoding.kw_y kw) ;;
     self <- Encoding.apply_kw_again (Encoding.set Encoding.ch_row) h self (Encoding.kw_row kw) ;;
     self <- Encoding.apply_kw_again (Encoding.set Encoding.ch_col) h self (Encoding.kw_col kw) ;;
     self <- Encoding.apply_kw_again (Encoding.set Encoding.ch_size) h self (Encoding.kw_size kw) ;;
     self <- Encoding.apply_kw_again (Encoding.set Encoding.ch_color) h self (Encoding.kw_color kw) ;;
     self <- Encoding.apply_kw_again (Encoding.set Encoding.ch_shape) h self (Encoding.kw_shape kw) ;;
     Return self).
Proof.
  unfold Encoding.init. cbn [Encoding.set bind].
  repeat (apply bind_cong; [reflexivity|intros ? _]).
  destruct (Encoding.apply_kw_again _ _ _ _); reflexivity.
Qed.

(** One step of the constructor that returns keeps the parent, the config
    and the channels other than its own. *)
Lemma apply_kw_frame (ch : Encoding.channel) (h : heap) (self self' : Encoding.t)
  (kw : option (Encoding.arg (Encoding.class_of ch))) :
  Encoding.apply_kw (Encoding.set ch) h self kw = Return self' ->
  Encoding.parent self' = Encoding.parent self
  /\ Encoding.config self' = Encoding.config self
  /\ forall ch', ch' <> ch -> Encoding.get ch' self' = Encoding.get ch' self.
Proof.
  intros H. destruct (apply_kw_slot _ _ _ _ _ H) as [val ->].
  split; [apply with_slot_parent|]. split; [apply with_slot_config|].
  intros ch'. apply with_slot_other.
Qed.

Lemma apply_kw_again_frame (ch : Encoding.channel) (h : heap)
  (self self' : Encoding.t) (kw : option (Encoding.arg (Encoding.class_of ch))) :
  Encoding.apply_kw_again (Encoding.set ch) h self kw = Return self' ->
  Encoding.parent self' = Encoding.parent self
  /\ Encoding.config self' = Encoding.config self
  /\ forall ch', ch' <> ch -> Encoding.get ch' self' = Encoding.get ch' self.
Proof.
  intros H. destruct (apply_kw_again_slot _ _ _ _ _ H) as [val ->].
  split; [apply with_slot_parent|]. split; [apply with_slot_config|].
  intros ch'. apply with_slot_other.
Qed.

Lemma init_heap_independent
  (h h' : heap) (cfg : Config) (kw : Encoding.kwargs) :
  Encoding.init h cfg kw = Encoding.init h' cfg kw.
Proof.
  rewrite !init_unfold.
  assert (Hp : Encoding.parent Encoding.default = None) by reflexivity.
  revert Hp. generalize Encoding.default. intros s0 Hp0.
  apply bind_cong; [apply apply_kw_without_parent; exact Hp0|].
  intros s1 H1. apply apply_kw_frame in H1. destruct H1 as [Hp1 _]. rewrite Hp0 in Hp1.
  apply bind_cong; [apply apply_kw_without_parent; exact Hp1|].
  intros s2 H2. apply apply_kw_frame in H2. destruct H2 as [Hp2 _]. rewrite Hp1 in Hp2.
  apply bind_cong; [apply apply_kw_without_parent; exact Hp2|].
  intros s3 H3. apply apply_kw_frame in H3. destruct H3 as [Hp3 _]. rewrite Hp2 in Hp3.
  apply bind_cong; [apply apply_kw_without_parent; exact Hp3|].
  intros s4 H4. apply apply_kw_frame in H4. destruct H4 as [Hp4 _]. rewrite Hp3 in Hp4.
  apply bind_cong; [apply apply_kw_without_parent; exact Hp4|].
  intros s5 H5. apply apply_kw_frame in H5. destruct H5 as [Hp5 _]. rewrite Hp4 in Hp5.
  apply bind_cong; [apply apply_kw_without_parent; exact Hp5|].
  intros s6 H6. apply apply_kw_frame in H6. destruct H6 as [Hp6 _]. rewrite Hp5 in Hp6.
  apply bind_cong; [apply apply_kw_without_parent; exact Hp6|].
  intros s7 H7. apply apply_kw_frame in H7. destruct H7 as [Hp7 _]. rewrite Hp6 in Hp7.
  cbn [bind].
  assert (Hp8 : Encoding.parent (Encoding.with_config s7 cfg) = None) by exact Hp7.
  revert Hp8. generalize (Encoding.with_config s7 cfg). intros s8 Hp8.
  apply bind_cong; [apply apply_kw_again_without_parent; exact Hp8|].
  intros s9 H9. apply apply_kw_again_frame in H9. destruct H9 as [Hp9 _]. rewrite Hp8 in Hp9.
  apply bind_cong; [apply apply_kw_again_without_parent; exact Hp9|].
  intros s10 H10. apply apply_kw_again_frame in H10. destruct H10 as [Hp10 _]. rewrite Hp9 in Hp10.
  apply bind_cong; [apply apply_kw_again_without_parent; exact Hp10|].
  intros s11 H11. apply apply_kw_again_frame in H11. destruct H11 as [Hp11 _]. rewrite Hp10 in Hp11.
  apply bind_cong; [apply apply_kw_again_without_parent; exact Hp11|].
  intros s12 H12. apply apply_kw_again_frame in H12. destruct H12 as [Hp12 _]. rewrite Hp11 in Hp12.
  apply bind_cong; [apply apply_kw_again_without_parent; exact Hp12|].
  intros s13 H13. apply apply_kw_again_frame in H13. destruct H13 as [Hp13 _]. rewrite Hp12 in Hp13.
  apply bind_cong; [apply apply_kw_again_without_parent; exact Hp13|].
  intros s14 H14. apply apply_kw_again_frame in H14. destruct H14 as [Hp14 _]. rewrite Hp13 in Hp14.
  apply bind_cong; [apply apply_kw_again_without_parent; exact Hp14|].
  reflexivity.
Qed.

(** What the constructor returns has no parent, has the given config, and
    has no x when the keyword x is absent or None. *)
Lemma init_result (h : heap) (cfg : Config) (kw : Encoding.kwargs) (e : Encoding.t) :
  Encoding.init h cfg kw = Return e ->
  Encoding.parent e = None
  /\ Encoding.config e = cfg
  /\ (Encoding.kw_x kw = None \/ Encoding.kw_x kw = Some Encoding.ANone ->
      Encoding.x e = None).
Proof.
  rewrite init_unfold. intros H.
  destruct (Encoding.apply_kw _ _ _ _) as [a1|] eqn:E1 in H; cbn [bind] in H; [|discriminate H].
  destruct (Encoding.apply_kw _ _ _ _) as [a2|] eqn:E2 in H; cbn [bind] in H; [|discriminate H].
  destruct (Encoding.apply_kw _ _ _ _) as [a3|] eqn:E3 in H; cbn [bind] in H; [|discriminate H].
  destruct (Encoding.apply_kw _ _ _ _) as [a4|] eqn:E4 in H; cbn [bind] in H; [|discriminate H].
  destruct (Encoding.apply_kw _ _ _ _) as [a5|] eqn:E5 in H; cbn [bind] in H; [|discriminate H].
  destruct (Encoding.apply_kw _ _ _ _) as [a6|] eqn:E6 in H; cbn [bind] in H; [|discriminate H].
  destruct (Encoding.apply_kw _ _ _ _) as [a7|] eqn:E7 in H; cbn [bind] in H; [|discriminate H].
  destruct (Encoding.apply_kw_again _ _ _ _) as [b1|] eqn:F1 in H; cbn [bind] in H; [|discriminate H].
  destruct (Encoding.apply_kw_again _ _ _ _) as [b2|] eqn:F2 in H; cbn [bind] in H; [|discriminate H].
  destruct (Encoding.apply_kw_again _ _ _ _) as [b3|] eqn:F3 in H; cbn [bind] in H; [|discriminate H].
  destruct (Encoding.apply_kw_again _ _ _ _) as [b4|] eqn:F4 in H; cbn [bind] in H; [|discriminate H].
  destruct (Encoding.apply_kw_again _ _ _ _) as [b5|] eqn:F5 in H; cbn [bind] in H; [|discriminate H].
  destruct (Encoding.apply_kw_again _ _ _ _) as [b6|] eqn:F6 in H; cbn [bind] in H; [|discriminate H].
  destruct (Encoding.apply_kw_again _ _ _ _) as [b7|] eqn:F7 in H; cbn [bind] in H; [|discriminate H].
  inversion H; subst e; clear H.
  assert (Hx0 : Encoding.kw_x kw = None \/ Encoding.kw_x kw = Some Encoding.ANone ->
                 a1 = Encoding.default /\ b1 = Encoding.with_config a7 cfg).
  { intros [Hk|Hk]; rewrite Hk in E1, F1; cbn in E1, F1;
      inversion E1; inversion F1; split; reflexivity. }
  apply apply_kw_frame in E1, E2, E3, E4, E5, E6, E7.
  apply apply_kw_again_frame in F1, F2, F3, F4, F5, F6, F7.
  destruct E1 as (P1 & C1 & _), E2 as (P2 & C2 & G2), E3 as (P3 & C3 & G3),
    E4 as (P4 & C4 & G4), E5 as (P5 & C5 & G5), E6 as (P6 & C6 & G6),
    E7 as (P7 & C7 & G7), F1 as (Q1 & D1 & _), F2 as (Q2 & D2 & J2),
    F3 as (Q3 & D3 & J3), F4 as (Q4 & D4 & J4), F5 as (Q5 & D5 & J5),
    F6 as (Q6 & D6 & J6), F7 as (Q7 & D7 & J7).
  split; [|split].
  - rewrite Q7, Q6, Q5, Q4, Q3, Q2, Q1. cbn [Encoding.parent Encoding.with_config].
    rewrite P7, P6, P5, P4, P3, P2, P1. reflexivity.
  - rewrite D7, D6, D5, D4, D3, D2, D1. reflexivity.
  - intros Hk. destruct (Hx0 Hk) as [-> ->].
    change (Encoding.x b7) with (Encoding.get Encoding.ch_x b7).
    rewrite J7, J6, J5, J4, J3, J2 by discriminate.
    cbn [Encoding.get Encoding.x Encoding.with_config].
    change (Encoding.x a7) with (Encoding.get Encoding.ch_x a7).
    rewrite G7, G6, G5, G4, G3, G2 by discriminate. reflexivity.
Qed.

(** X15.  Called without the keyword parent, that is with channel
    keywords and possibly a config, the constructor of Encoding never reads
    the data of a chart: its result is the same under every heap, and the
    Encoding it returns has no parent and holds the config it was given. *)
Theorem X15_constructor_never_reads_parent_data
  (h h' : heap) (cfg : Config) (kw : Encoding.kwargs) :
  Encoding.init h cfg kw = Encoding.init h' cfg kw
  /\ match Encoding.init h cfg kw with
     | Return e => Encoding.parent e = None /\ Encoding.config e = cfg
     | Raise _ => True
     end.
Proof.
  split; [apply init_heap_independent|].
  destruct (Encoding.init h cfg kw) as [e|ex] eqn:E; [|exact I].
  destruct (init_result _ _ _ _ E) as (Hp & Hc & _). split; assumption.
Qed.

(** ** hist *)


Lemma mark_bar (v : Viz.t) : Viz.mark v "bar" = Return (Viz.with_marktype v "bar").
Proof. reflexivity. Qed.

(** X13.  hist never returns when the keyword x is absent or None: the
    last statement reads [self.encoding.x.name] on an empty slot (or an
    earlier statement has raised). *)
Theorem X13_hist_needs_x
  (h : heap) (v : Viz.t) (bins : Z) (kw : Encoding.kwargs) :
  Encoding.kw_x kw = None \/ Encoding.kw_x kw = Some Encoding.ANone ->
  exists ex : exn, Viz.hist h v bins kw = Raise ex.
Proof.
  intros Hk. unfold Viz.hist. rewrite mark_bar. cbn [bind].
  destruct (Encoding.kw_y kw); [eexists; reflexivity|].
  destruct (Encoding.init h Viz.hist_config _) as [e|ex] eqn:E;
    [|eexists; reflexivity].
  destruct (init_result _ _ _ _ E) as (_ & _ & Hx).
  specialize (Hx Hk).
  cbn [bind]. rewrite set_encoding_Some. cbn [bind Viz.encoding Viz.with_encoding].
  assert (Hs : Viz.x_is_str kw = false)
    by (unfold Viz.x_is_str; destruct Hk as [-> | ->]; reflexivity).
  rewrite Hs. cbn [bind].
  destruct (Viz.data (Viz.with_marktype v "bar"));
    cbn [Encoding.x inferred_all Encoding.with_parent]; rewrite Hx;
    eexists; reflexivity.
Qed.

Lemma X13_witness :
  exists ex : exn, Viz.hist (heap_of None) people_chart 10 Encoding.no_kwargs = Raise ex.
Proof.
  apply (X13_hist_needs_x (heap_of None) people_chart 10 Encoding.no_kwargs).
  left. reflexivity.
Defined.

(** X14.  Whatever the keywords, a call of hist that returns has set the
    marktype to bar, was not given the keyword y, and has left data, _data
    and vlconfig alone; the new encoding has the chart as parent and the
    histogram config, holds an x and a y, the name of y is the name of x,
    and x carries a Bin of the requested size when the keyword x was a
    string. *)
Theorem X14_hist_result
  (h : heap) (v v' : Viz.t) (bins : Z) (kw : Encoding.kwargs) :
  Viz.hist h v bins kw = Return v' ->
  Viz.marktype v' = "bar"
  /\ Viz.data v' = Viz.data v
  /\ Viz._data v' = Viz._data v
  /\ Viz.vlconfig v' = Viz.vlconfig v
  /\ Encoding.kw_y kw = None
  /\ exists (e : Encoding.t) (sx : Shelf.t Shelf.X) (sy : Shelf.t Shelf.Y),
       Viz.encoding v' = Some e
       /\ Encoding.parent e = Some (Viz.self_id v)
       /\ Encoding.config e = Viz.hist_config
       /\ Encoding.x e = Some sx
       /\ Encoding.y e = Some sy
       /\ Shelf.name sy = Shelf.name sx
       /\ (Viz.x_is_str kw = true -> Shelf.bin sx = Shelf.BinObj (Bin.new bins)).
Proof.
  unfold Viz.hist. rewrite mark_bar. cbn [bind]. intros H.
  destruct (Encoding.kw_y kw); [discriminate|].
  destruct (Encoding.init h Viz.hist_config _) as [e0|] eqn:E; [|discriminate].
  destruct (init_result _ _ _ _ E) as (_ & Hc & _).
  cbn [bind] in H. rewrite set_encoding_Some in H.
  cbn [bind Viz.encoding Viz.with_encoding] in H.
  match type of H with
  | context [Some ?t] =>
      match type of t with
      | Encoding.t => remember t as e1 eqn:He1
      end
  end.
  assert (Hp1 : Encoding.parent e1 = Some (Viz.self_id v)
                /\ Encoding.config e1 = Viz.hist_config).
  { subst e1. cbn [Viz.data Viz.with_marktype Viz.self_id].
    destruct (Viz.data v); split; try reflexivity; exact Hc. }
  destruct Hp1 as [Hp1 Hc1]. clear He1.
  destruct (Viz.x_is_str kw) eqn:Hs.
  - destruct (Encoding.x e1) as [sx|] eqn:Hx; [|discriminate].
    cbn [bind Encoding.x Encoding.y Encoding.with_x] in H.
    destruct (Encoding.y e1) as [sy|] eqn:Hy; [|discriminate].
    inversion H; subst v'; clear H.
    repeat (split; [reflexivity|]).
    eexists _, _, _. split; [reflexivity|].
    cbn [Encoding.parent Encoding.config Encoding.with_y Encoding.with_x
         Encoding.x Encoding.y].
    repeat (split; [first [reflexivity|assumption]|]). reflexivity.
  - cbn [bind] in H.
    destruct (Encoding.x e1) as [sx|] eqn:Hx; [|discriminate].
    destruct (Encoding.y e1) as [sy|] eqn:Hy; [|discriminate].
    inversion H; subst v'; clear H.
    repeat (split; [reflexivity|]).
    eexists _, _, _. split; [reflexivity|].
    cbn [Encoding.parent Encoding.config Encoding.with_y Encoding.with_x
         Encoding.x Encoding.y].
    rewrite Hx.
    repeat (split; [first [reflexivity|assumption]|]). discriminate.
Qed.

Lemma X14_witness :
  Viz.hist (heap_of None) people_chart 5 (kw_x_only "age") = Return people_hist
  /\ Viz.marktype people_hist = "bar".
Proof.
  assert (H : Viz.hist (heap_of None) people_chart 5 (kw_x_only "age")
              = Return people_hist) by (vm_compute; reflexivity).
  split; [exact H|].
  exact (proj1 (X14_hist_result _ _ _ _ _ H)).
Defined.

(** ** Registering renderers *)

Lemma keys_dict_set {A : Type} (k : string) (v : A) (d : list (string * A)) :
  keys (dict_set k v d) = if mem k (keys d) then keys d else (keys d ++ [k])%list.
Proof.
  induction d as [|[k' v'] r IH]; [reflexivity|].
  cbn [dict_set keys map fst mem].
  destruct (String.eqb k k') eqn:E; cbn [orb].
  - apply String.eqb_eq in E. subst k'. reflexivity.
  - cbn [map fst]. fold (keys (dict_set k v r)). rewrite IH. fold (keys r).
    destruct (mem k (keys r)); reflexivity.
Qed.

(** X16.  After register_renderer(name, f), use_renderer(name) calls f and
    installs what it returns (or raises what f raises); every other name
    resolves as before the registration, an unknown one still ending in
    AttributeError. *)
Theorem X16_registered_renderer_is_the_one_used
  (g : Renderers.globals) (name : string) (f : Renderers.factory) (n : string) :
  Renderers.use_renderer (Renderers.register_renderer g name f) (Renderers.Name n)
  = (if String.eqb n name
     then i <- f ;;
          Return {| Renderers._renderers := dict_set name f (Renderers._renderers g);
                    Renderers._renderer := Some i |}
     else match lookup n (Renderers._renderers g) with
          | Some rfactory =>
              i <- rfactory ;;
              Return {| Renderers._renderers := dict_set name f (Renderers._renderers g);
                        Renderers._renderer := Some i |}
          | None => Raise AttributeError
          end).
Proof.
  unfold Renderers.use_renderer, Renderers.register_renderer.
  cbn [Renderers._renderers Renderers._renderer].
  destruct (String.eqb n name) eqn:E.
  - apply String.eqb_eq in E. subst n. rewrite lookup_dict_set_eq. reflexivity.
  - apply String.eqb_neq in E. rewrite lookup_dict_set_neq by exact E.
    destruct (lookup n (Renderers._renderers g)); reflexivity.
Qed.

(** X17.  register_renderer adds the name at the end of what
    list_renderers reports, unless the name is registered already: then the
    list is unchanged (the factory is replaced in place). *)
Theorem X17_list_renderers_after_register
  (g : Renderers.globals) (name : string) (f : Renderers.factory) :
  Renderers.list_renderers (Renderers.register_renderer g name f)
  = (if mem name (Renderers.list_renderers g)
     then Renderers.list_renderers g
     else Renderers.list_renderers g ++ [name])%list.
Proof.
  unfold Renderers.list_renderers, Renderers.register_renderer.
  cbn [Renderers._renderers]. apply keys_dict_set.
Qed.

(** ** Binding data *)

Lemma inferred_empty {c} (o : Shelf.t c) : inferred o Viz.empty_frame = o.
Proof. unfold inferred. destruct (Shelf.type o); reflexivity. Qed.

Lemma inferred_all_empty (e : Encoding.t) : inferred_all e Viz.empty_frame = e.
Proof.
  destruct e as [x y row col size color shape p cfg]. unfold inferred_all.
  cbn [Encoding.x Encoding.y Encoding.row Encoding.col Encoding.size
       Encoding.color Encoding.shape Encoding.parent Encoding.config].
  destruct x, y, row, col, size, color, shape; cbn [option_map];
    rewrite ?inferred_empty; reflexivity.
Qed.

Lemma set_data_None (v : Viz.t) :
  Viz.data v <> None ->
  Viz.set_data v Viz.DNone
  = Return (Viz.with__data (Viz.with_data v (Some Viz.empty_frame))
              (Some (Data.new Viz.empty_frame))).
Proof.
  intros Hd. unfold Viz.set_data.
  destruct (Viz.data v) as [d|] eqn:Ed; [|congruence].
  unfold Viz._data_changed, Viz._data_changed_frame.
  destruct v as [id mt [e|] c d0 d1];
    cbn [Viz.encoding Viz.with__data Viz.with_data Viz.data Viz.self_id
         Viz.marktype Viz.vlconfig Viz._data Viz.with_encoding].
  - rewrite infer_types_frame. cbn [bind]. rewrite inferred_all_empty. reflexivity.
  - reflexivity.
Qed.

(** X18.  Assigning None to the data of a chart that has data does not
    unbind it: the handler stores the empty DataFrame and a Data wrapper for
    it, leaves encoding, vlconfig and marktype alone, and to_dict then
    reports no values. *)
Theorem X18_assigning_None_to_data_leaves_an_empty_frame (v : Viz.t) :
  Viz.data v <> None ->
  exists v' : Viz.t,
    Viz.set_data v Viz.DNone = Return v'
    /\ Viz.data v' = Some Viz.empty_frame
    /\ Viz._data v' = Some (Data.new Viz.empty_frame)
    /\ Viz.encoding v' = Viz.encoding v
    /\ Viz.vlconfig v' = Viz.vlconfig v
    /\ Viz.marktype v' = Viz.marktype v
    /\ (Viz.vlconfig v <> None ->
        exists D : list (string * value),
          Viz.to_dict v' = Return D
          /\ lookup "data" D
             = Some (VDict [("formatType", VStr "json"); ("values", VList [])])).
Proof.
  intros Hd. eexists. split; [apply set_data_None; exact Hd|].
  repeat (split; [reflexivity|]).
  intros Hc. unfold Viz.to_dict.
  cbn [Viz._data Viz.vlconfig Viz.with__data Viz.with_data].
  destruct (Viz.vlconfig v) as [c|]; [|congruence].
  eexists. split; [reflexivity|].
  rewrite lookup_dict_set_neq by discriminate. apply lookup_dict_set_eq.
Qed.

Lemma X18_witness :
  exists v' : Viz.t,
    Viz.set_data people_chart Viz.DNone = Return v'
    /\ Viz.data v' = Some Viz.empty_frame.
Proof.
  destruct (X18_assigning_None_to_data_leaves_an_empty_frame people_chart
              ltac:(discriminate)) as (v' & H1 & H2 & _).
  exists v'. split; assumption.
Defined.

(** X19.  On a chart without data, encode with channel keywords only (no
    keyword parent) followed by the assignment of a DataFrame gives the same
    chart, or the same exception, as the assignment followed by that
    encode. *)
Theorem X19_encode_and_data_binding_commute
  (h h' : heap) (v : Viz.t) (kw : Encoding.kwargs) (df : DataFrame) :
  Viz.data v = None ->
  (v1 <- Viz.encode h v kw ;; Viz.set_data v1 (Viz.DFrame df))
  = (v1 <- Viz.set_data v (Viz.DFrame df) ;; Viz.encode h' v1 kw).
Proof.
  intros Hd. unfold Viz.encode.
  rewrite set_data_frame. cbn [bind].
  rewrite (init_heap_independent h h').
  destruct (Encoding.init h' [] kw) as [e|ex]; cbn [bind]; [|reflexivity].
  rewrite !set_encoding_Some. cbn [bind]. rewrite set_data_frame.
  rewrite Hd.
  cbn [Viz.with_encoding Viz.self_id Viz.marktype Viz.encoding Viz.vlconfig
       Viz._data Viz.data option_map].
  reflexivity.
Qed.

Lemma X19_witness :
  (v1 <- Viz.encode (heap_of None) blank_chart (kw_x_only "age") ;;
   Viz.set_data v1 (Viz.DFrame people))
  = (v1 <- Viz.set_data blank_chart (Viz.DFrame people) ;;
     Viz.encode (heap_of (Some people)) v1 (kw_x_only "age")).
Proof.
  apply (X19_encode_and_data_binding_commute
           (heap_of None) (heap_of (Some people)) blank_chart (kw_x_only "age") people).
  reflexivity.
Defined.

Lemma inferred_typed {c} (o : Shelf.t c) (df : DataFrame) :
  df_contains df (Shelf.name (inferred o df)) = true ->
  Shelf.type (inferred o df) <> None.
Proof.
  unfold inferred, df_contains, df_getitem.
  destruct (Shelf.type o) eqn:Et; [intros _; congruence|].
  destruct (lookup (Shelf.name o) df) eqn:El.
  - intros _. cbn [Shelf.type Shelf.with_type]. discriminate.
  - rewrite El. discriminate.
Qed.

(** X20.  After a DataFrame is assigned to data, and after encode on a
    chart bound to a DataFrame, every channel whose name is a column of that
    DataFrame has a type. *)
Theorem X20_bound_data_types_every_channel_it_can
  (h : heap) (v v' : Viz.t) (kw : Encoding.kwargs) (df : DataFrame)
  (ch : Encoding.channel) (s : Shelf.t (Encoding.class_of ch)) :
  Viz.set_data v (Viz.DFrame df) = Return v'
  \/ (Viz.data v = Some df /\ Viz.encode h v kw = Return v') ->
  viz_channel ch v' = Some s ->
  df_contains df (Shelf.name s) = true ->
  Shelf.type s <> None.
Proof.
  intros Hop Hs Hin.
  assert (He : exists e0, viz_channel ch v' = Encoding.get ch (inferred_all e0 df)).
  { destruct Hop as [H|[Hd H]].
    - rewrite set_data_frame in H. inversion H; subst v'. unfold viz_channel in *.
      cbn [Viz.encoding] in *. destruct (Viz.encoding v) as [e0|]; [|discriminate].
      exists e0. reflexivity.
    - unfold Viz.encode in H.
      destruct (Encoding.init h [] kw) as [e|]; [|discriminate].
      cbn [bind] in H. rewrite set_encoding_Some, Hd in H.
      inversion H; subst v'. unfold viz_channel. cbn [Viz.encoding Viz.with_encoding].
      eexists. reflexivity. }
  destruct He as [e0 He]. rewrite He, get_inferred_all in Hs.
  destruct (Encoding.get ch e0) as [o|]; [|discriminate].
  cbn [option_map] in Hs. inversion Hs; subst s.
  apply inferred_typed. exact Hin.
Qed.

Lemma X20_witness : Shelf.type people_xy_x <> None.
Proof.
  apply (X20_bound_data_types_every_channel_it_can
           (heap_of None) people_chart people_xy_chart (kw_x_y "age" "city") people
           Encoding.ch_x people_xy_x).
  - right. split; reflexivity.
  - reflexivity.
  - reflexivity.
Defined.

(** ** Marks *)



(** ** Config sections *)

Lemma dict_set_NoDup {A : Type} (k : string) (v : A) (d : list (string * A)) :
  NoDup (keys d) -> NoDup (keys (dict_set k v d)).
Proof.
  induction d as [|[k' v'] r IH]; intros Hd.
  - cbn. constructor; [intros []|constructor].
  - cbn [dict_set]. destruct (String.eqb k k') eqn:E.
    + apply String.eqb_eq in E. subst k'. exact Hd.
    + cbn [keys map fst] in *. inversion Hd as [|? ? Hn Hr]; subst.
      constructor; [|apply IH; exact Hr].
      fold (keys (dict_set k v r)). rewrite keys_dict_set.
      destruct (mem k (keys r)); [exact Hn|].
      intros Hin. apply in_app_or in Hin. destruct Hin as [Hin|[Hin|[]]].
      * exact (Hn Hin).
      * apply String.eqb_neq in E. congruence.
Qed.

Lemma merge_NoDup (section : Config) :
  forall my_config : Config,
    NoDup (keys my_config) -> NoDup (keys (Shelf.merge my_config section)).
Proof.
  unfold Shelf.merge.
  induction section as [|[k v] r IH]; intros a Ha; cbn [fold_left fst snd].
  - exact Ha.
  - apply IH. apply dict_set_NoDup. exact Ha.
Qed.

(** The keys of the section override those collected so far. *)
Lemma lookup_merge (k : string) (section : Config) :
  forall my_config : Config,
    NoDup (keys section) ->
    lookup k (Shelf.merge my_config section)
    = match lookup k section with
      | Some v => Some v
      | None => lookup k my_config
      end.
Proof.
  unfold Shelf.merge.
  induction section as [|[k1 v1] r IH]; intros a Hs; cbn [fold_left fst snd lookup].
  - reflexivity.
  - cbn [keys map fst] in Hs. inversion Hs as [|? ? Hn Hr]; subst.
    rewrite (IH _ Hr).
    destruct (String.eqb k k1) eqn:E.
    + apply String.eqb_eq in E. subst k1.
      rewrite (lookup_None_not_In k r Hn). apply lookup_dict_set_eq.
    + apply String.eqb_neq in E.
      rewrite lookup_dict_set_neq by exact E. reflexivity.
Qed.

Lemma section_step_NoDup (cfg my_config : Config) (sname : string) :
  NoDup (keys my_config) ->
  NoDup (keys match lookup sname cfg with
              | Some (VDict section) => Shelf.merge my_config section
              | _ => my_config
              end).
Proof.
  intros H. destruct (lookup sname cfg) as [[]|]; try exact H.
  apply merge_NoDup. exact H.
Qed.

(** The section named after the class is merged last. *)
Lemma find_my_config_own_section (c : Shelf.cls) (cfg section : Config) :
  lookup (class_name c) cfg = Some (VDict section) ->
  exists my_config : Config,
    NoDup (keys my_config)
    /\ Shelf._find_my_config c cfg = Shelf.merge my_config section.
Proof.
  intros H. unfold Shelf._find_my_config, Shelf.section_names.
  destruct c; cbn [class_name] in H; cbn [app fold_left]; rewrite H;
    eexists; (split; [|reflexivity]);
    repeat apply section_step_NoDup; constructor.
Qed.

Lemma setattr_other {c} (s s' : Shelf.t c) (key : string) (val : value) :
  Shelf.setattr s key val = Return s' ->
  Shelf.config s' = Shelf.config s
  /\ (key <> "type" -> Shelf.type s' = Shelf.type s).
Proof.
  unfold Shelf.setattr.
  destruct (String.eqb key "name") eqn:E1.
  { destruct (Shelf.validate_unicode val); cbn [bind]; intros H; inversion H.
    split; reflexivity. }
  destruct (String.eqb key "type") eqn:E2.
  { apply String.eqb_eq in E2.
    destruct (Shelf.validate_enum Shelf.type_values val); cbn [bind];
      intros H; inversion H. split; [reflexivity|congruence]. }
  destruct (String.eqb key "timeUnit") eqn:E3.
  { destruct (Shelf.validate_enum Shelf.timeUnit_values val); cbn [bind];
      intros H; inversion H. split; reflexivity. }
  destruct (String.eqb key "aggregate") eqn:E4.
  { destruct (Shelf.validate_enum (Shelf.aggregate_values c) val); cbn [bind];
      intros H; inversion H. split; reflexivity. }
  intros H; inversion H. split; reflexivity.
Qed.

Lemma setattr_type {c} (s s' : Shelf.t c) (t : string) :
  Shelf.setattr s "type" (VStr t) = Return s' ->
  Shelf.type s' = Some t /\ mem t Shelf.type_values = true.
Proof.
  unfold Shelf.setattr. cbn [String.eqb Ascii.eqb Bool.eqb andb].
  change (String.eqb "type" "name") with false.
  change (String.eqb "type" "type") with true. cbv iota.
  unfold Shelf.validate_enum.
  destruct (mem t Shelf.type_values); cbn [bind]; intros H; inversion H.
  split; reflexivity.
Qed.

Lemma load_items_other {c} (items : Config) :
  forall s s' : Shelf.t c,
    Shelf.load_items s items = Return s' ->
    Shelf.config s' = Shelf.config s
    /\ (~ In "type" (keys items) -> Shelf.type s' = Shelf.type s).
Proof.
  induction items as [|[key val] r IH]; cbn [Shelf.load_items]; intros s s' H.
  - inversion H. split; reflexivity.
  - cbn [keys map fst In].
    destruct (mem key (Shelf.config_traits c)).
    + destruct (Shelf.setattr s key val) as [s1|] eqn:E; cbn [bind] in H;
        [|discriminate].
      destruct (IH _ _ H) as [Hc Ht].
      destruct (setattr_other _ _ _ _ E) as [Hc1 Ht1].
      split; [congruence|]. intros Hn.
      assert (Hk1 : key <> "type") by (intros Hk; apply Hn; left; exact Hk).
      assert (Hk2 : ~ In "type" (keys r)) by (intros Hk; apply Hn; right; exact Hk).
      rewrite (Ht Hk2), (Ht1 Hk1). reflexivity.
    + destruct (IH _ _ H) as [Hc Ht]. split; [exact Hc|].
      intros Hn. apply Ht. intros Hk. apply Hn. right. exact Hk.
Qed.

Lemma load_items_type {c} (t : string) (items : Config) :
  forall s s' : Shelf.t c,
    NoDup (keys items) ->
    lookup "type" items = Some (VStr t) ->
    Shelf.load_items s items = Return s' ->
    Shelf.type s' = Some t /\ mem t Shelf.type_values = true.
Proof.
  induction items as [|[key val] r IH]; cbn [Shelf.load_items lookup];
    intros s s' Hd Hl H; [discriminate|].
  cbn [keys map fst] in Hd. inversion Hd as [|? ? Hn Hr]; subst.
  destruct (String.eqb "type" key) eqn:E.
  - apply String.eqb_eq in E. subst key. inversion Hl; subst val.
    assert (Hm : mem "type" (Shelf.config_traits c) = true)
      by (destruct c; reflexivity).
    rewrite Hm in H.
    destruct (Shelf.setattr s "type" (VStr t)) as [s1|] eqn:E1;
      cbn [bind] in H; [|discriminate].
    destruct (setattr_type _ _ _ E1) as [Ht Hv].
    destruct (load_items_other _ _ _ H) as [_ Hk].
    split; [|exact Hv]. rewrite (Hk Hn). exact Ht.
  - destruct (mem key (Shelf.config_traits c)).
    + destruct (Shelf.setattr s key val) as [s1|] eqn:E1; cbn [bind] in H;
        [|discriminate].
      exact (IH _ _ Hr Hl H).
    + exact (IH _ _ Hr Hl H).
Qed.

(** X22.  A type given in the config section named after the class wins
    over the shorthand: when C(shorthand, config=cfg) returns and the
    section C of cfg has type = t (whatever else cfg holds), the type of the
    instance is t, whatever type code the shorthand carries, and t is one
    of N, O, Q, T; the instance keeps the shorthand and the config it was
    given. *)
Theorem X22_config_type_overrides_shorthand
  (c : Shelf.cls) (sh : string) (cfg section : Config) (t : string)
  (s : Shelf.t c) :
  lookup (class_name c) cfg = Some (VDict section) ->
  NoDup (keys section) ->
  lookup "type" section = Some (VStr t) ->
  Shelf.init c sh cfg = Return s ->
  Shelf.type s = Some t
  /\ In t Shelf.type_values
  /\ Shelf.shorthand s = sh
  /\ Shelf.config s = cfg.
Proof.
  intros Hsec Hnd Ht H. unfold Shelf.init in H.
  destruct (Shelf.set_shorthand (Shelf.default c) sh) as [s1|] eqn:E1;
    [|discriminate].
  cbn [bind] in H.
  destruct (Shelf.set_config s1 cfg) as [s2|] eqn:E2; [|discriminate].
  cbn [bind] in H.
  pose proof (set_shorthand_shorthand _ _ _ E1) as Hs1.
  pose proof (set_config_shorthand _ _ _ E2) as Hs2.
  unfold Shelf.set_shorthand in H. rewrite Hs2, Hs1, String.eqb_refl in H.
  inversion H; subst s; clear H.
  unfold Shelf.set_config, Shelf._load_config in E2.
  destruct (find_my_config_own_section c cfg section Hsec) as (M & HM & EM).
  rewrite EM in E2.
  assert (Hl : lookup "type" (Shelf.merge M section) = Some (VStr t))
    by (rewrite (lookup_merge "type" section M Hnd), Ht; reflexivity).
  destruct (load_items_type t _ _ _ (merge_NoDup section M HM) Hl E2) as [Hty Hv].
  destruct (load_items_other _ _ _ E2) as [Hc _].
  split; [exact Hty|]. split; [apply mem_In; exact Hv|].
  split; [congruence|]. rewrite Hc. reflexivity.
Qed.

Lemma X22_witness :
  exists s : Shelf.t Shelf.Y,
    Shelf.init Shelf.Y "age:N" Viz.hist_config = Return s
    /\ Shelf.type s = Some "Q".
Proof.
  destruct (Shelf.init Shelf.Y "age:N" Viz.hist_config) as [s|] eqn:E;
    [|vm_compute in E; discriminate E].
  exists s. split; [reflexivity|].
  refine (proj1 (X22_config_type_overrides_shorthand Shelf.Y "age:N"
                   Viz.hist_config
                   [("type", VStr "Q"); ("aggregate", VStr "count")] "Q" s
                   eq_refl _ eq_refl E)).
  repeat constructor; cbn; intuition discriminate.
Defined.

(** ** The state of a chart *)

Lemma set_single_dims_keeps (v v' : Viz.t) (width height : Z) :
  Viz.set_single_dims v width height = Return v' ->
  Viz.self_id v' = Viz.self_id v
  /\ Viz.data v' = Viz.data v
  /\ Viz._data v' = Viz._data v
  /\ Viz.vlconfig v' <> None
  /\ option_map Encoding.parent (Viz.encoding v')
     = option_map Encoding.parent (Viz.encoding v).
Proof.
  intros H. unfold Viz.set_single_dims in H.
  destruct (Viz.vlconfig v) as [c|]; [|discriminate].
  destruct (py_mul_int_float width f64_0_75) as [fw|]; [|discriminate].
  cbn [bind] in H.
  destruct (py_int fw) as [sw|]; [|discriminate]. cbn [bind] in H.
  destruct (py_mul_int_float height f64_0_75) as [fh|]; [|discriminate].
  cbn [bind] in H.
  destruct (py_int fh) as [sh|]; [|discriminate]. cbn [bind] in H.
  cbn [Viz.encoding Viz.with_vlconfig] in H.
  destruct (Viz.encoding v) as [e|]; [|discriminate].
  destruct (Encoding.x e) as [sx|]; [|discriminate].
  match type of H with
  | bind ?c _ = _ => destruct c as [sx'|]; [|discriminate]
  end.
  cbn [bind Encoding.y Encoding.with_x] in H.
  destruct (Encoding.y e) as [sy|]; [|discriminate].
  match type of H with
  | bind ?c _ = _ => destruct c as [sy'|]; [|discriminate]
  end.
  cbn [bind] in H. inversion H; subst v'; clear H.
  repeat (split; [reflexivity|]). split; [discriminate|reflexivity].
Qed.

Lemma hist_keeps (h : heap) (v v' : Viz.t) (bins : Z) (kw : Encoding.kwargs) :
  Viz.hist h v bins kw = Return v' ->
  Viz.self_id v' = Viz.self_id v
  /\ Viz.data v' = Viz.data v
  /\ Viz._data v' = Viz._data v
  /\ Viz.vlconfig v' = Viz.vlconfig v
  /\ option_map Encoding.parent (Viz.encoding v') = Some (Some (Viz.self_id v)).
Proof.
  unfold Viz.hist. rewrite mark_bar. cbn [bind]. intros H.
  destruct (Encoding.kw_y kw); [discriminate|].
  destruct (Encoding.init h Viz.hist_config _) as [e0|]; [|discriminate].
  cbn [bind] in H. rewrite set_encoding_Some in H.
  cbn [bind Viz.encoding Viz.with_encoding] in H.
  match type of H with
  | context [Some ?t] =>
      match type of t with
      | Encoding.t => remember t as e1 eqn:He1
      end
  end.
  assert (Hp1 : Encoding.parent e1 = Some (Viz.self_id v)).
  { subst e1. cbn [Viz.data Viz.with_marktype Viz.self_id].
    destruct (Viz.data v); reflexivity. }
  clear He1.
  match type of H with
  | bind ?c _ = _ => destruct c as [e2|] eqn:E2; [|discriminate]
  end.
  cbn [bind] in H.
  assert (Hp2 : Encoding.parent e2 = Some (Viz.self_id v)).
  { destruct (Viz.x_is_str kw).
    - destruct (Encoding.x e1); [|discriminate]. inversion E2. exact Hp1.
    - inversion E2; subst. exact Hp1. }
  destruct (Encoding.x e2); [|discriminate].
  destruct (Encoding.y e2); [|discriminate].
  inversion H; subst v'; clear H.
  repeat (split; [reflexivity|]).
  cbn [Viz.encoding Viz.with_encoding option_map Encoding.parent Encoding.with_y].
  rewrite Hp2. reflexivity.
Qed.

Lemma init_consistent (id : oid) (d : Viz.data_arg) (v : Viz.t) :
  Viz.init id d = Return v -> consistent v.
Proof.
  destruct d as [|df].
  - intros H. inversion H; subst v. repeat split. discriminate.
  - rewrite Viz_init_frame. intros H. inversion H; subst v.
    repeat split. discriminate.
Qed.

Lemma method_consistent (v v' : Viz.t) :
  consistent v -> method v v' -> consistent v'.
Proof.
  intros (Hd & Hc & Hp) Hm. unfold consistent.
  destruct Hm as [v d v' H|h v kw v' H|v mt v' H|v w ht v' H|h v bins kw v' H].
  - destruct d as [|df].
    + destruct (Viz.data v) as [d0|] eqn:Ed.
      * rewrite set_data_None in H by congruence.
        inversion H; subst v'.
        cbn [Viz._data Viz.data Viz.vlconfig Viz.encoding Viz.self_id
             Viz.with__data Viz.with_data option_map].
        repeat split; assumption.
      * unfold Viz.set_data in H. rewrite Ed in H. inversion H; subst v'.
        rewrite Ed in *. repeat split; assumption.
    + rewrite set_data_frame in H. inversion H; subst v'.
      cbn [Viz._data Viz.data Viz.vlconfig Viz.encoding Viz.self_id option_map].
      split; [reflexivity|]. split; [assumption|].
      destruct (Viz.encoding v); cbn [option_map]; [exact Hp|exact I].
  - unfold Viz.encode in H.
    destruct (Encoding.init h [] kw) as [e|]; [|discriminate].
    cbn [bind] in H. rewrite set_encoding_Some in H. inversion H; subst v'.
    cbn [Viz._data Viz.data Viz.vlconfig Viz.encoding Viz.self_id Viz.with_encoding].
    split; [assumption|]. split; [assumption|].
    destruct (Viz.data v); reflexivity.
  - unfold Viz.mark in H. destruct (mem mt Viz.marktype_values); [|discriminate].
    inversion H; subst v'. repeat split; assumption.
  - destruct (set_single_dims_keeps _ _ _ _ H) as (Hi & H1 & H2 & H3 & H4).
    rewrite H1, H2, Hi. split; [assumption|]. split; [assumption|].
    destruct (Viz.encoding v') as [e'|]; [|exact I].
    destruct (Viz.encoding v) as [e|]; [|discriminate].
    cbn [option_map] in H4. inversion H4 as [H5]. rewrite H5. exact Hp.
  - destruct (hist_keeps _ _ _ _ _ H) as (Hi & H1 & H2 & H3 & H4).
    rewrite H1, H2, H3, Hi. split; [assumption|]. split; [assumption|].
    destruct (Viz.encoding v') as [e'|]; [|exact I].
    cbn [option_map] in H4. inversion H4. reflexivity.
Qed.

(** X23.  Every chart built as Viz(data), with no other keyword, and then
    changed only by assignments to data and by calls of mark,
    set_single_dims, and encode and hist with channel keywords, has a
    vlconfig, a Data wrapper exactly when it has data (wrapping the current
    DataFrame) and an encoding whose parent is the chart.  So on such a
    chart to_dict raises AttributeError exactly as long as no data is
    bound, and otherwise reports the records of the current DataFrame. *)
Theorem X23_chart_invariant (v : Viz.t) :
  reachable v ->
  consistent v
  /\ match Viz.data v with
     | Some df =>
         exists D : list (string * value),
           Viz.to_dict v = Return D
           /\ lookup "data" D
              = Some (VDict [("formatType", VStr "json");
                             ("values", VList (Data.records df))])
     | None => Viz.to_dict v = Raise AttributeError
     end.
Proof.
  intros Hr.
  assert (Hc : consistent v).
  { induction Hr as [id d v H|v v' _ IH Hm].
    - exact (init_consistent id d v H).
    - exact (method_consistent v v' IH Hm). }
  split; [exact Hc|].
  destruct Hc as (Hd & Hc & _). unfold Viz.to_dict. rewrite Hd.
  destruct (Viz.data v) as [df|]; cbn [option_map]; [|reflexivity].
  destruct (Viz.vlconfig v) as [c|]; [|congruence].
  eexists. split; [reflexivity|].
  rewrite lookup_dict_set_neq by discriminate. apply lookup_dict_set_eq.
Qed.

Lemma X23_witness : consistent people_xy_chart.
Proof.
  apply (X23_chart_invariant people_xy_chart).
  apply (r_method people_chart).
  - apply (r_init O (Viz.DFrame people)). reflexivity.
  - apply (m_encode (heap_of None) people_chart (kw_x_y "age" "city")). reflexivity.
Defined.
